(** * Vendor price matcher and discontinued-items finder

    A shallow embedding of the key-normalisation and matching engine of
    [vendor_price_matcher.py] and [find_discontinued_items.py], together
    with the properties of the engine that its design document states.

    Conventions of the embedding.
    - A spreadsheet cell is a [cell]: a Python [str], an [int], [None] or the
      float [nan].  Floats other than [nan] are not represented; the code only
      copies prices and tests them with [isna], so a price is carried as any
      non-missing cell.
    - Text is modelled on ASCII: [upper] acts on the letters a-z and [strip]
      removes the ASCII characters for which Python's [str.isspace] holds.
    - A pandas [DataFrame] is a list of column names and a list of rows, each
      row a finite map from column names to cells.  A column assignment
      [df[c] = ...] updates the frame object; functions that assign columns
      return the updated frames, which is how their mutation of the caller's
      objects is made visible. *)

From Stdlib Require Import Ascii.
From stdpp Require Import base decidable countable list strings gmap fin_maps pretty.

Local Open Scope Z_scope.

(** ** Python values and string primitives *)

Module Py.

Inductive cell : Type :=
  | Str (s : string)
  | Int (z : Z)
  | PyNone
  | NaN.

#[global] Instance cell_eq_dec : EqDecision cell.
Proof. solve_decision. Defined.

#[global] Instance cell_countable : Countable cell.
Proof.
  refine (inj_countable'
    (λ c, match c with
          | Str s => inl s
          | Int z => inr (inl z)
          | PyNone => inr (inr true)
          | NaN => inr (inr false)
          end)
    (λ x, match x with
          | inl s => Str s
          | inr (inl z) => Int z
          | inr (inr true) => PyNone
          | inr (inr false) => NaN
          end) _).
  by intros [].
Defined.

#[global] Instance cell_inhabited : Inhabited cell := populate NaN.

(** [str(x)] *)
Definition str (x : cell) : string :=
  match x with
  | Str s => s
  | Int z => pretty z
  | PyNone => "None"
  | NaN => "nan"
  end.

(** [pd.isna(x)], also [Series.isna] element by element *)
Definition isna (x : cell) : bool :=
  match x with
  | PyNone | NaN => true
  | _ => false
  end.

Definition notna (x : cell) : bool := negb (isna x).

(** [x == s] for a [str] literal [s] *)
Definition eq_str (x : cell) (s : string) : bool :=
  match x with
  | Str t => bool_decide (t = s)
  | _ => false
  end.

(** [c.isspace()] on ASCII: tab, LF, VT, FF, CR, the separators 28-31, space *)
Definition isspace (c : ascii) : bool :=
  let n := nat_of_ascii c in
  ((9 <=? n)%nat && (n <=? 13)%nat) || ((28 <=? n)%nat && (n <=? 32)%nat).

Definition upper_ascii (c : ascii) : ascii :=
  let n := nat_of_ascii c in
  if (97 <=? n)%nat && (n <=? 122)%nat then ascii_of_nat (n - 32) else c.

(** [s.upper()] *)
Fixpoint upper (s : string) : string :=
  match s with
  | EmptyString => EmptyString
  | String c s' => String (upper_ascii c) (upper s')
  end.

Fixpoint lstrip (s : string) : string :=
  match s with
  | EmptyString => EmptyString
  | String c s' => if isspace c then lstrip s' else s
  end.

Fixpoint rstrip (s : string) : string :=
  match s with
  | EmptyString => EmptyString
  | String c s' =>
      match rstrip s' with
      | EmptyString => if isspace c then EmptyString else String c EmptyString
      | r => String c r
      end
  end.

(** [s.strip()] *)
Definition strip (s : string) : string := rstrip (lstrip s).

(** [s.split(sep)] for a one-character separator: never empty *)
Fixpoint split (sep : ascii) (s : string) : list string :=
  match s with
  | EmptyString => [EmptyString]
  | String c s' =>
      if bool_decide (c = sep) then EmptyString :: split sep s'
      else match split sep s' with
           | [] => [String c EmptyString]
           | p :: ps => String c p :: ps
           end
  end.

(** [sep.join(parts)] *)
Fixpoint join (sep : string) (parts : list string) : string :=
  match parts with
  | [] => EmptyString
  | [p] => p
  | p :: ps => p +:+ sep +:+ join sep ps
  end.

Fixpoint startswith (s pre : string) : bool :=
  match pre, s with
  | EmptyString, _ => true
  | String a pre', String b s' => bool_decide (a = b) && startswith s' pre'
  | String _ _, EmptyString => false
  end.

(** [sub in s]; [Series.str.contains(sub)] for a pattern without regular
    expression metacharacters *)
Fixpoint contains (s sub : string) : bool :=
  startswith s sub ||
  match s with
  | EmptyString => false
  | String _ s' => contains s' sub
  end.

(** [parts[i]] and [parts[-k]] on a list long enough *)
Definition item (parts : list string) (i : nat) : string := parts !!! i.
Definition item_neg (parts : list string) (k : nat) : string :=
  parts !!! (length parts - k)%nat.
(** [parts[1:-2]] *)
Definition slice_1_neg2 (parts : list string) : list string :=
  drop 1 (take (length parts - 2) parts).

Definition lower_ascii (c : ascii) : ascii :=
  let n := nat_of_ascii c in
  if (65 <=? n)%nat && (n <=? 90)%nat then ascii_of_nat (n + 32) else c.

(** [s.lower()] *)
Fixpoint lower (s : string) : string :=
  match s with
  | EmptyString => EmptyString
  | String c s' => String (lower_ascii c) (lower s')
  end.

(** [Path(name).stem]: the name up to its last dot, when that dot is neither
    the first nor the last character of the name; the whole name otherwise *)
Definition stem (name : string) : string :=
  let parts := split "." name in
  let before := join "." (take (length parts - 1) parts) in
  let after := item_neg parts 1 in
  if bool_decide (2 ≤ length parts)%nat
     && negb (bool_decide (before = "")) && negb (bool_decide (after = ""))
  then before else name.

(** Exceptions that the modelled code can raise, and results of fallible calls *)
Inductive exn : Type :=
  | KeyError (key : string)
  | ValueError (msg : string).

Inductive result (A : Type) : Type :=
  | Ok (a : A)
  | Raise (e : exn).
Arguments Ok {A} a.
Arguments Raise {A} e.

End Py.
Import Py.

(** ** pandas frames *)

Module Frame.

Record DataFrame : Type := mkDF {
  columns : list string;
  rows : list (gmap string cell)
}.

(** [c in df.columns] *)
Definition has_column (c : string) (df : DataFrame) : bool :=
  bool_decide (c ∈ columns df).

(** column names after [df[c] = ...]: a new name is appended *)
Definition add_name (c : string) (cols : list string) : list string :=
  if bool_decide (c ∈ cols) then cols else cols ++ [c].

(** one row of [df[c] = f(row)] *)
Definition set_cell (c : string) (f : gmap string cell → cell)
    (r : gmap string cell) : gmap string cell :=
  <[c := f r]> r.

(** one row of [df[[c1, ..., cn]] = f(row)] *)
Definition set_cells (cs : list string) (f : gmap string cell → list cell)
    (r : gmap string cell) : gmap string cell :=
  foldl (λ m cv, <[cv.1 := cv.2]> m) r (zip cs (f r)).

(** [df[c] = ...] where the right-hand side is computed row by row from
    columns of [df] itself *)
Definition assign (c : string) (f : gmap string cell → cell)
    (df : DataFrame) : DataFrame :=
  mkDF (add_name c (columns df)) (set_cell c f <$> rows df).

(** [df[[c1, ..., cn]] = ...] *)
Definition assign_columns (cs : list string) (f : gmap string cell → list cell)
    (df : DataFrame) : DataFrame :=
  mkDF (foldl (λ cols c, add_name c cols) (columns df) cs)
       (set_cells cs f <$> rows df).

(** [df[c]] as the list of its values *)
Definition column (c : string) (df : DataFrame) : list cell :=
  (λ r, r !!! c) <$> rows df.

(** [df[mask]] for a mask computed row by row *)
Definition select (p : gmap string cell → bool) (df : DataFrame) : DataFrame :=
  mkDF (columns df) (filter (λ r, p r) (rows df)).

(** [len(df)] *)
Definition len (df : DataFrame) : Z := Z.of_nat (length (rows df)).

(** [dict(zip(keys, values))]: a later pair overwrites an earlier one *)
Definition dict_zip (keys values : list cell) : gmap cell cell :=
  foldl (λ d kv, <[kv.1 := kv.2]> d) ∅ (zip keys values).

(** one element of [Series.map(d)]: a key that is not in [d] gives [nan] *)
Definition series_map (d : gmap cell cell) (k : cell) : cell :=
  default NaN (d !! k).

(** one element of [s.astype(str).str.upper().str.strip()] *)
Definition norm (x : cell) : cell := Str (strip (upper (str x))).

(** one element of [s.fillna('')] *)
Definition fillna_empty (x : cell) : cell := if isna x then Str "" else x.

(** one element of [a + b] on two columns of strings *)
Definition cat (a b : cell) : cell := Str (str a +:+ str b).

(** A workbook saved by the run: its file name and the data rows of its
    sheet, below the header rows *)
Record xlsx : Type := mkXlsx {
  file_name : string;
  data_rows : list (list cell)
}.

End Frame.
Import Frame.

(** ** vendor_price_matcher.py *)

Module PriceMatcher.

Definition SIZE_MAPPING : gmap string string :=
  list_to_map
    [("XS", "XSM"); ("S", "SM"); ("M", "MD"); ("L", "LG"); ("XL", "XLG");
     ("2XL", "2XLG"); ("3XL", "3XLG"); ("4XL", "4XLG"); ("5XL", "5XLG")].

(** An entry of the style list: ['style'] or [('style', 'color')] *)
Inductive config : Type :=
  | StyleOnly (style : string)
  | StyleColor (style color : string).

Definition STYLES_USING_G_SIZES : list config :=
  [StyleOnly "2278"; StyleOnly "3483"; StyleColor "2795" "SILVER"].

(** [parse_item_no]: Style, Color, Size, Variable of an item number *)
Definition parse_item_no (item_no : cell) : cell * cell * cell * cell :=
  let parts := split "-" (str item_no) in
  if bool_decide (length parts = 4%nat) then
    (Str (item parts 0), Str (item parts 1), Str (item parts 2), Str (item parts 3))
  else if bool_decide (length parts = 3%nat) then
    (Str (item parts 0), Str (item parts 1), Str (item parts 2), PyNone)
  else if bool_decide (4 < length parts)%nat then
    let style := item parts 0 in
    let variable := item_neg parts 1 in
    let size := item_neg parts 2 in
    let color := join "-" (slice_1_neg2 parts) in
    (Str style, Str color, Str size, Str variable)
  else
    (PyNone, PyNone, PyNone, PyNone).

(** [mapping.get(size, size)] *)
Definition mapping_get (mapping : gmap string string) (size : cell) : cell :=
  match size with
  | Str s => match mapping !! s with Some t => Str t | None => size end
  | _ => size
  end.

(** [apply_conditional_size_mapping], with the mapping table it consults as
    an argument; the source consults the module constant [SIZE_MAPPING] *)
Definition apply_conditional_size_mapping_with (mapping : gmap string string)
    (row : gmap string cell) (styles_using_g_sizes : list config) : cell :=
  let style := row !!! "Style" in
  let color := row !!! "Color" in
  let size := row !!! "Size" in
  (fix loop (configs : list config) : cell :=
     match configs with
     | [] => size
     | StyleColor s c :: configs' =>
         if eq_str style s && eq_str color c then mapping_get mapping size
         else loop configs'
     | StyleOnly s :: configs' =>
         if eq_str style s then mapping_get mapping size
         else loop configs'
     end) styles_using_g_sizes.

Definition apply_conditional_size_mapping (row : gmap string cell)
    (styles_using_g_sizes : list config) : cell :=
  apply_conditional_size_mapping_with SIZE_MAPPING row styles_using_g_sizes.

(** [create_output_file]: the workbook's name and its rows below the two
    header rows; styling is not modelled *)
Definition create_output_file (oitm_filtered : DataFrame) (vendor_name : string) : xlsx :=
  mkXlsx (vendor_name +:+ "_OITM_Updated.xlsx")
         ((λ row, [row !!! "Item No."; row !!! "Price"]) <$> rows oitm_filtered).

(** [match_prices].  Both frames are updated in place by the column
    assignments; the result carries the two frames as they are when the
    function returns, the first being the returned object.

    [Series.apply] on a frame without rows yields an empty [Series], which
    cannot be assigned to the four columns: pandas raises [ValueError].  A
    read of a column that the frame lacks raises [KeyError].  After an
    exception the frames are not described. *)
Definition match_prices (oitm_df vpl_df : DataFrame)
    (styles_using_g_sizes : list config) : result (DataFrame * DataFrame) :=
  if negb (has_column "Item No." oitm_df) then Raise (KeyError "Item No.")
  else if bool_decide (rows oitm_df = []) then
    Raise (ValueError "Columns must be same length as key")
  else
  (* Parse OITM Item No. *)
  let oitm_df := assign_columns ["Style"; "Color"; "Size"; "Variable"]
    (λ row, let '(style, color, size, variable) := parse_item_no (row !!! "Item No.") in
            [style; color; size; variable]) oitm_df in
  (* Apply size mapping conditionally *)
  let oitm_df := assign "Size_Mapped"
    (λ row, apply_conditional_size_mapping row styles_using_g_sizes) oitm_df in
  (* Normalize OITM fields *)
  let oitm_df := assign "Style_norm" (λ row, norm (row !!! "Style")) oitm_df in
  let oitm_df := assign "Color_norm" (λ row, norm (row !!! "Color")) oitm_df in
  let oitm_df := assign "Size_norm" (λ row, norm (row !!! "Size")) oitm_df in
  let oitm_df := assign "Size_Mapped_norm" (λ row, norm (row !!! "Size_Mapped")) oitm_df in
  let oitm_df := assign "Variable_norm"
    (λ row, norm (fillna_empty (row !!! "Variable"))) oitm_df in
  (* Normalize VPL fields *)
  if negb (has_column "Vendor Style" vpl_df) then Raise (KeyError "Vendor Style") else
  let vpl_df := assign "Style_norm" (λ row, norm (row !!! "Vendor Style")) vpl_df in
  if negb (has_column "Color" vpl_df) then Raise (KeyError "Color") else
  let vpl_df := assign "Color_norm" (λ row, norm (row !!! "Color")) vpl_df in
  if negb (has_column "Size" vpl_df) then Raise (KeyError "Size") else
  let vpl_df := assign "Size_norm" (λ row, norm (row !!! "Size")) vpl_df in
  if negb (has_column "Variable" vpl_df) then Raise (KeyError "Variable") else
  let vpl_df := assign "Variable_norm"
    (λ row, norm (fillna_empty (row !!! "Variable"))) vpl_df in
  (* Create lookup keys *)
  let vpl_df := assign "Lookup_Key_4"
    (λ row, cat (cat (cat (cat (cat (cat (row !!! "Style_norm") (Str "|"))
                                    (row !!! "Color_norm")) (Str "|"))
                          (row !!! "Size_norm")) (Str "|"))
                (row !!! "Variable_norm")) vpl_df in
  let vpl_df := assign "Lookup_Key_3"
    (λ row, cat (cat (cat (cat (row !!! "Style_norm") (Str "|"))
                          (row !!! "Color_norm")) (Str "|"))
                (row !!! "Size_norm")) vpl_df in
  let oitm_df := assign "Lookup_Key_4_Mapped"
    (λ row, cat (cat (cat (cat (cat (cat (row !!! "Style_norm") (Str "|"))
                                    (row !!! "Color_norm")) (Str "|"))
                          (row !!! "Size_Mapped_norm")) (Str "|"))
                (row !!! "Variable_norm")) oitm_df in
  let oitm_df := assign "Lookup_Key_3_Mapped"
    (λ row, cat (cat (cat (cat (row !!! "Style_norm") (Str "|"))
                          (row !!! "Color_norm")) (Str "|"))
                (row !!! "Size_Mapped_norm")) oitm_df in
  (* Create lookup dictionaries *)
  if negb (has_column "Price" vpl_df) then Raise (KeyError "Price") else
  let price_lookup_4 := dict_zip (column "Lookup_Key_4" vpl_df) (column "Price" vpl_df) in
  let price_lookup_3 := dict_zip (column "Lookup_Key_3" vpl_df) (column "Price" vpl_df) in
  (* Match prices with MAPPED sizes *)
  let oitm_df := assign "Price"
    (λ row, series_map price_lookup_4 (row !!! "Lookup_Key_4_Mapped")) oitm_df in
  let oitm_df := assign "Price"
    (λ row, if isna (row !!! "Price")
            then series_map price_lookup_3 (row !!! "Lookup_Key_3_Mapped")
            else row !!! "Price") oitm_df in
  Ok (oitm_df, vpl_df).

(** The summary that [process_vendor] returns.  Its [match_rate] (a float)
    and its [size_mapped] statistic are left out. *)
Record vendor_result : Type := mkResult {
  vendor : string;
  total_skus : Z;
  matched_skus : Z;
  removed_skus : Z;
  output_file : string;
  removed_items : list cell
}.

Definition REQUIRED_VPL_COLS : list string :=
  ["Vendor Style"; "Color"; "Size"; "Variable"; "Price"].

(** [process_vendor], from the two frames that [pd.read_excel] delivered:
    the returned summary ([None] after a diagnostic) and the workbooks it
    saved.  Console output is not modelled. *)
Definition process_vendor (vendor_name : string) (oitm_df vpl_df : DataFrame)
    (styles_using_g_sizes : list config) : option vendor_result * list xlsx :=
  (* Validate columns *)
  if negb (has_column "Item No." oitm_df) then (None, [])
  else
  let missing_cols := filter (λ col, col ∉ columns vpl_df) REQUIRED_VPL_COLS in
  if negb (bool_decide (missing_cols = [])) then (None, [])
  else
  (* Match prices *)
  match match_prices oitm_df vpl_df styles_using_g_sizes with
  | Raise e => (None, [])                      (* except Exception *)
  | Ok (oitm_df, vpl_df) =>
      (* Statistics *)
      let total_skus := len oitm_df in
      let matched_skus := len (select (λ row, notna (row !!! "Price")) oitm_df) in
      let removed_skus := total_skus - matched_skus in
      (* Get list of removed items *)
      let removed_items :=
        column "Item No." (select (λ row, isna (row !!! "Price")) oitm_df) in
      (* Filter to only matched rows *)
      let oitm_filtered := select (λ row, notna (row !!! "Price")) oitm_df in
      (* Create output file *)
      let output := create_output_file oitm_filtered vendor_name in
      (Some (mkResult vendor_name total_skus matched_skus removed_skus
                      (file_name output) removed_items),
       [output])
  end.

(** Rows appended to the sheet "Removed SKUs" by [create_summary_report] *)
Definition removed_sheet_rows (results : list vendor_result) : list (list cell) :=
  results ≫= λ result,
    if bool_decide (removed_items result = []) then []
    else (λ item_no, [Str (vendor result); item_no; Str "No matching price found"])
           <$> removed_items result.

(** The loop of [main] over the vendor pairs: the summaries kept in
    [results] and the workbooks saved by the pairs *)
Definition process_all (pairs : list (string * DataFrame * DataFrame))
  : list vendor_result * list xlsx :=
  foldl (λ acc pair,
           let '(vendor_name, oitm_df, vpl_df) := pair in
           let '(result, files) :=
             process_vendor vendor_name oitm_df vpl_df STYLES_USING_G_SIZES in
           (match result with
            | Some r => acc.1 ++ [r]
            | None => acc.1
            end, acc.2 ++ files))
        ([], []) pairs.

(** [find_file_pairs], from the file names that its three globs deliver:
    [*OITM*.xlsx], [*VPL*.xlsx] and [*DTW*.xlsx].  A file is paired with the
    first price list whose lowercased name contains its lowercased vendor
    code; a file without such a list is left out after a warning. *)
Definition find_file_pairs (oitm_glob vpl_glob dtw_glob : list string)
  : list (string * string) :=
  let oitm_files := oitm_glob in
  let vpl_files := vpl_glob ++ dtw_glob in
  oitm_files ≫= λ oitm_file,
    let vendor_code := item (split "_" (stem oitm_file)) 0 in
    match list_find (λ vpl_file, contains (lower vpl_file) (lower vendor_code) = true)
                    vpl_files with
    | Some (_, matching_vpl) => [(oitm_file, matching_vpl)]
    | None => []
    end.



End PriceMatcher.

(** ** find_discontinued_items.py *)

Module Discontinued.

Definition parse_item_no (item_no : cell) : cell * cell * cell * cell :=
  let parts := split "-" (str item_no) in
  if bool_decide (length parts = 4%nat) then
    (Str (item parts 0), Str (item parts 1), Str (item parts 2), Str (item parts 3))
  else if bool_decide (length parts = 3%nat) then
    (Str (item parts 0), Str (item parts 1), Str (item parts 2), PyNone)
  else if bool_decide (4 < length parts)%nat then
    let style := item parts 0 in
    let variable := item_neg parts 1 in
    let size := item_neg parts 2 in
    let color := join "-" (slice_1_neg2 parts) in
    (Str style, Str color, Str size, Str variable)
  else
    (PyNone, PyNone, PyNone, PyNone).

(** [create_lookup_key] *)
Definition create_lookup_key (style color size variable : cell) : string :=
  let style_n := strip (upper (str style)) in
  let color_n := strip (upper (str color)) in
  let size_n := strip (upper (str size)) in
  let var_n :=
    if isna variable
       || bool_decide (variable = PyNone)
       || bool_decide (strip (str variable) = "")
       || bool_decide (strip (upper (str variable)) ∈ ["NONE"; "NAN"])
    then ""
    else strip (upper (str variable)) in
  if negb (bool_decide (var_n = "")) then
    style_n +:+ "|" +:+ color_n +:+ "|" +:+ size_n +:+ "|" +:+ var_n
  else
    style_n +:+ "|" +:+ color_n +:+ "|" +:+ size_n.

Definition COLUMN_MAPPINGS : list (string * string) :=
  [("vendor style", "Vendor Style"); ("color", "Color"); ("size", "Size");
   ("variable", "Variable"); ("style name", "Style Name"); ("stylename", "Style Name")].

(** [normalize_dtw_columns], on the labels of the frame's columns; the cells
    stay under their columns.  [col_mapping] keeps, for each lowercased and
    trimmed label, the last column that carries it; [rename_dict] sends the
    column kept under a searched label to the standard label, unless it has
    that label already. *)
Definition col_mapping (columns : list string) : gmap string string :=
  foldl (λ d col, <[strip (lower col) := col]> d) ∅ columns.

Definition rename_dict (col_mapping : gmap string string)
    (column_mappings : list (string * string)) : gmap string string :=
  foldl (λ d mapping,
           let '(search_name, standard_name) := mapping in
           match col_mapping !! search_name with
           | Some actual_col =>
               if negb (bool_decide (actual_col = standard_name))
               then <[actual_col := standard_name]> d else d
           | None => d
           end)
        ∅ column_mappings.

Definition normalize_dtw_columns (columns : list string) : list string :=
  let rename_dict := rename_dict (col_mapping columns) COLUMN_MAPPINGS in
  (λ col, default col (rename_dict !! col)) <$> columns.

(** The summary that [find_discontinued_items] returns *)
Record vendor_result : Type := mkResult {
  vendor : string;
  total_oitm : Z;
  discontinued_in_dtw : Z;
  matched_to_deactivate : Z;
  output_file : option string;
  items_list : option (list cell)
}.

Definition REQUIRED_COLS : list string := ["Vendor Style"; "Color"; "Size"].

(** [find_discontinued_items], from the OITM frame and the DTW frame as
    [normalize_dtw_columns] leaves it: the returned summary ([None] after a
    diagnostic) and the workbooks it saved.  As in [match_prices], the parse
    of an OITM frame without rows raises, which the [except] clause turns
    into [None]. *)
Definition find_discontinued_items (vendor_name : string)
    (oitm_df dtw_df : DataFrame) : option vendor_result * list xlsx :=
  if negb (has_column "ItemCode" oitm_df) then (None, [])
  else if negb (has_column "Style Name" dtw_df) then (None, [])
  else
  let missing_cols := filter (λ col, col ∉ columns dtw_df) REQUIRED_COLS in
  if negb (bool_decide (missing_cols = [])) then (None, [])
  else if bool_decide (rows oitm_df = []) then (None, [])   (* except Exception *)
  else
  (* Parse OITM ItemCode *)
  let oitm_df := assign_columns ["Style"; "Color"; "Size"; "Variable"]
    (λ row, let '(style, color, size, variable) := parse_item_no (row !!! "ItemCode") in
            [style; color; size; variable]) oitm_df in
  (* Create OITM lookup keys *)
  let oitm_df := assign "Lookup_Key"
    (λ row, Str (create_lookup_key (row !!! "Style") (row !!! "Color")
                                   (row !!! "Size") (row !!! "Variable"))) oitm_df in
  (* Handle Variable column in DTW (might not exist) *)
  let dtw_df := if negb (has_column "Variable" dtw_df)
                then assign "Variable" (λ _, PyNone) dtw_df else dtw_df in
  (* Create DTW lookup keys *)
  let dtw_df := assign "Lookup_Key"
    (λ row, Str (create_lookup_key (row !!! "Vendor Style") (row !!! "Color")
                                   (row !!! "Size") (row !!! "Variable"))) dtw_df in
  (* Filter DTW for DISCONTINUED items (case-insensitive) *)
  let discontinued_dtw :=
    select (λ row, contains (upper (str (row !!! "Style Name"))) "DISCONTINUED") dtw_df in
  if bool_decide (len discontinued_dtw = 0) then
    (Some (mkResult vendor_name (len oitm_df) 0 0 None None), [])
  else
  (* Find matches between OITM and discontinued DTW items *)
  let discontinued_lookup_keys : gset cell :=
    list_to_set (column "Lookup_Key" discontinued_dtw) in
  let oitm_to_deactivate :=
    select (λ row, bool_decide (row !!! "Lookup_Key" ∈ discontinued_lookup_keys)) oitm_df in
  if bool_decide (len oitm_to_deactivate = 0) then
    (Some (mkResult vendor_name (len oitm_df) (len discontinued_dtw) 0 None None), [])
  else
  (* Create deactivation file *)
  let output :=
    mkXlsx (vendor_name +:+ "_DEACTIVATE_DTW.xlsx")
           ((λ row, [row !!! "ItemCode"; Str "Y"; Str "N"]) <$> rows oitm_to_deactivate) in
  (Some (mkResult vendor_name (len oitm_df) (len discontinued_dtw)
                  (len oitm_to_deactivate) (Some (file_name output))
                  (Some (column "ItemCode" oitm_to_deactivate))),
   [output]).

(** The loop of [main] over the vendor pairs *)
Definition process_all (pairs : list (string * DataFrame * DataFrame))
  : list vendor_result * list xlsx :=
  foldl (λ acc pair,
           let '(vendor_name, oitm_df, dtw_df) := pair in
           let '(result, files) := find_discontinued_items vendor_name oitm_df dtw_df in
           (match result with
            | Some r => acc.1 ++ [r]
            | None => acc.1
            end, acc.2 ++ files))
        ([], []) pairs.

(** [find_file_pairs], from the file names that its three globs deliver; the
    discontinuation lists come before the price lists *)
Definition find_file_pairs (oitm_glob vpl_glob dtw_glob : list string)
  : list (string * string) :=
  let oitm_files := oitm_glob in
  let dtw_files := dtw_glob ++ vpl_glob in
  oitm_files ≫= λ oitm_file,
    let vendor_code := item (split "_" (stem oitm_file)) 0 in
    match list_find (λ dtw_file, contains (lower dtw_file) (lower vendor_code) = true)
                    dtw_files with
    | Some (_, matching_dtw) => [(oitm_file, matching_dtw)]
    | None => []
    end.

(** [create_summary_report]: the rows appended to the sheet "Deactivation
    Summary"; styling and the time-stamped file name are not modelled *)
Definition create_summary_report (results : list vendor_result) : list (list cell) :=
  let headers := [Str "Vendor"; Str "Total OITM Items"; Str "Discontinued in DTW";
                  Str "Items to Deactivate"; Str "Output File"] in
  let '(sheet, total_deactivated) :=
    foldl (λ acc result,
             (acc.1 ++ [[Str (vendor result);
                         Int (total_oitm result);
                         Int (discontinued_in_dtw result);
                         Int (matched_to_deactivate result);
                         match output_file result with
                         | Some name =>
                             if bool_decide (name = "") then Str "No items to deactivate"
                             else Str name
                         | None => Str "No items to deactivate"
                         end]],
              acc.2 + matched_to_deactivate result))
          ([headers], 0) results in
  sheet ++ [[];
            [Str "TOTAL";
             Int (foldl Z.add 0 (total_oitm <$> results));
             Int (foldl Z.add 0 (discontinued_in_dtw <$> results));
             Int total_deactivated;
             Str ""]].

End Discontinued.

(** ** Row equations of [match_prices]

    What the column assignments of [match_prices] establish, read row by row:
    [w] is a row of a frame when the function returns and [v] the row in the
    same position when it was called. *)

Module RowEquations.
Import PriceMatcher.

(** Columns that [match_prices] assigns in the vendor frame *)
Definition VPL_ASSIGNED : list string :=
  ["Style_norm"; "Color_norm"; "Size_norm"; "Variable_norm";
   "Lookup_Key_4"; "Lookup_Key_3"].

(** Columns that [match_prices] assigns in the internal-item frame *)
Definition OITM_ASSIGNED : list string :=
  ["Style"; "Color"; "Size"; "Variable"; "Size_Mapped";
   "Style_norm"; "Color_norm"; "Size_norm"; "Size_Mapped_norm"; "Variable_norm";
   "Lookup_Key_4_Mapped"; "Lookup_Key_3_Mapped"; "Price"].

(** [a|b|c|d] and [a|b|c] on cells that hold strings *)
Definition key4 (a b c d : cell) : cell :=
  Str (str a +:+ "|" +:+ str b +:+ "|" +:+ str c +:+ "|" +:+ str d).
Definition key3 (a b c : cell) : cell :=
  Str (str a +:+ "|" +:+ str b +:+ "|" +:+ str c).

Record vpl_row_ok (v w : gmap string cell) : Prop := {
  vpl_style_norm : w !!! "Style_norm" = norm (w !!! "Vendor Style");
  vpl_color_norm : w !!! "Color_norm" = norm (w !!! "Color");
  vpl_size_norm : w !!! "Size_norm" = norm (w !!! "Size");
  vpl_variable_norm : w !!! "Variable_norm" = norm (fillna_empty (w !!! "Variable"));
  vpl_key_4 : w !!! "Lookup_Key_4" =
    key4 (w !!! "Style_norm") (w !!! "Color_norm") (w !!! "Size_norm")
         (w !!! "Variable_norm");
  vpl_key_3 : w !!! "Lookup_Key_3" =
    key3 (w !!! "Style_norm") (w !!! "Color_norm") (w !!! "Size_norm");
  vpl_frame : ∀ c, c ∉ VPL_ASSIGNED → w !! c = v !! c
}.

(** The price that the two lookups of [match_prices] leave in a row with the
    keys [k4] and [k3] *)
Definition two_tier (price_lookup_4 price_lookup_3 : gmap cell cell) (k4 k3 : cell) : cell :=
  match price_lookup_4 !! k4 with
  | Some p => if isna p then default NaN (price_lookup_3 !! k3) else p
  | None => default NaN (price_lookup_3 !! k3)
  end.

Record oitm_row_ok (styles_using_g_sizes : list config)
    (price_lookup_4 price_lookup_3 : gmap cell cell)
    (v w : gmap string cell) : Prop := {
  oitm_parsed :
    (w !!! "Style", w !!! "Color", w !!! "Size", w !!! "Variable")
      = parse_item_no (w !!! "Item No.");
  oitm_size_mapped :
    w !!! "Size_Mapped" = apply_conditional_size_mapping w styles_using_g_sizes;
  oitm_style_norm : w !!! "Style_norm" = norm (w !!! "Style");
  oitm_color_norm : w !!! "Color_norm" = norm (w !!! "Color");
  oitm_size_norm : w !!! "Size_norm" = norm (w !!! "Size");
  oitm_size_mapped_norm : w !!! "Size_Mapped_norm" = norm (w !!! "Size_Mapped");
  oitm_variable_norm : w !!! "Variable_norm" = norm (fillna_empty (w !!! "Variable"));
  oitm_key_4 : w !!! "Lookup_Key_4_Mapped" =
    key4 (w !!! "Style_norm") (w !!! "Color_norm") (w !!! "Size_Mapped_norm")
         (w !!! "Variable_norm");
  oitm_key_3 : w !!! "Lookup_Key_3_Mapped" =
    key3 (w !!! "Style_norm") (w !!! "Color_norm") (w !!! "Size_Mapped_norm");
  oitm_price : w !!! "Price" =
    two_tier price_lookup_4 price_lookup_3
             (w !!! "Lookup_Key_4_Mapped") (w !!! "Lookup_Key_3_Mapped");
  oitm_frame : ∀ c, c ∉ OITM_ASSIGNED → w !! c = v !! c
}.

(** [dict(zip(vpl_df['Lookup_Key_4'], vpl_df['Price']))] and its 3-part
    counterpart, on the vendor frame as [match_prices] leaves it *)
Definition price_lookup_4 (vpl_df : DataFrame) : gmap cell cell :=
  dict_zip (column "Lookup_Key_4" vpl_df) (column "Price" vpl_df).
Definition price_lookup_3 (vpl_df : DataFrame) : gmap cell cell :=
  dict_zip (column "Lookup_Key_3" vpl_df) (column "Price" vpl_df).

End RowEquations.

(** ** Vocabulary of the size rules *)

Module SizeRules.
Import PriceMatcher.

(** A bare-style entry matches on the style alone, a pair only on that exact
    style and color *)
Definition config_matches (style color : cell) (config : config) : bool :=
  match config with
  | StyleOnly s => eq_str style s
  | StyleColor s c => eq_str style s && eq_str color c
  end.

(** [a] is not [b] but normalises to the same text: the two differ only in
    letter case or surrounding whitespace *)
Definition differs_in_case_or_space (a b : string) : Prop :=
  a ≠ b ∧ strip (upper a) = strip (upper b).

(** The fields ([style], [color]) miss the entry only by letter case or
    surrounding whitespace *)
Definition near_miss (style color : string) (config : config) : Prop :=
  match config with
  | StyleOnly s => differs_in_case_or_space style s
  | StyleColor s c =>
      (style ≠ s ∨ color ≠ c) ∧
      strip (upper style) = strip (upper s) ∧ strip (upper color) = strip (upper c)
  end.

(** The fields that match the entry exactly, for an item of color [color] *)
Definition exact_form (color : string) (config : config) : string * string :=
  match config with
  | StyleOnly s => (s, color)
  | StyleColor s c => (s, c)
  end.

End SizeRules.

(** ** Vocabulary of the canonical key *)

Module Keys.

(** A field stringified, uppercased and trimmed *)
Definition normal (x : cell) : string := strip (upper (str x)).

(** The variant is a missing value, or its text trimmed and uppercased is
    empty, NONE or NAN *)
Definition variant_absent (variable : cell) : bool :=
  isna variable || bool_decide (upper (strip (str variable)) ∈ [""; "NONE"; "NAN"]).

(** [STYLE|COLOR|SIZE] and [STYLE|COLOR|SIZE|VARIANT] *)
Definition three_part (style color size : cell) : string :=
  normal style +:+ "|" +:+ normal color +:+ "|" +:+ normal size.
Definition four_part (style color size : cell) (variant : string) : string :=
  normal style +:+ "|" +:+ normal color +:+ "|" +:+ normal size +:+ "|" +:+ variant.

(** The fourth field of the 4-part lookup keys of [match_prices]: empty for
    a missing value, the normalised text otherwise *)
Definition variable_field (variable : cell) : string :=
  if isna variable then "" else normal variable.

End Keys.

(** ** Vocabulary of the discontinuation mode *)

Module Flagging.
Import Discontinued.

(** The canonical key of an internal item: parsed, no size mapping *)
Definition item_key (item_code : cell) : cell :=
  let '(style, color, size, variable) := parse_item_no item_code in
  Str (create_lookup_key style color size variable).

(** The canonical key of a vendor row; a frame without the column Variable
    counts as one whose variants are all missing *)
Definition vendor_key (has_variable : bool) (v : gmap string cell) : cell :=
  Str (create_lookup_key (v !!! "Vendor Style") (v !!! "Color") (v !!! "Size")
         (if has_variable then v !!! "Variable" else PyNone)).

(** The descriptive name contains DISCONTINUED, whatever the letter case *)
Definition marked_discontinued (v : gmap string cell) : bool :=
  contains (upper (str (v !!! "Style Name"))) "DISCONTINUED".

(** The canonical keys of the vendor rows marked as discontinued *)
Definition discontinued_keys (dtw_df : DataFrame) : list cell :=
  vendor_key (has_column "Variable" dtw_df)
    <$> filter (λ v, marked_discontinued v) (rows dtw_df).

(** The item codes written to the deactivation workbooks of a run *)
Definition flagged (out : option vendor_result * list xlsx) : list cell :=
  out.2 ≫= λ file, (λ row, row !!! 0%nat) <$> data_rows file.

(** The frames carry the columns that [find_discontinued_items] requires *)
Definition valid_columns (oitm_df dtw_df : DataFrame) : Prop :=
  has_column "ItemCode" oitm_df = true ∧ has_column "Style Name" dtw_df = true ∧
  Forall (λ c, has_column c dtw_df = true) REQUIRED_COLS.

End Flagging.

(** ** Vocabulary of a run over several pairs *)

Module Batch.

(** What the call for one pair adds to the list [results] of [main] and to
    the saved workbooks *)
Definition outcome {R : Type} (out : option R * list xlsx) : list R * list xlsx :=
  (match out.1 with
   | Some r => [r]
   | None => []
   end, out.2).

(** The data rows of all the workbooks of a run *)
Definition written (files : list xlsx) : list (list cell) := files ≫= data_rows.

(** The row of a pair in the sheet "Deactivation Summary" *)
Definition summary_row (result : Discontinued.vendor_result) : list cell :=
  [Str (Discontinued.vendor result);
   Int (Discontinued.total_oitm result);
   Int (Discontinued.discontinued_in_dtw result);
   Int (Discontinued.matched_to_deactivate result);
   match Discontinued.output_file result with
   | Some name => if bool_decide (name = "") then Str "No items to deactivate" else Str name
   | None => Str "No items to deactivate"
   end].

End Batch.

(** ** Vocabulary of the file names *)

Module Files.

(** The vendor code of an internal-item file: its stem up to the first '_' *)
Definition vendor_code (oitm_file : string) : string :=
  item (split "_" (stem oitm_file)) 0.

(** The lowercased name of the list contains the lowercased vendor code *)
Definition names_vendor (oitm_file list_file : string) : Prop :=
  contains (lower list_file) (lower (vendor_code oitm_file)) = true.

#[global] Instance names_vendor_dec (oitm_file list_file : string) :
  Decision (names_vendor oitm_file list_file).
Proof. unfold names_vendor. apply _. Defined.

(** The label of a column as [normalize_dtw_columns] compares it *)
Definition label_key (col : string) : string := strip (lower col).

End Files.

(** ** Sample tables *)

Module Samples.
Import PriceMatcher.

(** An internal-item frame with the one column [name] *)
Definition oitm_of (name : string) (items : list cell) : DataFrame :=
  mkDF [name] ((λ x, {[ name := x ]}) <$> items).

Definition vpl_row (style color size variable price : cell) : gmap string cell :=
  <["Vendor Style" := style]> (<["Color" := color]> (<["Size" := size]>
    (<["Variable" := variable]> {["Price" := price]}))).

Definition vpl_of (table : list (gmap string cell)) : DataFrame :=
  mkDF ["Vendor Style"; "Color"; "Size"; "Variable"; "Price"] table.

(** The two frames after a call of [match_prices] that returned *)
Definition frames_after (r : result (DataFrame * DataFrame)) : DataFrame * DataFrame :=
  match r with
  | Ok p => p
  | Raise _ => (mkDF [] [], mkDF [] [])
  end.

(** The fallback example of the design document: a vendor row with variant 1
    at 10.00 and a vendor row without variant at 8.00 *)
Definition demo_oitm : DataFrame :=
  oitm_of "Item No." [Str "A-RED-M-1"; Str "A-RED-M-2"; Str "B-RED-M"].
Definition demo_vpl : DataFrame :=
  vpl_of [vpl_row (Str "A") (Str "Red") (Str "M") (Int 1) (Int 10);
          vpl_row (Str "A") (Str "Red") (Str "M") NaN (Int 8)].
Definition demo_after : DataFrame * DataFrame :=
  frames_after (match_prices demo_oitm demo_vpl STYLES_USING_G_SIZES).

(** A vendor row whose price cell is empty, and a row without variant *)
Definition gap_oitm : DataFrame := oitm_of "Item No." [Str "A-RED-M-1"].
Definition gap_vpl : DataFrame :=
  vpl_of [vpl_row (Str "A") (Str "RED") (Str "M") (Int 1) NaN;
          vpl_row (Str "A") (Str "RED") (Str "M") NaN (Int 8)].
Definition gap_after : DataFrame * DataFrame :=
  frames_after (match_prices gap_oitm gap_vpl STYLES_USING_G_SIZES).

(** An item code without hyphens, and a vendor row whose fields read
    "None" *)
Definition none_oitm : DataFrame := oitm_of "Item No." [Str "BADCODE"].
Definition none_vpl : DataFrame :=
  vpl_of [vpl_row (Str "None") (Str "none") (Str " NONE") NaN (Int 5)].

(** The same vendor row with an empty price cell *)
Definition unpriced_vpl : DataFrame :=
  vpl_of [vpl_row (Str "None") (Str "none") (Str " NONE") NaN NaN].
Definition unpriced_after : DataFrame * DataFrame :=
  frames_after (match_prices none_oitm unpriced_vpl STYLES_USING_G_SIZES).

(** Two vendor rows with the same 4-part key *)
Definition dup_vpl : DataFrame :=
  vpl_of [vpl_row (Str "A") (Str "RED") (Str "M") (Int 1) (Int 10);
          vpl_row (Str "A") (Str "RED") (Str "M") (Int 1) (Int 12)].
Definition dup_after : DataFrame * DataFrame :=
  frames_after (match_prices gap_oitm dup_vpl STYLES_USING_G_SIZES).
Definition none_after : DataFrame * DataFrame :=
  frames_after (match_prices none_oitm none_vpl STYLES_USING_G_SIZES).

(** The discontinuation example of the design document *)
Definition dtw_row (style name color size variable : cell) : gmap string cell :=
  <["Vendor Style" := style]> (<["Style Name" := name]> (<["Color" := color]>
    (<["Size" := size]> {["Variable" := variable]}))).
Definition dtw_of (table : list (gmap string cell)) : DataFrame :=
  mkDF ["Vendor Style"; "Style Name"; "Color"; "Size"; "Variable"] table.
Definition tee_oitm : DataFrame :=
  oitm_of "ItemCode" [Str "A-RED-M"; Str "B-BLUE-S"; Str "C-RED-L"; Str "B-BLUE-S-1"].
Definition tee_dtw (name : string) : DataFrame :=
  dtw_of [dtw_row (Str "B") (Str name) (Str "Blue") (Str "S") NaN].

(** An item code listed twice *)
Definition twin_oitm : DataFrame :=
  oitm_of "Item No." [Str "A-RED-M-1"; Str "A-RED-M-1"].
Definition twin_after : DataFrame * DataFrame :=
  frames_after (match_prices twin_oitm demo_vpl STYLES_USING_G_SIZES).

(** A discontinuation list without the column Variable *)
Definition bare_dtw : DataFrame :=
  mkDF ["Vendor Style"; "Style Name"; "Color"; "Size"]
       [<["Vendor Style" := Str "B"]>
          (<["Style Name" := Str "Classic Tee - Discontinued"]>
             (<["Color" := Str "Blue"]> {["Size" := Str "S"]}))].

(** A frame that lacks every column *)
Definition blank : DataFrame := mkDF [] [].

(** The file names of a download directory, as the three globs list them *)
Definition oitm_names : list string :=
  ["V105_OITM.xlsx"; "V106_OITM.xlsx"; "V107_OITM.xlsx"].
Definition vpl_names : list string := ["v105_vpl.xlsx"; "V107_VPL.xlsx"].
Definition dtw_names : list string := ["V105_DTW.xlsx"; "V106_DTW.xlsx"].

(** The headers of a vendor list as they come *)
Definition raw_headers : list string :=
  [" vendor STYLE"; "COLOR"; "Size"; "Stylename"; "Price"].

End Samples.

(** * Properties *)

(** ** Strings *)

Section Strings.

Lemma isspace_upper_ascii (c : ascii) : isspace (upper_ascii c) = isspace c.
Proof. by destruct c as [[] [] [] [] [] [] [] []]. Qed.

Lemma upper_ascii_idemp (c : ascii) : upper_ascii (upper_ascii c) = upper_ascii c.
Proof. by destruct c as [[] [] [] [] [] [] [] []]. Qed.

Lemma upper_idemp (s : string) : upper (upper s) = upper s.
Proof. induction s as [|c s IH]; simpl; [done|]. by rewrite upper_ascii_idemp, IH. Qed.

Lemma upper_lstrip (s : string) : upper (lstrip s) = lstrip (upper s).
Proof.
  induction s as [|c s IH]; simpl; [done|].
  rewrite isspace_upper_ascii. by destruct (isspace c).
Qed.

Lemma upper_rstrip (s : string) : upper (rstrip s) = rstrip (upper s).
Proof.
  induction s as [|c s IH]; simpl; [done|].
  rewrite <- IH, isspace_upper_ascii.
  destruct (rstrip s); simpl; [by destruct (isspace c)|done].
Qed.

(** Uppercasing and trimming commute, so "trimmed and uppercased" and the
    source's [.upper().strip()] name the same string. *)
Lemma upper_strip (s : string) : upper (strip s) = strip (upper s).
Proof. unfold strip. by rewrite upper_rstrip, upper_lstrip. Qed.

Lemma lstrip_idemp (s : string) : lstrip (lstrip s) = lstrip s.
Proof.
  induction s as [|c s IH]; simpl; [done|].
  destruct (isspace c) eqn:E; [done|]. simpl. by rewrite E.
Qed.

Lemma rstrip_idemp (s : string) : rstrip (rstrip s) = rstrip s.
Proof.
  induction s as [|c s IH]; simpl; [done|].
  destruct (rstrip s) as [|d r] eqn:E.
  - destruct (isspace c) eqn:Ec; simpl; [done|]. by rewrite Ec.
  - change (rstrip (String c (String d r))) with
      (match rstrip (String d r) with
       | EmptyString => if isspace c then EmptyString else String c EmptyString
       | r' => String c r'
       end).
    by rewrite IH.
Qed.

Lemma lstrip_rstrip (s : string) : lstrip (rstrip s) = rstrip (lstrip s).
Proof.
  induction s as [|c s IH]; simpl; [done|].
  destruct (isspace c) eqn:Ec.
  - rewrite <- IH. destruct (rstrip s) eqn:E; simpl; by rewrite ?Ec.
  - destruct (rstrip s) eqn:E; simpl; by rewrite ?E, ?Ec.
Qed.

Lemma strip_idemp (s : string) : strip (strip s) = strip s.
Proof.
  unfold strip. rewrite lstrip_rstrip, lstrip_idemp. by rewrite rstrip_idemp.
Qed.

Lemma append_cons (c : ascii) (s1 s2 : string) :
  String c s1 +:+ s2 = String c (s1 +:+ s2).
Proof. reflexivity. Qed.

Lemma append_assoc (s1 s2 s3 : string) : (s1 +:+ s2) +:+ s3 = s1 +:+ (s2 +:+ s3).
Proof. induction s1 as [|c s1 IH]; [done|]. rewrite !append_cons. by rewrite IH. Qed.

Lemma split_nonempty (sep : ascii) (s : string) : split sep s ≠ [].
Proof.
  destruct s as [|c s]; simpl; [done|].
  case_bool_decide; [done|]. by destruct (split sep s).
Qed.

(** Joining the segments with the separator gives the string back. *)
Lemma join_split (sep : ascii) (s : string) :
  join (String sep EmptyString) (split sep s) = s.
Proof.
  induction s as [|c s IH]; simpl; [done|].
  pose proof (split_nonempty sep s) as Hne.
  case_bool_decide as Hc.
  - subst c. destruct (split sep s) as [|p ps]; [done|].
    simpl in *. by rewrite IH.
  - destruct (split sep s) as [|p ps]; [done|].
    destruct ps as [|q ps]; simpl in *; by rewrite <- IH.
Qed.

(** No segment contains the separator. *)
Lemma split_segments (sep : ascii) (s p : string) :
  p ∈ split sep s → contains p (String sep EmptyString) = false.
Proof.
  revert p. induction s as [|c s IH]; intros p; simpl.
  - intros ->%list_elem_of_singleton. done.
  - pose proof (split_nonempty sep s) as Hne.
    case_bool_decide as Hc.
    + intros [->|Hp]%elem_of_cons; [done|]. by apply IH.
    + destruct (split sep s) as [|q qs]; [done|].
      intros [->|Hp]%elem_of_cons.
      * simpl. rewrite bool_decide_eq_false_2 by congruence. simpl.
        apply IH. by left.
      * apply IH. by right.
Qed.

End Strings.

(** ** Item numbers *)

Section Parse.

Lemma parse_item_no_same (x : cell) :
  Discontinued.parse_item_no x = PriceMatcher.parse_item_no x.
Proof. reflexivity. Qed.

Lemma item_neg_1 (l : list string) (y z : string) :
  item_neg (l ++ [y; z]) 1 = z.
Proof.
  unfold item_neg. rewrite length_app. simpl.
  replace (length l + 2 - 1)%nat with (length l + 1)%nat by lia.
  rewrite lookup_total_app_r by lia.
  by replace (length l + 1 - length l)%nat with 1%nat by lia.
Qed.

Lemma item_neg_2 (l : list string) (y z : string) :
  item_neg (l ++ [y; z]) 2 = y.
Proof.
  unfold item_neg. rewrite length_app. simpl.
  replace (length l + 2 - 2)%nat with (length l + 0)%nat by lia.
  rewrite lookup_total_app_r by lia.
  by replace (length l + 0 - length l)%nat with 0%nat by lia.
Qed.

Lemma slice_middle (a : string) (mid : list string) (y z : string) :
  slice_1_neg2 (a :: mid ++ [y; z]) = mid.
Proof.
  unfold slice_1_neg2.
  replace (length (a :: mid ++ [y; z]) - 2)%nat with (S (length mid))
    by (simpl; rewrite length_app; simpl; lia).
  rewrite firstn_cons. unfold drop at 1. apply take_app_length.
Qed.

(** C4. [parse_item_no] splits the text of its argument on '-'.  Three
    segments give the three fields and no variant; four segments give the
    four fields; more than four give the first segment as style, the middle
    segments rejoined with '-' as color, the second-to-last as size and the
    last as variant; fewer than three give the tuple of four [None].  The
    function is total: no input raises.  Both scripts define the same
    function. *)
Theorem parse_item_no_segments (x : cell) :
  Discontinued.parse_item_no x = PriceMatcher.parse_item_no x ∧
  (∀ a b c, split "-" (str x) = [a; b; c] →
     PriceMatcher.parse_item_no x = (Str a, Str b, Str c, PyNone)) ∧
  (∀ a b c d, split "-" (str x) = [a; b; c; d] →
     PriceMatcher.parse_item_no x = (Str a, Str b, Str c, Str d)) ∧
  (∀ a mid y z, split "-" (str x) = a :: mid ++ [y; z] → (2 ≤ length mid)%nat →
     PriceMatcher.parse_item_no x = (Str a, Str (join "-" mid), Str y, Str z)) ∧
  ((length (split "-" (str x)) < 3)%nat →
     PriceMatcher.parse_item_no x = (PyNone, PyNone, PyNone, PyNone)).
Proof.
  split; [apply parse_item_no_same|].
  unfold PriceMatcher.parse_item_no.
  repeat split.
  - intros a b c ->. reflexivity.
  - intros a b c d ->. reflexivity.
  - intros a mid y z -> Hmid.
    assert (length (a :: mid ++ [y; z]) = (length mid + 3)%nat) as Hlen
      by (simpl; rewrite length_app; simpl; lia).
    rewrite !bool_decide_eq_false_2 by lia.
    rewrite bool_decide_eq_true_2 by lia.
    rewrite slice_middle.
    change (a :: mid ++ [y; z]) with ((a :: mid) ++ [y; z]).
    by rewrite item_neg_1, item_neg_2.
  - intros Hlen.
    by rewrite !bool_decide_eq_false_2 by lia.
Qed.

Lemma parse_item_no_segments_witness :
  PriceMatcher.parse_item_no (Str "A-RED-M") = (Str "A", Str "RED", Str "M", PyNone) ∧
  PriceMatcher.parse_item_no (Str "A-RED-M-1") = (Str "A", Str "RED", Str "M", Str "1") ∧
  PriceMatcher.parse_item_no (Str "A-DARK-RED-M-1")
    = (Str "A", Str "DARK-RED", Str "M", Str "1") ∧
  PriceMatcher.parse_item_no (Str "A-RED") = (PyNone, PyNone, PyNone, PyNone).
Proof.
  split; [|split; [|split]].
  - by apply (proj1 (proj2 (parse_item_no_segments (Str "A-RED-M")))).
  - by apply (proj1 (proj2 (proj2 (parse_item_no_segments (Str "A-RED-M-1"))))).
  - apply (proj1 (proj2 (proj2 (proj2 (parse_item_no_segments (Str "A-DARK-RED-M-1")))))
             "A" ["DARK"; "RED"] "M" "1"); [reflexivity | simpl; lia].
  - apply (proj2 (proj2 (proj2 (proj2 (parse_item_no_segments (Str "A-RED")))))).
    vm_compute. lia.
Defined.
End Parse.

(** ** Frames *)

Section Frames.

Implicit Types (r : gmap string cell) (df : DataFrame) (c : string).

Lemma set_cell_eq c f r : set_cell c f r !!! c = f r.
Proof. unfold set_cell. apply lookup_total_insert_eq. Qed.

Lemma set_cell_ne c c' f r : c ≠ c' → set_cell c f r !!! c' = r !!! c'.
Proof. intros. unfold set_cell. by apply lookup_total_insert_ne. Qed.

Lemma set_cell_frame c c' f r : c ≠ c' → set_cell c f r !! c' = r !! c'.
Proof. intros. unfold set_cell. by apply lookup_insert_ne. Qed.

Lemma rows_assign c f df : rows (assign c f df) = set_cell c f <$> rows df.
Proof. reflexivity. Qed.

Lemma elem_of_add_name c c' cols : c' ∈ add_name c cols ↔ c' ∈ cols ∨ c' = c.
Proof.
  unfold add_name. case_bool_decide.
  - split; [by left|]. by intros [?| ->].
  - rewrite elem_of_app, list_elem_of_singleton. done.
Qed.

Lemma has_column_assign c c' f df :
  has_column c' (assign c f df) = has_column c' df || bool_decide (c' = c).
Proof.
  unfold has_column. simpl.
  apply eq_true_iff_eq. rewrite orb_true_iff, !bool_decide_eq_true.
  apply elem_of_add_name.
Qed.

Lemma zip_fmap {A B C} (f : A → B) (g : A → C) (l : list A) :
  zip (f <$> l) (g <$> l) = (λ x, (f x, g x)) <$> l.
Proof. induction l as [|x l IH]; [done|]. rewrite !fmap_cons. simpl. by rewrite IH. Qed.

(** [dict(zip(...))]: the last pair with a key decides the value under it *)
Lemma foldl_insert_lookup (l : list (cell * cell)) (d : gmap cell cell) (k : cell) :
  foldl (λ d kv, <[kv.1 := kv.2]> d) d l !! k =
    match list_find (λ kv, kv.1 = k) (reverse l) with
    | Some (_, kv) => Some kv.2
    | None => d !! k
    end.
Proof.
  revert d. induction l as [|[k' v'] l IH] using rev_ind; intros d; [done|].
  rewrite foldl_app, reverse_app. simpl.
  case_decide as Hk; simpl in Hk.
  - subst. simpl. by rewrite lookup_insert_eq.
  - rewrite lookup_insert_ne by done. rewrite IH.
    by destruct (list_find _ (reverse l)) as [[]|].
Qed.

Lemma dict_zip_last (ks vs : list cell) (l1 l2 : list (cell * cell)) (k v : cell) :
  zip ks vs = l1 ++ (k, v) :: l2 → k ∉ l2.*1 → dict_zip ks vs !! k = Some v.
Proof.
  intros Hz Hk. unfold dict_zip. rewrite Hz, foldl_app. simpl.
  rewrite foldl_insert_lookup.
  destruct (list_find _ (reverse l2)) as [[j kv]|] eqn:E.
  - apply list_find_Some in E as (Hj & Hkv & _).
    exfalso. apply Hk. apply list_elem_of_fmap. exists kv. split; [done|].
    apply elem_of_reverse. eapply list_elem_of_lookup_2. done.
  - by rewrite lookup_insert_eq.
Qed.

Lemma dict_zip_Some (ks vs : list cell) (k v : cell) :
  dict_zip ks vs !! k = Some v → (k, v) ∈ zip ks vs.
Proof.
  unfold dict_zip. rewrite foldl_insert_lookup.
  destruct (list_find _ (reverse (zip ks vs))) as [[j [k' v']]|] eqn:E; [|done].
  apply list_find_Some in E as (Hj & Hkv & _). simpl in *. subst k'.
  intros [= ->]. apply elem_of_reverse. eapply list_elem_of_lookup_2. done.
Qed.

Lemma dict_zip_None (ks vs : list cell) (k : cell) :
  dict_zip ks vs !! k = None ↔ k ∉ (zip ks vs).*1.
Proof.
  unfold dict_zip. rewrite foldl_insert_lookup.
  destruct (list_find _ (reverse (zip ks vs))) as [[j [k' v']]|] eqn:E.
  - apply list_find_Some in E as (Hj & Hkv & _). simpl in *. subst k'.
    split; [done|]. intros Hk. exfalso. apply Hk.
    apply list_elem_of_fmap. exists (k, v'). split; [done|].
    apply elem_of_reverse. eapply list_elem_of_lookup_2. done.
  - split; [|done]. intros _ Hk.
    apply list_elem_of_fmap in Hk as ([k' v'] & -> & Hin).
    apply list_find_None in E. rewrite Forall_forall in E.
    apply (E (k', v')); [|done]. by apply elem_of_reverse.
Qed.

End Frames.

(** Reads of columns through the assignments of a row *)
Ltac row_simpl :=
  repeat first
    [ rewrite set_cell_eq
    | rewrite set_cell_ne by first [discriminate | congruence]
    | rewrite set_cell_frame by first [discriminate | congruence] ].

(** ** The column assignments of [match_prices], row by row *)

Section RowsOfMatchPrices.
Import PriceMatcher RowEquations.

Implicit Types (r : gmap string cell) (df : DataFrame).

Lemma set_cells_parsed (p : cell → cell * cell * cell * cell) (item_col : string) r :
  let w := set_cells ["Style"; "Color"; "Size"; "Variable"]
             (λ row, let '(style, color, size, variable) := p (row !!! item_col) in
                     [style; color; size; variable]) r in
  (w !!! "Style", w !!! "Color", w !!! "Size", w !!! "Variable") = p (r !!! item_col) ∧
  (∀ c, c ∉ ["Style"; "Color"; "Size"; "Variable"] → w !! c = r !! c).
Proof.
  unfold set_cells. destruct (p (r !!! item_col)) as [[[a b] c] d]. simpl.
  split.
  - rewrite lookup_total_insert_eq.
    rewrite !(lookup_total_insert_ne _ "Variable") by done.
    rewrite lookup_total_insert_eq.
    rewrite !(lookup_total_insert_ne _ "Size") by done.
    rewrite lookup_total_insert_eq.
    rewrite !(lookup_total_insert_ne _ "Color") by done.
    by rewrite lookup_total_insert_eq.
  - intros c' Hc. rewrite !not_elem_of_cons in Hc.
    destruct Hc as (? & ? & ? & ? & _).
    by rewrite !lookup_insert_ne by done.
Qed.

Lemma cat_key4 (a b c d : cell) :
  cat (cat (cat (cat (cat (cat a (Str "|")) b) (Str "|")) c) (Str "|")) d = key4 a b c d.
Proof.
  unfold cat, key4. simpl. f_equal.
  by rewrite !append_assoc.
Qed.

Lemma cat_key3 (a b c : cell) :
  cat (cat (cat (cat a (Str "|")) b) (Str "|")) c = key3 a b c.
Proof.
  unfold cat, key3. simpl. f_equal.
  by rewrite !append_assoc.
Qed.

(** The size mapping reads only the fields Style, Color and Size of a row. *)
Lemma apply_conditional_size_mapping_with_ext mapping r1 r2 configs :
  r1 !!! "Style" = r2 !!! "Style" → r1 !!! "Color" = r2 !!! "Color" →
  r1 !!! "Size" = r2 !!! "Size" →
  apply_conditional_size_mapping_with mapping r1 configs
  = apply_conditional_size_mapping_with mapping r2 configs.
Proof.
  intros H1 H2 H3. unfold apply_conditional_size_mapping_with.
  by rewrite H1, H2, H3.
Qed.


(** A call of [match_prices] that returned passed every column check; what
    is left of the call are the two chains of assignments. *)
Ltac match_prices_returned H Ho Hv :=
  unfold match_prices in H;
  cbv zeta in H;
  rewrite ?has_column_assign in H;
  simpl bool_decide in H; rewrite ?orb_false_r in H;
  repeat match type of H with
  | context [negb (has_column ?c ?df)] =>
      destruct (has_column c df) eqn:?; [|done];
      simpl negb in H; cbv iota in H
  | context [bool_decide (rows ?df = [])] =>
      destruct (bool_decide_reflect (rows df = [])); [done|]
  end;
  injection H as Ho Hv.

Lemma not_elem_of_cons_ne {A} (x y : A) (l : list A) : x ∉ y :: l → y ≠ x ∧ x ∉ l.
Proof. rewrite not_elem_of_cons. intros [? ?]. split; [congruence|done]. Qed.

(** When [match_prices] returns, the arguments had the columns it reads, the
    internal frame had rows, and the rows of both frames satisfy the row
    equations. *)
Lemma match_prices_Ok oitm vpl rules o' v' :
  match_prices oitm vpl rules = Ok (o', v') →
  has_column "Item No." oitm = true ∧ rows oitm ≠ [] ∧
  Forall (λ c, has_column c vpl = true) REQUIRED_VPL_COLS ∧
  Forall2 vpl_row_ok (rows vpl) (rows v') ∧
  Forall2 (oitm_row_ok rules (price_lookup_4 v') (price_lookup_3 v')) (rows oitm) (rows o').
Proof.
  intros H. match_prices_returned H Ho Hv.
  rewrite Hv in Ho.
  fold (price_lookup_4 v') in Ho. fold (price_lookup_3 v') in Ho.
  split; [done|]. split; [done|].
  split; [by repeat constructor|].
  split.
  - rewrite <- Hv. rewrite !rows_assign, <- !list_fmap_compose.
    apply Forall2_fmap_r, Forall_Forall2_diag, Forall_forall.
    intros v _. unfold compose.
    split; rewrite <- ?cat_key4, <- ?cat_key3; row_simpl; try done.
    intros c Hc. unfold VPL_ASSIGNED in Hc.
    repeat (apply not_elem_of_cons_ne in Hc as [? Hc]). by row_simpl.
  - rewrite <- Ho. rewrite !rows_assign. unfold assign_columns. simpl rows.
    rewrite <- !list_fmap_compose.
    apply Forall2_fmap_r, Forall_Forall2_diag, Forall_forall.
    intros v _. unfold compose.
    destruct (set_cells_parsed parse_item_no "Item No." v) as [Hparsed Hframe].
    simpl in Hparsed, Hframe.
    set (R := set_cells _ _ v) in *.
    assert (R !!! "Item No." = v !!! "Item No.") as Hitem_no.
    { rewrite !lookup_total_alt. rewrite Hframe; [done|].
      rewrite !not_elem_of_cons. split_and!; try discriminate. apply not_elem_of_nil. }
    split; rewrite <- ?cat_key4, <- ?cat_key3; row_simpl; try done.
    + by rewrite Hitem_no.
    + apply apply_conditional_size_mapping_with_ext; by row_simpl.
    + unfold two_tier, series_map.
      destruct (price_lookup_4 v' !! _) as [p|]; simpl; [|done].
      by destruct (isna p).
    + intros c Hc. unfold OITM_ASSIGNED in Hc.
      repeat (apply not_elem_of_cons_ne in Hc as [? Hc]). row_simpl.
      apply Hframe. rewrite !not_elem_of_cons. by split_and!.
Qed.

(** On frames with the columns it reads and an internal frame with rows,
    [match_prices] returns. *)
Lemma match_prices_returns oitm vpl rules :
  has_column "Item No." oitm = true → rows oitm ≠ [] →
  Forall (λ c, has_column c vpl = true) REQUIRED_VPL_COLS →
  ∃ o' v', match_prices oitm vpl rules = Ok (o', v').
Proof.
  intros Hitem Hrows Hcols. unfold REQUIRED_VPL_COLS in Hcols.
  rewrite !Forall_cons in Hcols. destruct Hcols as (H1 & H2 & H3 & H4 & H5 & _).
  unfold match_prices. rewrite Hitem. simpl negb. cbv iota.
  rewrite bool_decide_eq_false_2 by done.
  cbv zeta. rewrite !has_column_assign, H1, H2, H3, H4, H5. simpl.
  eauto.
Qed.

(** The column names of both frames when [match_prices] returns *)
Lemma match_prices_columns oitm vpl rules o' v' :
  match_prices oitm vpl rules = Ok (o', v') →
  (∀ c, c ∈ columns v' ↔ c ∈ columns vpl ∨ c ∈ VPL_ASSIGNED) ∧
  (∀ c, c ∈ columns o' ↔ c ∈ columns oitm ∨ c ∈ OITM_ASSIGNED).
Proof.
  intros H. match_prices_returned H Ho Hv.
  split; intros c.
  - rewrite <- Hv. unfold assign, VPL_ASSIGNED. simpl columns.
    rewrite !elem_of_add_name, !elem_of_cons, elem_of_nil. tauto.
  - rewrite <- Ho. unfold assign, assign_columns, OITM_ASSIGNED. simpl columns.
    rewrite !elem_of_add_name, !elem_of_cons, elem_of_nil. tauto.
Qed.

End RowsOfMatchPrices.

(** ** Facts about the sample tables *)

Section SampleFacts.
Import PriceMatcher Samples.

Lemma lookup_default {A} (l : list A) (i : nat) (d : A) :
  (i <? length l)%nat = true → l !! i = Some (default d (l !! i)).
Proof.
  intros Hi%Nat.ltb_lt. destruct (lookup_lt_is_Some_2 l i Hi) as [x Hx].
  by rewrite Hx.
Qed.

Lemma elem_of_lookup_default {A} (l : list A) (i : nat) (d : A) :
  (i <? length l)%nat = true → default d (l !! i) ∈ l.
Proof. intros Hi. eapply list_elem_of_lookup_2, lookup_default, Hi. Qed.

Lemma frames_after_Ok (r : result (DataFrame * DataFrame)) :
  (∃ o v, r = Ok (o, v)) → r = Ok ((frames_after r).1, (frames_after r).2).
Proof. by intros (o & v & ->). Qed.

(** On the sample tables [match_prices] returns. *)
Lemma sample_returns (items : list cell) (table : list (gmap string cell)) configs :
  items ≠ [] →
  match_prices (oitm_of "Item No." items) (vpl_of table) configs =
    Ok ((frames_after (match_prices (oitm_of "Item No." items) (vpl_of table) configs)).1,
        (frames_after (match_prices (oitm_of "Item No." items) (vpl_of table) configs)).2).
Proof.
  intros Hitems. apply frames_after_Ok, match_prices_returns.
  - by vm_compute.
  - simpl. by destruct items.
  - by repeat constructor.
Qed.

End SampleFacts.

(** ** Price matching: the two-tier lookup *)

Section TwoTier.
Import PriceMatcher RowEquations Samples.

Implicit Types (v w : gmap string cell).

Lemma notna_isna (x : cell) : notna x → isna x = false.
Proof. unfold notna. by destruct (isna x). Qed.

Lemma dict_zip_columns_last (kc : string) (df : DataFrame) before v after (k : cell) :
  rows df = before ++ v :: after → v !!! kc = k →
  Forall (λ u, u !!! kc ≠ k) after →
  dict_zip (column kc df) (column "Price" df) !! k = Some (v !!! "Price").
Proof.
  intros Hrows Hk Hafter. unfold column.
  eapply (dict_zip_last _ _ ((λ r, (r !!! kc, r !!! "Price")) <$> before)
                        ((λ r, (r !!! kc, r !!! "Price")) <$> after)).
  - by rewrite zip_fmap, Hrows, fmap_app, fmap_cons, Hk.
  - rewrite <- list_fmap_compose. intros Hin.
    apply list_elem_of_fmap in Hin as (u & Hu & Hin). simpl in Hu.
    rewrite Forall_forall in Hafter. by apply (Hafter u).
Qed.

(** C1, as the code has it.  When [match_prices] returns, every internal
    item has exactly one row in the result, in its position, and the price
    of that row is decided by two lookups: the value under the row's 4-part
    key in the key4-to-price map if it is there and not missing; otherwise
    the value under its 3-part key in the key3-to-price map; the item is
    unmatched (price missing) exactly when neither key carries a non-missing
    price.  The maps are [dict(zip(...))] of the vendor's key and price
    columns, so the last vendor row with a key decides the price under it:
    an item whose 4-part key equals that of a vendor row receives that row's
    price when the price is not missing and no later vendor row has the same
    4-part key. *)
Theorem match_prices_two_tier oitm_df vpl_df styles_using_g_sizes oitm_df' vpl_df' :
  match_prices oitm_df vpl_df styles_using_g_sizes = Ok (oitm_df', vpl_df') →
  length (rows oitm_df') = length (rows oitm_df) ∧
  ∀ (i : nat) w, rows oitm_df' !! i = Some w →
    let k4 := w !!! "Lookup_Key_4_Mapped" in
    let k3 := w !!! "Lookup_Key_3_Mapped" in
    (∃ v, rows oitm_df !! i = Some v ∧ w !!! "Item No." = v !!! "Item No.") ∧
    (∀ p, price_lookup_4 vpl_df' !! k4 = Some p → notna p → w !!! "Price" = p) ∧
    ((∀ p, price_lookup_4 vpl_df' !! k4 = Some p → isna p) →
       w !!! "Price" = default NaN (price_lookup_3 vpl_df' !! k3)) ∧
    (isna (w !!! "Price") ↔
       (∀ p, price_lookup_4 vpl_df' !! k4 = Some p → isna p) ∧
       (∀ p, price_lookup_3 vpl_df' !! k3 = Some p → isna p)) ∧
    (∀ before v after, rows vpl_df' = before ++ v :: after →
       v !!! "Lookup_Key_4" = k4 → Forall (λ u, u !!! "Lookup_Key_4" ≠ k4) after →
       notna (v !!! "Price") → w !!! "Price" = v !!! "Price") ∧
    (∀ before v after, rows vpl_df' = before ++ v :: after →
       (∀ p, price_lookup_4 vpl_df' !! k4 = Some p → isna p) →
       v !!! "Lookup_Key_3" = k3 → Forall (λ u, u !!! "Lookup_Key_3" ≠ k3) after →
       w !!! "Price" = v !!! "Price").
Proof.
  intros H. apply match_prices_Ok in H as (_ & _ & _ & _ & Hrows).
  split; [symmetry; by eapply Forall2_length|].
  intros i w Hw k4 k3.
  destruct (Forall2_lookup_r _ _ _ _ _ Hrows Hw) as (v & Hv & Hok).
  pose proof (oitm_price _ _ _ _ _ Hok) as Hprice. fold k4 k3 in Hprice.
  assert (∀ p, price_lookup_4 vpl_df' !! k4 = Some p → notna p → w !!! "Price" = p) as T1.
  { intros p Hp Hna. rewrite Hprice. unfold two_tier. by rewrite Hp, notna_isna. }
  assert ((∀ p, price_lookup_4 vpl_df' !! k4 = Some p → isna p) →
          w !!! "Price" = default NaN (price_lookup_3 vpl_df' !! k3)) as T2.
  { intros Hno. rewrite Hprice. unfold two_tier.
    destruct (price_lookup_4 vpl_df' !! k4) as [p|] eqn:E; [|done].
    specialize (Hno p eq_refl). by destruct (isna p). }
  split_and!.
  - exists v. split; [done|].
    rewrite !lookup_total_alt. rewrite (oitm_frame _ _ _ _ _ Hok); [done|].
    unfold OITM_ASSIGNED. rewrite !not_elem_of_cons.
    split_and!; first [discriminate | apply not_elem_of_nil].
  - exact T1.
  - exact T2.
  - rewrite Hprice. unfold two_tier. split.
    + destruct (price_lookup_4 vpl_df' !! k4) as [p|] eqn:E4.
      * destruct (isna p) eqn:Ep.
        -- intros Hna. split; [by intros ? [= <-]; rewrite Ep|].
           intros q Hq. by rewrite Hq in Hna.
        -- intros Hna. by rewrite Ep in Hna.
      * intros Hna. split; [done|]. intros q Hq. by rewrite Hq in Hna.
    + intros [H4 H3].
      destruct (price_lookup_4 vpl_df' !! k4) as [p|] eqn:E4.
      * specialize (H4 p eq_refl). destruct (isna p); [|done].
        destruct (price_lookup_3 vpl_df' !! k3) as [q|] eqn:E3; [|done].
        by apply H3.
      * destruct (price_lookup_3 vpl_df' !! k3) as [q|] eqn:E3; [|done].
        by apply H3.
  - intros before u after Hsplit Hk Hlater Hna.
    apply T1; [|done]. by apply (dict_zip_columns_last _ _ before u after).
  - intros before u after Hsplit Hno Hk Hlater.
    rewrite (T2 Hno). unfold price_lookup_3.
    by rewrite (dict_zip_columns_last _ _ before u after k3).
Qed.

Lemma match_prices_two_tier_witness :
  match_prices demo_oitm demo_vpl STYLES_USING_G_SIZES = Ok (demo_after.1, demo_after.2) ∧
  length (rows demo_after.1) = 3%nat ∧
  default ∅ (rows demo_after.1 !! 0%nat) !!! "Price" = Int 10 ∧
  default ∅ (rows demo_after.1 !! 1%nat) !!! "Price" = Int 8.
Proof.
  pose proof (sample_returns [Str "A-RED-M-1"; Str "A-RED-M-2"; Str "B-RED-M"]
                (rows demo_vpl) STYLES_USING_G_SIZES ltac:(done)) as E.
  destruct (match_prices_two_tier _ _ _ _ _ E) as [Hlen Hrows].
  split; [exact E|]. split; [exact Hlen|]. split.
  - destruct (Hrows 0%nat _
                (lookup_default (rows demo_after.1) 0 ∅ ltac:(vm_compute; reflexivity)))
      as (_ & Hfirst & _).
    apply Hfirst; vm_compute; [reflexivity | exact I].
  - destruct (Hrows 1%nat _
                (lookup_default (rows demo_after.1) 1 ∅ ltac:(vm_compute; reflexivity)))
      as (_ & _ & Hsecond & _).
    etrans; [apply Hsecond | vm_compute; reflexivity].
    intros p. vm_compute. discriminate.
Defined.

(** The claim as first worded fails twice.  On a vendor row whose price
    cell is empty the 4-part key is present in the key4-to-price map, yet the
    3-part key is looked up and its price is returned.  On two vendor rows
    with the same 4-part key the item receives the price of the second, not
    of the first. *)
Lemma match_prices_first_hit_fails :
  ¬ (∀ oitm_df vpl_df styles_using_g_sizes oitm_df' vpl_df' (i : nat) w,
       match_prices oitm_df vpl_df styles_using_g_sizes = Ok (oitm_df', vpl_df') →
       rows oitm_df' !! i = Some w →
       w !!! "Price" =
         match price_lookup_4 vpl_df' !! (w !!! "Lookup_Key_4_Mapped") with
         | Some p => p
         | None => default NaN (price_lookup_3 vpl_df' !! (w !!! "Lookup_Key_3_Mapped"))
         end) ∧
  ¬ (∀ oitm_df vpl_df styles_using_g_sizes oitm_df' vpl_df' (i j : nat) w v,
       match_prices oitm_df vpl_df styles_using_g_sizes = Ok (oitm_df', vpl_df') →
       rows oitm_df' !! i = Some w → rows vpl_df' !! j = Some v →
       v !!! "Lookup_Key_4" = w !!! "Lookup_Key_4_Mapped" →
       w !!! "Price" = v !!! "Price").
Proof.
  split; intros H.
  - pose proof (sample_returns [Str "A-RED-M-1"] (rows gap_vpl)
                  STYLES_USING_G_SIZES ltac:(done)) as E.
    specialize (H _ _ _ _ _ 0%nat _ E
                  (lookup_default (rows gap_after.1) 0 ∅ ltac:(vm_compute; reflexivity))).
    revert H. vm_compute. discriminate.
  - pose proof (sample_returns [Str "A-RED-M-1"] (rows dup_vpl)
                  STYLES_USING_G_SIZES ltac:(done)) as E.
    specialize (H _ _ _ _ _ 0%nat 0%nat _ _ E
                  (lookup_default (rows dup_after.1) 0 ∅ ltac:(vm_compute; reflexivity))
                  (lookup_default (rows dup_after.2) 0 ∅ ltac:(vm_compute; reflexivity))
                  ltac:(vm_compute; reflexivity)).
    revert H. vm_compute. discriminate.
Qed.

End TwoTier.

(** ** Size mapping *)

Section SizeMapping.
Import PriceMatcher SizeRules.

Implicit Types (row : gmap string cell) (mapping : gmap string string).

Lemma size_mapping_cons mapping row config configs :
  apply_conditional_size_mapping_with mapping row (config :: configs) =
    if config_matches (row !!! "Style") (row !!! "Color") config
    then mapping_get mapping (row !!! "Size")
    else apply_conditional_size_mapping_with mapping row configs.
Proof. by destruct config. Qed.

Lemma size_mapping_no_match mapping row configs :
  Forall (λ c, config_matches (row !!! "Style") (row !!! "Color") c = false) configs →
  apply_conditional_size_mapping_with mapping row configs = row !!! "Size".
Proof.
  induction 1 as [|config configs Hc _ IH]; [done|].
  by rewrite size_mapping_cons, Hc.
Qed.

Lemma size_mapping_match mapping row before config after :
  Forall (λ c, config_matches (row !!! "Style") (row !!! "Color") c = false) before →
  config_matches (row !!! "Style") (row !!! "Color") config = true →
  apply_conditional_size_mapping_with mapping row (before ++ config :: after)
  = mapping_get mapping (row !!! "Size").
Proof.
  intros Hbefore Hc. induction Hbefore as [|c before Hn _ IH]; simpl app.
  - by rewrite size_mapping_cons, Hc.
  - by rewrite size_mapping_cons, Hn.
Qed.

(** C5. The size mapper walks the rule list in order.  At the first rule that
    matches (a bare style on the style alone, a pair on exactly that style
    and color) it returns the table's entry for the size, or the size itself
    if the table has no entry for it; if no rule matches it returns the size
    unchanged.  With the shipped rules and table: style 2278 maps L to LG,
    style 9999 leaves L, style 2795 in SILVER maps XL to XLG, style 2795 in
    BLUE leaves XL. *)
Theorem size_mapping_first_rule mapping row styles_using_g_sizes :
  let style := row !!! "Style" in
  let color := row !!! "Color" in
  let size := row !!! "Size" in
  (∀ before config after,
     styles_using_g_sizes = before ++ config :: after →
     Forall (λ c, config_matches style color c = false) before →
     config_matches style color config = true →
     apply_conditional_size_mapping_with mapping row styles_using_g_sizes =
       match size with
       | Str s => match mapping !! s with Some t => Str t | None => size end
       | _ => size
       end) ∧
  (Forall (λ c, config_matches style color c = false) styles_using_g_sizes →
     apply_conditional_size_mapping_with mapping row styles_using_g_sizes = size) ∧
  (style = Str "2278" → size = Str "L" →
     apply_conditional_size_mapping row STYLES_USING_G_SIZES = Str "LG") ∧
  (style = Str "9999" → size = Str "L" →
     apply_conditional_size_mapping row STYLES_USING_G_SIZES = Str "L") ∧
  (style = Str "2795" → color = Str "SILVER" → size = Str "XL" →
     apply_conditional_size_mapping row STYLES_USING_G_SIZES = Str "XLG") ∧
  (style = Str "2795" → color = Str "BLUE" → size = Str "XL" →
     apply_conditional_size_mapping row STYLES_USING_G_SIZES = Str "XL").
Proof.
  intros style color size. split_and!.
  - intros before config after -> Hbefore Hc.
    by rewrite size_mapping_match.
  - apply size_mapping_no_match.
  - intros Hs Hz. unfold apply_conditional_size_mapping, STYLES_USING_G_SIZES.
    rewrite size_mapping_cons. fold style size. by rewrite Hs, Hz.
  - intros Hs Hz. unfold apply_conditional_size_mapping.
    rewrite size_mapping_no_match; [done|].
    fold style color. rewrite Hs. by repeat constructor.
  - intros Hs Hc Hz. unfold apply_conditional_size_mapping, STYLES_USING_G_SIZES.
    rewrite !size_mapping_cons. fold style color size. by rewrite Hs, Hc, Hz.
  - intros Hs Hc Hz. unfold apply_conditional_size_mapping.
    rewrite size_mapping_no_match; [done|].
    fold style color. rewrite Hs, Hc. by repeat constructor.
Qed.

Lemma size_mapping_first_rule_witness :
  apply_conditional_size_mapping_with {[ "L" := "LG" ]}
    (<["Style" := Str "S1"]> (<["Color" := Str "RED"]> {[ "Size" := Str "L" ]}))
    [StyleColor "S1" "BLUE"; StyleOnly "S1"; StyleOnly "S2"]
  = Str "LG" ∧
  apply_conditional_size_mapping
    (<["Style" := Str "2795"]> (<["Color" := Str "SILVER"]> {[ "Size" := Str "XL" ]}))
    STYLES_USING_G_SIZES
  = Str "XLG".
Proof.
  split.
  - etrans.
    + apply (proj1 (size_mapping_first_rule {[ "L" := "LG" ]}
                      (<["Style" := Str "S1"]> (<["Color" := Str "RED"]> {[ "Size" := Str "L" ]}))
                      [StyleColor "S1" "BLUE"; StyleOnly "S1"; StyleOnly "S2"])
                   [StyleColor "S1" "BLUE"] (StyleOnly "S1") [StyleOnly "S2"]).
      * reflexivity.
      * by repeat constructor.
      * reflexivity.
    + vm_compute. reflexivity.
  - by apply (size_mapping_first_rule SIZE_MAPPING
                (<["Style" := Str "2795"]> (<["Color" := Str "SILVER"]> {[ "Size" := Str "XL" ]}))
                STYLES_USING_G_SIZES).
Defined.

End SizeMapping.

(** ** Canonical keys *)

Section CanonicalKey.
Import PriceMatcher RowEquations Samples Keys.

(** Normalising a normalised field changes nothing. *)
Lemma norm_idemp (x : cell) : norm (norm x) = norm x.
Proof.
  unfold norm. simpl. f_equal.
  by rewrite (upper_strip (upper (str x))), upper_idemp, strip_idemp.
Qed.
Lemma upper_empty (s : string) : upper s = "" ↔ s = "".
Proof. by destruct s. Qed.

Lemma variant_absent_cond variable :
  isna variable
  || bool_decide (variable = PyNone)
  || bool_decide (strip (str variable) = "")
  || bool_decide (strip (upper (str variable)) ∈ ["NONE"; "NAN"])
  = variant_absent variable.
Proof.
  unfold variant_absent. apply eq_true_iff_eq.
  rewrite !orb_true_iff, !bool_decide_eq_true, upper_strip.
  rewrite !elem_of_cons, elem_of_nil.
  rewrite <- (upper_strip (str variable)), upper_empty.
  split.
  - intros [[[?| ->]|?]|[?|[?|[]]]]; auto.
  - intros [?|[?|[?|[?|[]]]]]; auto.
Qed.

Lemma create_lookup_key_absent style color size variable :
  variant_absent variable = true →
  Discontinued.create_lookup_key style color size variable = three_part style color size.
Proof.
  intros Habs. unfold Discontinued.create_lookup_key.
  rewrite variant_absent_cond, Habs.
  by rewrite (bool_decide_eq_true_2 ("" = "")).
Qed.

Lemma create_lookup_key_present style color size variable :
  variant_absent variable = false →
  Discontinued.create_lookup_key style color size variable
  = four_part style color size (normal variable).
Proof.
  intros Habs. unfold Discontinued.create_lookup_key.
  rewrite variant_absent_cond, Habs.
  rewrite (bool_decide_eq_false_2 (strip (upper (str variable)) = "")); [done|].
  intros Hempty. unfold variant_absent in Habs.
  apply orb_false_iff in Habs as [_ Hin]. apply bool_decide_eq_false in Hin.
  apply Hin. rewrite upper_strip, Hempty. by left.
Qed.

Lemma norm_fillna_empty (x : cell) : norm (fillna_empty x) = Str (variable_field x).
Proof. unfold norm, fillna_empty, variable_field. by destruct (isna x). Qed.

Lemma create_lookup_key_cases style color size variable :
  Discontinued.create_lookup_key style color size variable =
    if variant_absent variable then three_part style color size
    else four_part style color size (normal variable).
Proof.
  destruct (variant_absent variable) eqn:E.
  - by apply create_lookup_key_absent.
  - by apply create_lookup_key_present.
Qed.

Lemma match_prices_vpl_keys oitm_df vpl_df configs oitm_df' vpl_df' w :
  match_prices oitm_df vpl_df configs = Ok (oitm_df', vpl_df') →
  w ∈ rows vpl_df' →
  w !!! "Lookup_Key_3" =
    Str (three_part (w !!! "Vendor Style") (w !!! "Color") (w !!! "Size")) ∧
  w !!! "Lookup_Key_4" =
    Str (four_part (w !!! "Vendor Style") (w !!! "Color") (w !!! "Size")
                   (variable_field (w !!! "Variable"))).
Proof.
  intros H Hw. apply match_prices_Ok in H as (_ & _ & _ & Hvpl & _).
  apply list_elem_of_lookup in Hw as [i Hw].
  destruct (Forall2_lookup_r _ _ _ _ _ Hvpl Hw) as (v & _ & Hok).
  destruct Hok as [H1 H2 H3 H4 H5 H6 _].
  by rewrite H6, H5, H1, H2, H3, H4, norm_fillna_empty.
Qed.

Lemma match_prices_oitm_keys oitm_df vpl_df configs oitm_df' vpl_df' w :
  match_prices oitm_df vpl_df configs = Ok (oitm_df', vpl_df') →
  w ∈ rows oitm_df' →
  (w !!! "Style", w !!! "Color", w !!! "Size", w !!! "Variable")
    = parse_item_no (w !!! "Item No.") ∧
  w !!! "Size_Mapped" = apply_conditional_size_mapping w configs ∧
  w !!! "Lookup_Key_3_Mapped" =
    Str (three_part (w !!! "Style") (w !!! "Color") (w !!! "Size_Mapped")) ∧
  w !!! "Lookup_Key_4_Mapped" =
    Str (four_part (w !!! "Style") (w !!! "Color") (w !!! "Size_Mapped")
                   (variable_field (w !!! "Variable"))).
Proof.
  intros H Hw. apply match_prices_Ok in H as (_ & _ & _ & _ & Hoitm).
  apply list_elem_of_lookup in Hw as [i Hw].
  destruct (Forall2_lookup_r _ _ _ _ _ Hoitm Hw) as (v & _ & Hok).
  destruct Hok as [H1 H2 H3 H4 H5 H6 H7 H8 H9 _ _].
  split_and!; [done|done|..].
  - by rewrite H9, H3, H4, H6.
  - by rewrite H8, H3, H4, H6, H7, norm_fillna_empty.
Qed.

(** C2, as the code has it.  [create_lookup_key], which builds every key of
    the discontinuation pipeline, gives STYLE|COLOR|SIZE|VARIANT when the
    variant is present and STYLE|COLOR|SIZE when it is absent, each field
    stringified, uppercased and trimmed; a variant is absent when it is a
    missing value or when its text, trimmed and uppercased, is empty, NONE
    or NAN, so the empty string, [None], [nan] and "none" all give the
    3-part form.  In price-matching mode the 3-part lookup keys have the
    3-part form, while the 4-part lookup keys always have four fields: the
    fourth is empty for a missing variant (the key then ends in '|') and is
    the normalised text otherwise, NONE and NAN included; the internal
    item's keys carry the mapped size. *)
Theorem create_lookup_key_shape style color size variable :
  Discontinued.create_lookup_key style color size variable =
    (if variant_absent variable then three_part style color size
     else four_part style color size (normal variable)) ∧
  Discontinued.create_lookup_key style color size (Str "") = three_part style color size ∧
  Discontinued.create_lookup_key style color size PyNone = three_part style color size ∧
  Discontinued.create_lookup_key style color size NaN = three_part style color size ∧
  Discontinued.create_lookup_key style color size (Str "none") = three_part style color size ∧
  (∀ oitm_df vpl_df styles_using_g_sizes oitm_df' vpl_df',
     match_prices oitm_df vpl_df styles_using_g_sizes = Ok (oitm_df', vpl_df') →
     (∀ w, w ∈ rows vpl_df' →
        w !!! "Lookup_Key_3" =
          Str (three_part (w !!! "Vendor Style") (w !!! "Color") (w !!! "Size")) ∧
        w !!! "Lookup_Key_4" =
          Str (four_part (w !!! "Vendor Style") (w !!! "Color") (w !!! "Size")
                         (variable_field (w !!! "Variable")))) ∧
     (∀ w, w ∈ rows oitm_df' →
        (w !!! "Style", w !!! "Color", w !!! "Size", w !!! "Variable")
          = parse_item_no (w !!! "Item No.") ∧
        w !!! "Size_Mapped" = apply_conditional_size_mapping w styles_using_g_sizes ∧
        w !!! "Lookup_Key_3_Mapped" =
          Str (three_part (w !!! "Style") (w !!! "Color") (w !!! "Size_Mapped")) ∧
        w !!! "Lookup_Key_4_Mapped" =
          Str (four_part (w !!! "Style") (w !!! "Color") (w !!! "Size_Mapped")
                         (variable_field (w !!! "Variable"))))).
Proof.
  split_and!.
  - apply create_lookup_key_cases.
  - by apply create_lookup_key_absent.
  - by apply create_lookup_key_absent.
  - by apply create_lookup_key_absent.
  - by apply create_lookup_key_absent.
  - intros oitm_df vpl_df configs oitm_df' vpl_df' H. split.
    + intros w Hw. by eapply match_prices_vpl_keys.
    + intros w Hw. by eapply match_prices_oitm_keys.
Qed.

Lemma create_lookup_key_shape_witness :
  match_prices demo_oitm demo_vpl STYLES_USING_G_SIZES = Ok (demo_after.1, demo_after.2) ∧
  default ∅ (rows demo_after.2 !! 1%nat) !!! "Lookup_Key_4" = Str "A|RED|M|" ∧
  default ∅ (rows demo_after.1 !! 2%nat) !!! "Lookup_Key_4_Mapped" = Str "B|RED|M|".
Proof.
  pose proof (sample_returns [Str "A-RED-M-1"; Str "A-RED-M-2"; Str "B-RED-M"]
                (rows demo_vpl) STYLES_USING_G_SIZES ltac:(done)) as E.
  split; [exact E|].
  pose proof (proj2 (proj2 (proj2 (proj2 (proj2
    (create_lookup_key_shape NaN NaN NaN NaN))))) _ _ _ _ _ E) as [Hvpl Hoitm].
  split.
  - etrans; [apply Hvpl, elem_of_lookup_default; vm_compute; reflexivity|].
    vm_compute. reflexivity.
  - etrans; [apply Hoitm, elem_of_lookup_default; vm_compute; reflexivity|].
    vm_compute. reflexivity.
Defined.

(** The claim as first worded fails in price-matching mode: an item without
    variant has the 4-part lookup key "B|RED|M|", not the 3-part form. *)
Lemma price_mode_key_4_is_not_canonical :
  ¬ (∀ oitm_df vpl_df styles_using_g_sizes oitm_df' vpl_df' (i : nat) w,
       match_prices oitm_df vpl_df styles_using_g_sizes = Ok (oitm_df', vpl_df') →
       rows oitm_df' !! i = Some w →
       w !!! "Lookup_Key_4_Mapped" =
         Str (Discontinued.create_lookup_key (w !!! "Style") (w !!! "Color")
                (w !!! "Size_Mapped") (w !!! "Variable"))).
Proof.
  intros H.
  pose proof (sample_returns [Str "A-RED-M-1"; Str "A-RED-M-2"; Str "B-RED-M"]
                (rows demo_vpl) STYLES_USING_G_SIZES ltac:(done)) as E.
  specialize (H _ _ _ _ _ 2%nat _ E
                (lookup_default (rows demo_after.1) 2 ∅ ltac:(vm_compute; reflexivity))).
  revert H. vm_compute. discriminate.
Qed.

End CanonicalKey.

(** ** Size rules compare raw fields *)

Section RawFields.
Import PriceMatcher RowEquations Samples SizeRules Keys.

Lemma eq_str_Str (a b : string) : eq_str (Str a) b = bool_decide (a = b).
Proof. reflexivity. Qed.

(** With the shipped rules, fields that miss a rule only by case or
    whitespace match no rule at all. *)
Lemma near_miss_matches_none (style color : string) (config : config) :
  config ∈ STYLES_USING_G_SIZES → near_miss style color config →
  Forall (λ c, config_matches (Str style) (Str color) c = false) STYLES_USING_G_SIZES.
Proof.
  unfold STYLES_USING_G_SIZES. rewrite !elem_of_cons, elem_of_nil.
  intros [->|[->|[->|[]]]]; simpl; unfold differs_in_case_or_space.
  - intros [Hne Hnorm]. repeat constructor; simpl; rewrite ?eq_str_Str.
    + by apply bool_decide_eq_false.
    + apply bool_decide_eq_false. intros ->. by vm_compute in Hnorm.
    + apply andb_false_iff. left. apply bool_decide_eq_false.
      intros ->. by vm_compute in Hnorm.
  - intros [Hne Hnorm]. repeat constructor; simpl; rewrite ?eq_str_Str.
    + apply bool_decide_eq_false. intros ->. by vm_compute in Hnorm.
    + by apply bool_decide_eq_false.
    + apply andb_false_iff. left. apply bool_decide_eq_false.
      intros ->. by vm_compute in Hnorm.
  - intros (Hne & Hs & Hc). repeat constructor; simpl; rewrite ?eq_str_Str.
    + apply bool_decide_eq_false. intros ->. by vm_compute in Hs.
    + apply bool_decide_eq_false. intros ->. by vm_compute in Hs.
    + apply andb_false_iff. rewrite !bool_decide_eq_false. tauto.
Qed.

Lemma near_miss_normal (style color : string) (config : config) :
  near_miss style color config →
  normal (Str style) = normal (Str (exact_form color config).1) ∧
  normal (Str color) = normal (Str (exact_form color config).2).
Proof.
  unfold normal. destruct config as [s|s c]; simpl.
  - by intros [_ ->].
  - by intros (_ & -> & ->).
Qed.

Lemma near_miss_no_match (style color : string) (config : config) :
  near_miss style color config →
  config_matches (Str style) (Str color) config = false.
Proof.
  destruct config as [s|s c]; simpl; rewrite ?eq_str_Str.
  - intros [Hne _]. by apply bool_decide_eq_false.
  - intros (Hne & _ & _). apply andb_false_iff.
    rewrite !bool_decide_eq_false. tauto.
Qed.

(** C9. The size rules are compared with the raw parsed style and color;
    the lookup keys are built from the uppercased, trimmed fields.  A rule
    that an item's style or color misses only by letter case or surrounding
    whitespace does not match it, and a rule list in which every rule is
    missed in this way or does not match gives no size mapping; with the
    shipped rules such an item matches no rule at all.  Yet its normalised
    style and color, and with them its canonical key, are those of the
    exactly matching form.  The row of "2795-silver-XL" keeps the size XL
    where the row of "2795-SILVER-XL" gets XLG, and both have the canonical
    key 2795|SILVER|XL. *)
Theorem size_rules_compare_raw_fields (style color : string) (size variable : cell)
    (row : gmap string cell) (config : config) :
  near_miss style color config →
  row !!! "Style" = Str style → row !!! "Color" = Str color → row !!! "Size" = size →
  config_matches (Str style) (Str color) config = false ∧
  (∀ mapping configs,
     Forall (λ c, near_miss style color c ∨
                  config_matches (Str style) (Str color) c = false) configs →
     apply_conditional_size_mapping_with mapping row configs = size) ∧
  (config ∈ STYLES_USING_G_SIZES →
     apply_conditional_size_mapping row STYLES_USING_G_SIZES = size) ∧
  norm (Str style) = norm (Str (exact_form color config).1) ∧
  norm (Str color) = norm (Str (exact_form color config).2) ∧
  Discontinued.create_lookup_key (Str style) (Str color) size variable =
    Discontinued.create_lookup_key (Str (exact_form color config).1)
      (Str (exact_form color config).2) size variable ∧
  column "Size_Mapped"
    (frames_after (match_prices
       (oitm_of "Item No." [Str "2795-silver-XL"; Str "2795-SILVER-XL"])
       (vpl_of []) STYLES_USING_G_SIZES)).1 = [Str "XL"; Str "XLG"] ∧
  Discontinued.create_lookup_key (Str "2795") (Str "silver") (Str "XL") PyNone =
    Discontinued.create_lookup_key (Str "2795") (Str "SILVER") (Str "XL") PyNone.
Proof.
  intros Hmiss Hstyle Hcolor Hsize.
  destruct (near_miss_normal _ _ _ Hmiss) as [Hs Hc].
  split_and!.
  - by apply near_miss_no_match.
  - intros mapping configs Hall.
    rewrite size_mapping_no_match; [done|].
    rewrite Hstyle, Hcolor. eapply Forall_impl; [exact Hall|].
    intros c [Hc'|Hc']; [by apply near_miss_no_match|done].
  - intros Hin. unfold apply_conditional_size_mapping.
    rewrite size_mapping_no_match; [done|].
    rewrite Hstyle, Hcolor. by eapply near_miss_matches_none.
  - unfold norm. f_equal. exact Hs.
  - unfold norm. f_equal. exact Hc.
  - rewrite !create_lookup_key_cases.
    unfold three_part, four_part. by rewrite Hs, Hc.
  - vm_compute. reflexivity.
  - vm_compute. reflexivity.
Qed.

Lemma size_rules_compare_raw_fields_witness :
  apply_conditional_size_mapping
    (<["Style" := Str "2795"]> (<["Color" := Str " silver"]> {[ "Size" := Str "XL" ]}))
    STYLES_USING_G_SIZES = Str "XL" ∧
  norm (Str " silver") = norm (Str "SILVER").
Proof.
  set (row := <["Style" := Str "2795"]>
                (<["Color" := Str " silver"]> ({[ "Size" := Str "XL" ]} : gmap string cell))).
  assert (StyleColor "2795" "SILVER" ∈ STYLES_USING_G_SIZES) as Hin
    by (do 2 apply list_elem_of_further; apply list_elem_of_here).
  assert (near_miss "2795" " silver" (StyleColor "2795" "SILVER")) as Hmiss.
  { simpl. split_and!; [right; discriminate | reflexivity | vm_compute; reflexivity]. }
  assert (row !!! "Style" = Str "2795") as H1 by (vm_compute; reflexivity).
  assert (row !!! "Color" = Str " silver") as H2 by (vm_compute; reflexivity).
  assert (row !!! "Size" = Str "XL") as H3 by (vm_compute; reflexivity).
  destruct (size_rules_compare_raw_fields "2795" " silver" (Str "XL") PyNone
              row (StyleColor "2795" "SILVER") Hmiss H1 H2 H3)
    as (_ & _ & R1 & _ & R3 & _).
  split; [exact (R1 Hin) | exact R3].
Defined.

End RawFields.

(** ** One vendor pair in price-matching mode *)

Section ProcessVendor.
Import PriceMatcher RowEquations Samples Keys SizeRules.

Lemma missing_cols_nil (cols required : list string) :
  Forall (λ c, bool_decide (c ∈ cols) = true) required →
  filter (λ col, col ∉ cols) required = [].
Proof.
  induction 1 as [|c required Hc _ IH]; [done|].
  rewrite filter_cons, IH. apply bool_decide_eq_true in Hc.
  by rewrite decide_False by (intros Hn; by apply Hn).
Qed.

(** When [match_prices] returns, [process_vendor] returns a summary and
    saves one workbook, whatever the number of matches. *)
Lemma process_vendor_Ok vendor_name oitm_df vpl_df configs oitm_df' vpl_df' :
  match_prices oitm_df vpl_df configs = Ok (oitm_df', vpl_df') →
  process_vendor vendor_name oitm_df vpl_df configs =
    (Some (mkResult vendor_name (len oitm_df')
             (len (select (λ row, notna (row !!! "Price")) oitm_df'))
             (len oitm_df' - len (select (λ row, notna (row !!! "Price")) oitm_df'))
             (vendor_name +:+ "_OITM_Updated.xlsx")
             (column "Item No." (select (λ row, isna (row !!! "Price")) oitm_df'))),
     [create_output_file (select (λ row, notna (row !!! "Price")) oitm_df') vendor_name]).
Proof.
  intros H. pose proof (match_prices_Ok _ _ _ _ _ H) as (Hitem & _ & Hcols & _).
  unfold process_vendor. rewrite Hitem. simpl negb. cbv iota.
  rewrite (missing_cols_nil (columns vpl_df) REQUIRED_VPL_COLS Hcols).
  simpl negb. cbv iota. by rewrite H.
Qed.

Lemma process_vendor_Raise vendor_name oitm_df vpl_df configs e :
  match_prices oitm_df vpl_df configs = Raise e →
  process_vendor vendor_name oitm_df vpl_df configs = (None, []).
Proof.
  intros H. unfold process_vendor.
  destruct (negb (has_column "Item No." oitm_df)); [done|].
  destruct (negb (bool_decide _)); [done|]. by rewrite H.
Qed.

Lemma elem_of_select (p : gmap string cell → bool) (df : DataFrame) w :
  w ∈ rows (select p df) ↔ p w ∧ w ∈ rows df.
Proof. unfold select. simpl. by rewrite list_elem_of_filter. Qed.

Lemma config_matches_None (color : cell) (config : config) :
  config_matches PyNone color config = false.
Proof. by destruct config. Qed.

Lemma size_mapping_None (row : gmap string cell) (configs : list config) :
  row !!! "Style" = PyNone →
  apply_conditional_size_mapping row configs = row !!! "Size".
Proof.
  intros Hs. unfold apply_conditional_size_mapping.
  apply size_mapping_no_match. rewrite Hs.
  apply Forall_forall. intros c _. apply config_matches_None.
Qed.

Lemma parse_item_no_short (x : cell) :
  (length (split "-" (str x)) < 3)%nat →
  parse_item_no x = (PyNone, PyNone, PyNone, PyNone).
Proof.
  intros Hlen. unfold parse_item_no.
  by rewrite !bool_decide_eq_false_2 by lia.
Qed.

(** The keys of an item whose code has fewer than three segments *)
Lemma unparseable_keys oitm_df vpl_df configs oitm_df' vpl_df' w :
  match_prices oitm_df vpl_df configs = Ok (oitm_df', vpl_df') →
  w ∈ rows oitm_df' →
  (length (split "-" (str (w !!! "Item No."))) < 3)%nat →
  w !!! "Lookup_Key_4_Mapped" = Str "NONE|NONE|NONE|" ∧
  w !!! "Lookup_Key_3_Mapped" = Str "NONE|NONE|NONE".
Proof.
  intros H Hw Hshort.
  destruct (match_prices_oitm_keys _ _ _ _ _ _ H Hw) as (Hparse & Hmapped & Hk3 & Hk4).
  rewrite (parse_item_no_short _ Hshort) in Hparse.
  injection Hparse as Hstyle Hcolor Hsize Hvariable.
  rewrite (size_mapping_None _ _ Hstyle), Hsize in Hmapped.
  rewrite Hk4, Hk3, Hstyle, Hcolor, Hmapped, Hvariable. done.
Qed.

Lemma row_price oitm_df vpl_df configs oitm_df' vpl_df' w :
  match_prices oitm_df vpl_df configs = Ok (oitm_df', vpl_df') →
  w ∈ rows oitm_df' →
  w !!! "Price" = two_tier (price_lookup_4 vpl_df') (price_lookup_3 vpl_df')
                    (w !!! "Lookup_Key_4_Mapped") (w !!! "Lookup_Key_3_Mapped").
Proof.
  intros H Hw. apply match_prices_Ok in H as (_ & _ & _ & _ & Hoitm).
  apply list_elem_of_lookup in Hw as [i Hw].
  destruct (Forall2_lookup_r _ _ _ _ _ Hoitm Hw) as (v & _ & Hok).
  apply Hok.
Qed.

End ProcessVendor.

(** ** Items whose code does not parse *)

Section Unparseable.
Import PriceMatcher RowEquations Samples Keys SizeRules.

Implicit Types (v w : gmap string cell).

Lemma output_row_of_match (oitm_df' : DataFrame) (vendor_name : string) w :
  w ∈ rows oitm_df' → notna (w !!! "Price") →
  [w !!! "Item No."; w !!! "Price"]
    ∈ data_rows (create_output_file
                   (select (λ row, notna (row !!! "Price")) oitm_df') vendor_name).
Proof.
  intros Hw Hna. unfold create_output_file. simpl.
  apply list_elem_of_fmap. exists w. split; [done|].
  by apply list_elem_of_filter.
Qed.

Lemma removed_sheet_row (results : list vendor_result) (res : vendor_result) (x : cell) :
  res ∈ results → x ∈ removed_items res →
  [Str (vendor res); x; Str "No matching price found"] ∈ removed_sheet_rows results.
Proof.
  intros Hres Hx. unfold removed_sheet_rows.
  apply list_elem_of_bind. exists res. split; [|done].
  rewrite bool_decide_eq_false_2 by (intros Hnil; rewrite Hnil in Hx; by apply elem_of_nil in Hx).
  apply list_elem_of_fmap. by exists x.
Qed.

(** C10, as the code has it.  An item whose code has fewer than three
    segments stays in the frame: its fields are [None], which the
    normalisation turns into the text NONE, so its 4-part lookup key is the
    literal "NONE|NONE|NONE|" (and its 3-part key "NONE|NONE|NONE").
    Whenever the vendor's key4-to-price map carries a non-missing price under
    that key, that is, whenever the last vendor row whose fields produce the
    key has a price, the item receives the price and is written to the
    matched output: the exclusion of unparseable items is not unconditional.
    The vendor row ("None", "none", " NONE", no variant, 5) does so for the
    item "BADCODE". *)
Theorem unparseable_item_can_match vendor_name oitm_df vpl_df configs oitm_df' vpl_df' :
  match_prices oitm_df vpl_df configs = Ok (oitm_df', vpl_df') →
  (∀ w, w ∈ rows oitm_df' →
     (length (split "-" (str (w !!! "Item No."))) < 3)%nat →
     (w !!! "Style", w !!! "Color", w !!! "Size", w !!! "Variable")
       = (PyNone, PyNone, PyNone, PyNone) ∧
     w !!! "Lookup_Key_4_Mapped" = Str "NONE|NONE|NONE|" ∧
     w !!! "Lookup_Key_3_Mapped" = Str "NONE|NONE|NONE" ∧
     (∀ p, price_lookup_4 vpl_df' !! Str "NONE|NONE|NONE|" = Some p → notna p →
        w !!! "Price" = p ∧
        ∃ res out,
          process_vendor vendor_name oitm_df vpl_df configs = (Some res, [out]) ∧
          [w !!! "Item No."; p] ∈ data_rows out) ∧
     (∀ before v after, rows vpl_df' = before ++ v :: after →
        v !!! "Lookup_Key_4" = Str "NONE|NONE|NONE|" →
        Forall (λ u, u !!! "Lookup_Key_4" ≠ Str "NONE|NONE|NONE|") after →
        notna (v !!! "Price") → w !!! "Price" = v !!! "Price")) ∧
  process_vendor "V1" none_oitm none_vpl STYLES_USING_G_SIZES =
    (Some (mkResult "V1" 1 1 0 "V1_OITM_Updated.xlsx" []),
     [mkXlsx "V1_OITM_Updated.xlsx" [[Str "BADCODE"; Int 5]]]).
Proof.
  intros H. split; [|vm_compute; reflexivity].
  intros w Hw Hshort.
  destruct (unparseable_keys _ _ _ _ _ _ H Hw Hshort) as [Hk4 Hk3].
  destruct (match_prices_oitm_keys _ _ _ _ _ _ H Hw) as (Hparse & _).
  rewrite (parse_item_no_short _ Hshort) in Hparse.
  pose proof (row_price _ _ _ _ _ _ H Hw) as Hprice. rewrite Hk4, Hk3 in Hprice.
  assert (∀ p, price_lookup_4 vpl_df' !! Str "NONE|NONE|NONE|" = Some p → notna p →
               w !!! "Price" = p) as Hhit.
  { intros p Hp Hna. rewrite Hprice. unfold two_tier. by rewrite Hp, notna_isna. }
  split_and!; [done|done|done|..].
  - intros p Hp Hna. split; [by apply Hhit|].
    eexists _, _. split; [exact (process_vendor_Ok _ _ _ _ _ _ H)|].
    rewrite <- (Hhit p Hp Hna). apply output_row_of_match; [done|].
    by rewrite (Hhit p Hp Hna).
  - intros before v after Hsplit Hk Hlater Hna.
    apply Hhit; [|done]. by apply (dict_zip_columns_last _ _ before v after).
Qed.

Lemma unparseable_item_can_match_witness :
  match_prices none_oitm none_vpl STYLES_USING_G_SIZES = Ok (none_after.1, none_after.2) ∧
  default ∅ (rows none_after.1 !! 0%nat) !!! "Lookup_Key_4_Mapped" = Str "NONE|NONE|NONE|" ∧
  default ∅ (rows none_after.1 !! 0%nat) !!! "Price" = Int 5.
Proof.
  pose proof (sample_returns [Str "BADCODE"] (rows none_vpl)
                STYLES_USING_G_SIZES ltac:(done)) as E.
  split; [exact E|].
  destruct (proj1 (unparseable_item_can_match "V1" _ _ _ _ _ E)
              (default ∅ (rows none_after.1 !! 0%nat)))
    as (_ & Hk4 & _ & Hprice & _).
  - apply elem_of_lookup_default. vm_compute. reflexivity.
  - apply Nat.ltb_lt. vm_compute. reflexivity.
  - split; [exact Hk4|].
    apply (Hprice (Int 5)); vm_compute; [reflexivity | exact I].
Defined.

(** The claim as first worded fails on a vendor row without a price: its
    fields produce the key "NONE|NONE|NONE|", yet the unparseable item
    receives no price. *)
Lemma unparseable_item_needs_a_price :
  ¬ (∀ oitm_df vpl_df configs oitm_df' vpl_df' w v,
       match_prices oitm_df vpl_df configs = Ok (oitm_df', vpl_df') →
       w ∈ rows oitm_df' → (length (split "-" (str (w !!! "Item No."))) < 3)%nat →
       v ∈ rows vpl_df' → v !!! "Lookup_Key_4" = w !!! "Lookup_Key_4_Mapped" →
       notna (w !!! "Price")).
Proof.
  intros H.
  pose proof (sample_returns [Str "BADCODE"] (rows unpriced_vpl)
                STYLES_USING_G_SIZES ltac:(done)) as E.
  specialize (H _ _ _ _ _ _ _ E
                (elem_of_lookup_default (rows unpriced_after.1) 0 ∅
                   ltac:(vm_compute; reflexivity))
                ltac:(apply Nat.ltb_lt; vm_compute; reflexivity)
                (elem_of_lookup_default (rows unpriced_after.2) 0 ∅
                   ltac:(vm_compute; reflexivity))
                ltac:(vm_compute; reflexivity)).
  revert H. vm_compute. exact (λ x, x).
Qed.

(** C7, as the code has it.  An item whose code has fewer than three
    segments is looked up under the keys "NONE|NONE|NONE|" and
    "NONE|NONE|NONE".  When no vendor row with a price carries either key,
    the item is unmatched: the run completes, the item is absent from the
    matched output, is among the removed items of the summary, and its line
    in the sheet of removed SKUs has the reason "No matching price found". *)
Theorem unparseable_item_unmatched vendor_name oitm_df vpl_df configs oitm_df' vpl_df' :
  match_prices oitm_df vpl_df configs = Ok (oitm_df', vpl_df') →
  (∀ v, v ∈ rows vpl_df' → notna (v !!! "Price") →
     v !!! "Lookup_Key_4" ≠ Str "NONE|NONE|NONE|" ∧
     v !!! "Lookup_Key_3" ≠ Str "NONE|NONE|NONE") →
  ∃ res out,
    process_vendor vendor_name oitm_df vpl_df configs = (Some res, [out]) ∧
    ∀ w, w ∈ rows oitm_df' →
      (length (split "-" (str (w !!! "Item No."))) < 3)%nat →
      isna (w !!! "Price") ∧
      w !!! "Item No." ∈ removed_items res ∧
      (∀ row, row ∈ data_rows out → row !! 0%nat ≠ Some (w !!! "Item No.")) ∧
      (∀ results, res ∈ results →
         [Str vendor_name; w !!! "Item No."; Str "No matching price found"]
           ∈ removed_sheet_rows results).
Proof.
  intros H Hvendor.
  assert (∀ kc k p, (∀ v, v ∈ rows vpl_df' → notna (v !!! "Price") → v !!! kc ≠ k) →
            dict_zip (column kc vpl_df') (column "Price" vpl_df') !! k = Some p → isna p)
    as Hdict.
  { intros kc k p Hno Hp. apply dict_zip_Some in Hp. unfold column in Hp.
    rewrite zip_fmap in Hp. apply list_elem_of_fmap in Hp as (v & [= -> ->] & Hv).
    destruct (isna (v !!! "Price")) eqn:E; [done|].
    exfalso. apply (Hno v Hv); [|done]. unfold notna. by rewrite E. }
  assert (∀ w, w ∈ rows oitm_df' →
            (length (split "-" (str (w !!! "Item No."))) < 3)%nat →
            isna (w !!! "Price")) as Hunmatched.
  { intros w Hw Hshort.
    destruct (unparseable_keys _ _ _ _ _ _ H Hw Hshort) as [Hk4 Hk3].
    rewrite (row_price _ _ _ _ _ _ H Hw), Hk4, Hk3. unfold two_tier.
    destruct (price_lookup_4 vpl_df' !! _) as [p|] eqn:E4.
    - apply Hdict in E4; [|intros v Hv Hna; by apply Hvendor].
      destruct (isna p); [|done].
      destruct (price_lookup_3 vpl_df' !! _) as [q|] eqn:E3; [|done].
      apply Hdict in E3; [done|]. intros v Hv Hna; by apply Hvendor.
    - destruct (price_lookup_3 vpl_df' !! _) as [q|] eqn:E3; [|done].
      apply Hdict in E3; [done|]. intros v Hv Hna; by apply Hvendor. }
  eexists _, _. split; [exact (process_vendor_Ok _ _ _ _ _ _ H)|].
  intros w Hw Hshort. pose proof (Hunmatched w Hw Hshort) as Hna.
  assert (w !!! "Item No." ∈
            column "Item No." (select (λ row, isna (row !!! "Price")) oitm_df')) as Hrem.
  { unfold column. apply list_elem_of_fmap. exists w. split; [done|].
    by apply elem_of_select. }
  split_and!; [done|exact Hrem|..].
  - intros row Hrow Hfirst. unfold create_output_file in Hrow. simpl in Hrow.
    apply list_elem_of_fmap in Hrow as (w2 & -> & Hw2).
    apply list_elem_of_filter in Hw2 as [Hna2 Hw2].
    simpl in Hfirst. injection Hfirst as Hsame.
    rewrite <- Hsame in Hshort. specialize (Hunmatched w2 Hw2 Hshort).
    unfold notna in Hna2. by destruct (isna (w2 !!! "Price")).
  - intros results Hres.
    exact (removed_sheet_row results _ _ Hres Hrem).
Qed.

Lemma unparseable_item_unmatched_witness :
  match_prices none_oitm (vpl_of []) STYLES_USING_G_SIZES
    = Ok ((frames_after (match_prices none_oitm (vpl_of []) STYLES_USING_G_SIZES)).1,
          (frames_after (match_prices none_oitm (vpl_of []) STYLES_USING_G_SIZES)).2) ∧
  ∃ res out,
    process_vendor "V1" none_oitm (vpl_of []) STYLES_USING_G_SIZES = (Some res, [out]) ∧
    removed_items res = [Str "BADCODE"].
Proof.
  pose proof (sample_returns [Str "BADCODE"] [] STYLES_USING_G_SIZES ltac:(done)) as E.
  split; [exact E|].
  destruct (unparseable_item_unmatched "V1" _ _ _ _ _ E) as (res & out & Hpv & _).
  - intros v Hv. exfalso. revert Hv. vm_compute. by intros ?%elem_of_nil.
  - exists res, out. split; [exact Hpv|].
    revert Hpv. vm_compute. by intros [= <- _].
Defined.

(** The claim as first worded fails twice: an unparseable item is matched
    when a vendor row yields the key "NONE|NONE|NONE|", and the reason
    recorded for a removed item is never "unparseable code". *)
Lemma unparseable_item_claim_fails :
  ¬ (∀ vendor_name oitm_df vpl_df configs res files x,
       process_vendor vendor_name oitm_df vpl_df configs = (Some res, files) →
       x ∈ column "Item No." oitm_df → (length (split "-" (str x)) < 3)%nat →
       x ∈ removed_items res) ∧
  ¬ (∀ vendor_name oitm_df vpl_df configs res files x,
       process_vendor vendor_name oitm_df vpl_df configs = (Some res, files) →
       x ∈ removed_items res → (length (split "-" (str x)) < 3)%nat →
       [Str vendor_name; x; Str "unparseable code"] ∈ removed_sheet_rows [res]).
Proof.
  split; intros H.
  - specialize (H "V1" none_oitm none_vpl STYLES_USING_G_SIZES
                  (mkResult "V1" 1 1 0 "V1_OITM_Updated.xlsx" [])
                  [mkXlsx "V1_OITM_Updated.xlsx" [[Str "BADCODE"; Int 5]]]
                  (Str "BADCODE")
                  ltac:(vm_compute; reflexivity)
                  ltac:(apply list_elem_of_here)
                  ltac:(vm_compute; lia)).
    by apply elem_of_nil in H.
  - specialize (H "V1" none_oitm (vpl_of []) STYLES_USING_G_SIZES
                  (mkResult "V1" 1 0 1 "V1_OITM_Updated.xlsx" [Str "BADCODE"])
                  [mkXlsx "V1_OITM_Updated.xlsx" []]
                  (Str "BADCODE")
                  ltac:(vm_compute; reflexivity)
                  ltac:(apply list_elem_of_here)
                  ltac:(vm_compute; lia)).
    assert (removed_sheet_rows
              [mkResult "V1" 1 0 1 "V1_OITM_Updated.xlsx" [Str "BADCODE"]]
            = [[Str "V1"; Str "BADCODE"; Str "No matching price found"]]) as Hsheet
      by (vm_compute; reflexivity).
    rewrite Hsheet in H. apply list_elem_of_singleton in H. discriminate H.
Qed.

End Unparseable.

(** ** What [match_prices] changes in its arguments *)

Section InPlace.
Import PriceMatcher RowEquations Samples.

Implicit Types (v w : gmap string cell).

(** C3, as the code has it.  [match_prices] is a deterministic function of
    its arguments, but it is not free of effects: it updates both frames in
    place.  When it returns, each frame has the rows it had, in the same
    order, with the assigned columns added or overwritten (the vendor frame:
    Style_norm, Color_norm, Size_norm, Variable_norm, Lookup_Key_4,
    Lookup_Key_3; the internal frame: the columns of [OITM_ASSIGNED]); every
    other cell of both frames is unchanged.  In particular the vendor's
    Vendor Style, Color, Size, Variable and Price cells are only read. *)
Theorem match_prices_updates_in_place oitm_df vpl_df configs oitm_df' vpl_df' :
  match_prices oitm_df vpl_df configs = Ok (oitm_df', vpl_df') →
  length (rows vpl_df') = length (rows vpl_df) ∧
  length (rows oitm_df') = length (rows oitm_df) ∧
  (∀ (i : nat) w, rows vpl_df' !! i = Some w →
     ∃ v, rows vpl_df !! i = Some v ∧ ∀ c, c ∉ VPL_ASSIGNED → w !! c = v !! c) ∧
  (∀ (i : nat) w, rows oitm_df' !! i = Some w →
     ∃ v, rows oitm_df !! i = Some v ∧ ∀ c, c ∉ OITM_ASSIGNED → w !! c = v !! c) ∧
  (∀ c, c ∈ columns vpl_df' ↔ c ∈ columns vpl_df ∨ c ∈ VPL_ASSIGNED) ∧
  (∀ c, c ∈ columns oitm_df' ↔ c ∈ columns oitm_df ∨ c ∈ OITM_ASSIGNED) ∧
  (∀ c, c ∈ REQUIRED_VPL_COLS → column c vpl_df' = column c vpl_df).
Proof.
  intros H.
  pose proof (match_prices_columns _ _ _ _ _ H) as [Hcv Hco].
  apply match_prices_Ok in H as (_ & _ & _ & Hvpl & Hoitm).
  assert (∀ (i : nat) w, rows vpl_df' !! i = Some w →
     ∃ v, rows vpl_df !! i = Some v ∧ ∀ c, c ∉ VPL_ASSIGNED → w !! c = v !! c) as Hv.
  { intros i w Hw.
    destruct (Forall2_lookup_r _ _ _ _ _ Hvpl Hw) as (v & Hv & Hok).
    exists v. split; [done|]. apply Hok. }
  split_and!.
  - symmetry. by eapply Forall2_length.
  - symmetry. by eapply Forall2_length.
  - exact Hv.
  - intros i w Hw.
    destruct (Forall2_lookup_r _ _ _ _ _ Hoitm Hw) as (v & Hv' & Hok).
    exists v. split; [done|]. apply Hok.
  - exact Hcv.
  - exact Hco.
  - intros c Hc. unfold column. apply list_eq. intros i.
    rewrite !list_lookup_fmap.
    destruct (rows vpl_df' !! i) as [w|] eqn:Ew.
    + destruct (Hv i w Ew) as (v & -> & Hframe). simpl.
      rewrite !lookup_total_alt, Hframe; [done|].
      intros Hin. revert Hc Hin. unfold REQUIRED_VPL_COLS, VPL_ASSIGNED.
      rewrite !elem_of_cons, !elem_of_nil.
      intros [->|[->|[->|[->|[->|[]]]]]]; intros [?|[?|[?|[?|[?|[?|[]]]]]]]; discriminate.
    + apply lookup_ge_None in Ew.
      rewrite <- (Forall2_length _ _ _ Hvpl) in Ew.
      apply lookup_ge_None in Ew. by rewrite Ew.
Qed.

Lemma match_prices_updates_in_place_witness :
  match_prices demo_oitm demo_vpl STYLES_USING_G_SIZES = Ok (demo_after.1, demo_after.2) ∧
  column "Price" demo_after.2 = column "Price" demo_vpl ∧
  length (rows demo_after.2) = length (rows demo_vpl).
Proof.
  pose proof (sample_returns [Str "A-RED-M-1"; Str "A-RED-M-2"; Str "B-RED-M"]
                (rows demo_vpl) STYLES_USING_G_SIZES ltac:(done)) as E.
  split; [exact E|].
  destruct (match_prices_updates_in_place _ _ _ _ _ E) as (Hlen & _ & _ & _ & _ & _ & Hcol).
  split; [|exact Hlen].
  apply Hcol. do 4 apply list_elem_of_further. apply list_elem_of_here.
Defined.

(** The claim as first worded fails: after the call the vendor frame has
    six more columns, and the internal frame thirteen more. *)
Lemma match_prices_is_not_pure :
  ¬ (∀ oitm_df vpl_df configs oitm_df' vpl_df',
       match_prices oitm_df vpl_df configs = Ok (oitm_df', vpl_df') →
       oitm_df' = oitm_df ∧ vpl_df' = vpl_df).
Proof.
  intros H.
  pose proof (sample_returns [Str "A-RED-M-1"; Str "A-RED-M-2"; Str "B-RED-M"]
                (rows demo_vpl) STYLES_USING_G_SIZES ltac:(done)) as E.
  destruct (H _ _ _ _ _ E) as [_ Hv].
  apply (f_equal (λ df, length (columns df))) in Hv.
  revert Hv. vm_compute. discriminate.
Qed.

End InPlace.

(** ** The marker of discontinued rows *)

Section CaseInsensitive.
Import Flagging.

Lemma startswith_upper (s t : string) :
  startswith s t = true → startswith (upper s) (upper t) = true.
Proof.
  revert s. induction t as [|a t IH]; intros s; [by destruct s|].
  destruct s as [|b s]; [done|]. simpl.
  rewrite !andb_true_iff, !bool_decide_eq_true.
  intros [-> Hs]. split; [done|]. by apply IH.
Qed.

Lemma contains_upper (s t : string) :
  contains s t = true → contains (upper s) (upper t) = true.
Proof.
  induction s as [|b s IH]; simpl; rewrite !orb_true_iff.
  - intros [Hs|]; [|done]. left. by apply (startswith_upper "" t).
  - intros [Hs|Hs].
    + left. by apply (startswith_upper (String b s) t).
    + right. by apply IH.
Qed.

Lemma startswith_upper_inv (s T : string) :
  startswith (upper s) T = true → ∃ t, upper t = T ∧ startswith s t = true.
Proof.
  revert s. induction T as [|a T IH]; intros s.
  - intros _. exists "". by destruct s.
  - destruct s as [|b s]; [done|]. simpl.
    rewrite andb_true_iff, bool_decide_eq_true. intros [-> Hs].
    destruct (IH s Hs) as (t & <- & Ht).
    exists (String b t). split; [done|]. simpl.
    by rewrite bool_decide_eq_true_2, Ht.
Qed.

Lemma contains_upper_inv (s T : string) :
  contains (upper s) T = true → ∃ t, upper t = T ∧ contains s t = true.
Proof.
  induction s as [|b s IH]; simpl; rewrite !orb_true_iff.
  - intros [Hs|]; [|done].
    destruct (startswith_upper_inv "" T Hs) as (t & Ht & Hst).
    exists t. split; [done|].
    change (startswith "" t || false = true). by rewrite Hst.
  - intros [Hs|Hs].
    + destruct (startswith_upper_inv (String b s) T Hs) as (t & Ht & Hst).
      exists t. split; [done|].
      change (startswith (String b s) t || contains s t = true). by rewrite Hst.
    + destruct (IH Hs) as (t & Ht & Hc).
      exists t. split; [done|].
      change (startswith (String b s) t || contains s t = true).
      by rewrite Hc, orb_true_r.
Qed.

(** A name is marked exactly when it contains DISCONTINUED in some casing. *)
Lemma marked_discontinued_iff (v : gmap string cell) :
  marked_discontinued v ↔
  ∃ t, upper t = "DISCONTINUED" ∧ contains (str (v !!! "Style Name")) t = true.
Proof.
  unfold marked_discontinued. rewrite Is_true_true. split.
  - apply contains_upper_inv.
  - intros (t & Ht & Hc). rewrite <- Ht. by apply contains_upper.
Qed.

End CaseInsensitive.

(** ** Discontinuation mode *)

Section Discontinuation.
Import Discontinued Flagging Samples.

Implicit Types (r v w : gmap string cell) (df : DataFrame).

Lemma filter_fmap {A B} (f : A → B) (P : B → Prop) `{!∀ x, Decision (P x)} (l : list A) :
  filter P (f <$> l) = f <$> filter (λ x, P (f x)) l.
Proof.
  induction l as [|x l IH]; [done|].
  rewrite fmap_cons, !filter_cons, IH. by destruct (decide (P (f x))).
Qed.

Lemma filter_ext_in {A} (P Q : A → Prop) `{!∀ x, Decision (P x)} `{!∀ x, Decision (Q x)}
    (l : list A) :
  (∀ x, x ∈ l → P x ↔ Q x) → filter P l = filter Q l.
Proof.
  induction l as [|x l IH]; intros Hext; [done|].
  rewrite !filter_cons, IH by (intros y Hy; apply Hext; by right).
  destruct (decide (P x)) as [HP|HP], (decide (Q x)) as [HQ|HQ]; try done.
  - exfalso. apply HQ, (Hext x); [by left|done].
  - exfalso. apply HP, (Hext x); [by left|done].
Qed.

(** The rows of the internal frame once its key column is assigned *)
Lemma oitm_lookup_key df :
  ∃ g : gmap string cell → gmap string cell,
    rows (assign "Lookup_Key"
            (λ row, Str (create_lookup_key (row !!! "Style") (row !!! "Color")
                                           (row !!! "Size") (row !!! "Variable")))
            (assign_columns ["Style"; "Color"; "Size"; "Variable"]
               (λ row, let '(style, color, size, variable) :=
                         parse_item_no (row !!! "ItemCode") in
                       [style; color; size; variable]) df))
      = g <$> rows df ∧
    ∀ r, g r !!! "Lookup_Key" = item_key (r !!! "ItemCode") ∧
         g r !!! "ItemCode" = r !!! "ItemCode".
Proof.
  eexists. split.
  - rewrite rows_assign. unfold assign_columns. simpl rows.
    rewrite <- list_fmap_compose. reflexivity.
  - intros r. unfold compose.
    destruct (set_cells_parsed parse_item_no "ItemCode" r) as [Hparsed Hframe].
    simpl in Hparsed, Hframe.
    set (R := set_cells _ _ r) in *.
    assert (R !!! "ItemCode" = r !!! "ItemCode") as Hcode.
    { rewrite !lookup_total_alt. rewrite Hframe; [done|].
      rewrite !not_elem_of_cons. split_and!; first [discriminate | apply not_elem_of_nil]. }
    row_simpl. split; [|done].
    unfold item_key. by rewrite <- Hparsed.
Qed.

(** The rows of the vendor frame once its key column is assigned *)
Lemma dtw_lookup_key df :
  ∃ f : gmap string cell → gmap string cell,
    rows (assign "Lookup_Key"
            (λ row, Str (create_lookup_key (row !!! "Vendor Style") (row !!! "Color")
                                           (row !!! "Size") (row !!! "Variable")))
            (if negb (has_column "Variable" df)
             then assign "Variable" (λ _, PyNone) df else df))
      = f <$> rows df ∧
    ∀ v, f v !!! "Lookup_Key" = vendor_key (has_column "Variable" df) v ∧
         f v !!! "Style Name" = v !!! "Style Name".
Proof.
  destruct (has_column "Variable" df); simpl negb; cbv iota.
  - eexists. split; [apply rows_assign|]. intros v. by row_simpl.
  - eexists. split.
    + rewrite !rows_assign, <- list_fmap_compose. reflexivity.
    + intros v. unfold compose. by row_simpl.
Qed.

(** What [find_discontinued_items] returns and saves for frames with the
    required columns and an internal frame with rows *)
Lemma find_discontinued_items_cases vendor_name oitm_df dtw_df :
  valid_columns oitm_df dtw_df → rows oitm_df ≠ [] →
  let hits := filter (λ x, item_key x ∈ discontinued_keys dtw_df)
                     (column "ItemCode" oitm_df) in
  let discontinued := Z.of_nat (length (discontinued_keys dtw_df)) in
  let name := vendor_name +:+ "_DEACTIVATE_DTW.xlsx" in
  find_discontinued_items vendor_name oitm_df dtw_df =
    if bool_decide (discontinued = 0) then
      (Some (mkResult vendor_name (len oitm_df) 0 0 None None), [])
    else if bool_decide (Z.of_nat (length hits) = 0) then
      (Some (mkResult vendor_name (len oitm_df) discontinued 0 None None), [])
    else
      (Some (mkResult vendor_name (len oitm_df) discontinued (Z.of_nat (length hits))
                      (Some name) (Some hits)),
       [mkXlsx name ((λ x, [x; Str "Y"; Str "N"]) <$> hits)]).
Proof.
  intros (Hcode & Hname & Hreq) Hrows hits discontinued name.
  unfold find_discontinued_items.
  rewrite Hcode, Hname. simpl negb. cbv iota.
  rewrite (missing_cols_nil (columns dtw_df) REQUIRED_COLS Hreq).
  simpl negb. cbv iota.
  rewrite (bool_decide_eq_false_2 (rows oitm_df = [])) by done.
  cbv zeta.
  set (O := assign "Lookup_Key" _ (assign_columns _ _ oitm_df)).
  set (D := assign "Lookup_Key" _ (if negb (has_column "Variable" dtw_df) then _ else _)).
  destruct (dtw_lookup_key dtw_df) as (fD & HD & HfD). fold D in HD.
  destruct (oitm_lookup_key oitm_df) as (gO & HO & HgO). fold O in HO.
  clearbody O D.
  assert (len O = len oitm_df) as HlenO.
  { unfold len. by rewrite HO, length_fmap. }
  set (sel := select (λ row, contains (upper (str (row !!! "Style Name"))) "DISCONTINUED") D).
  assert (rows sel = fD <$> filter (λ v, marked_discontinued v) (rows dtw_df)) as Hsel.
  { unfold sel, select. simpl rows. rewrite HD, (filter_fmap fD).
    f_equal. apply filter_ext_in. intros v _.
    unfold marked_discontinued. by rewrite (proj2 (HfD v)). }
  assert (column "Lookup_Key" sel = discontinued_keys dtw_df) as Hkeys.
  { unfold column, discontinued_keys. rewrite Hsel, <- list_fmap_compose.
    apply list_fmap_ext. intros _ v _. simpl. apply HfD. }
  assert (len sel = discontinued) as Hlen.
  { unfold len, discontinued, discontinued_keys. by rewrite Hsel, !length_fmap. }
  rewrite Hkeys, Hlen, HlenO.
  set (hit := select _ O).
  assert (rows hit = gO <$> filter (λ r, item_key (r !!! "ItemCode") ∈ discontinued_keys dtw_df)
                              (rows oitm_df)) as Hhit.
  { unfold hit, select. simpl rows. rewrite HO, (filter_fmap gO).
    f_equal. apply filter_ext_in. intros r _.
    rewrite bool_decide_spec, elem_of_list_to_set. by rewrite (proj1 (HgO r)). }
  assert (column "ItemCode" hit = hits) as Hcol.
  { unfold hits, column. rewrite Hhit, <- list_fmap_compose, (filter_fmap (λ r : gmap string cell, r !!! "ItemCode")).
    apply list_fmap_ext. intros _ r _. simpl. apply HgO. }
  assert (len hit = Z.of_nat (length hits)) as Hlenhit.
  { unfold len. rewrite <- Hcol. unfold column. by rewrite length_fmap. }
  rewrite Hlenhit, Hcol.
  destruct (bool_decide (discontinued = 0)); [done|].
  destruct (bool_decide (Z.of_nat (length hits) = 0)); [done|].
  simpl. do 3 f_equal.
  rewrite <- Hcol. unfold column. by rewrite <- list_fmap_compose.
Qed.


Lemma find_discontinued_items_empty vendor_name oitm_df dtw_df :
  rows oitm_df = [] → find_discontinued_items vendor_name oitm_df dtw_df = (None, []).
Proof.
  intros Hrows. unfold find_discontinued_items.
  destruct (negb (has_column "ItemCode" oitm_df)); [done|].
  destruct (negb (has_column "Style Name" dtw_df)); [done|].
  destruct (negb (bool_decide _)); [done|].
  by rewrite (bool_decide_eq_true_2 (rows oitm_df = [])).
Qed.

Lemma filter_elem_of_nil {A} `{EqDecision A} (f : A → A) (l : list A) :
  filter (λ x, f x ∈ @nil A) l = [].
Proof.
  induction l as [|x l IH]; [done|].
  rewrite filter_cons_False; [done|]. apply not_elem_of_nil.
Qed.

Lemma flagged_hits (res : option vendor_result) (name : string) (hits : list cell) :
  flagged (res, [mkXlsx name ((λ x, [x; Str "Y"; Str "N"]) <$> hits)]) = hits.
Proof.
  unfold flagged. simpl. rewrite app_nil_r, <- list_fmap_compose.
  induction hits as [|x hits IH]; [done|]. rewrite fmap_cons. simpl. by rewrite IH.
Qed.

(** C6. In discontinuation mode, for frames with the required columns, the
    item codes written for deactivation are exactly the internal item codes,
    in their input order, whose canonical key (parsed, no size mapping, one
    lookup with no fallback) is among the canonical keys of the vendor rows
    whose descriptive name contains DISCONTINUED in any letter case (a
    substring whose uppercase form is DISCONTINUED).  So an item is flagged
    only through such a vendor row; a vendor row without the marker flags
    nothing.  The item "B-BLUE-S" is flagged by the row named
    "Classic Tee - Discontinued" and by no row named "Classic Tee", and the
    item "B-BLUE-S-1" is flagged by neither. *)
Theorem flagged_items vendor_name oitm_df dtw_df :
  valid_columns oitm_df dtw_df →
  flagged (find_discontinued_items vendor_name oitm_df dtw_df) =
    filter (λ x, item_key x ∈ discontinued_keys dtw_df) (column "ItemCode" oitm_df) ∧
  (∀ x, x ∈ flagged (find_discontinued_items vendor_name oitm_df dtw_df) →
     x ∈ column "ItemCode" oitm_df ∧
     ∃ v, v ∈ rows dtw_df ∧ marked_discontinued v ∧
          vendor_key (has_column "Variable" dtw_df) v = item_key x) ∧
  (∀ v, marked_discontinued v ↔
        ∃ t, upper t = "DISCONTINUED" ∧ contains (str (v !!! "Style Name")) t = true) ∧
  (∀ res files l, find_discontinued_items vendor_name oitm_df dtw_df = (Some res, files) →
     items_list res = Some l →
     l = filter (λ x, item_key x ∈ discontinued_keys dtw_df) (column "ItemCode" oitm_df)) ∧
  flagged (find_discontinued_items "V1" tee_oitm (tee_dtw "Classic Tee - Discontinued"))
    = [Str "B-BLUE-S"] ∧
  flagged (find_discontinued_items "V1" tee_oitm (tee_dtw "Classic Tee")) = [].
Proof.
  intros Hvalid.
  assert (flagged (find_discontinued_items vendor_name oitm_df dtw_df) =
          filter (λ x, item_key x ∈ discontinued_keys dtw_df) (column "ItemCode" oitm_df))
    as Hflagged.
  { destruct (decide (rows oitm_df = [])) as [Hrows|Hrows].
    - rewrite find_discontinued_items_empty by done.
      unfold column. by rewrite Hrows.
    - rewrite (find_discontinued_items_cases _ _ _ Hvalid Hrows). cbv zeta.
      case_bool_decide as Hdisc.
      + assert (discontinued_keys dtw_df = []) as -> by (apply nil_length_inv; lia).
        by rewrite (filter_elem_of_nil item_key).
      + case_bool_decide as Hhits.
        * symmetry. apply nil_length_inv. lia.
        * apply flagged_hits. }
  split_and!.
  - exact Hflagged.
  - intros x. rewrite Hflagged, list_elem_of_filter. intros [Hkey Hx].
    split; [done|]. unfold discontinued_keys in Hkey.
    apply list_elem_of_fmap in Hkey as (v & Hv & Hin).
    apply list_elem_of_filter in Hin as [Hmark Hin]. by exists v.
  - apply marked_discontinued_iff.
  - intros res files l Hfind Hl.
    destruct (decide (rows oitm_df = [])) as [Hrows|Hrows].
    + by rewrite find_discontinued_items_empty in Hfind.
    + rewrite (find_discontinued_items_cases _ _ _ Hvalid Hrows) in Hfind.
      cbv zeta in Hfind.
      repeat case_bool_decide; injection Hfind as <- _; simpl in Hl; congruence.
  - vm_compute. reflexivity.
  - vm_compute. reflexivity.
Qed.

Lemma flagged_items_witness :
  valid_columns tee_oitm (tee_dtw "Classic Tee - Discontinued") ∧
  flagged (find_discontinued_items "V1" tee_oitm (tee_dtw "Classic Tee - Discontinued")) =
    filter (λ x, item_key x ∈ discontinued_keys (tee_dtw "Classic Tee - Discontinued"))
           (column "ItemCode" tee_oitm).
Proof.
  assert (valid_columns tee_oitm (tee_dtw "Classic Tee - Discontinued")) as Hvalid.
  { split_and!; [vm_compute; reflexivity | vm_compute; reflexivity |].
    repeat constructor. }
  split; [exact Hvalid|].
  exact (proj1 (flagged_items "V1" _ _ Hvalid)).
Defined.

End Discontinuation.

(** ** A pair without matches *)

Section EmptyResults.
Import Flagging Samples.

Lemma len_select_zero (p : gmap string cell → bool) (df : DataFrame) :
  len (select p df) = 0 → rows (select p df) = [].
Proof. intros H. apply nil_length_inv. unfold len in H. lia. Qed.

(** C8, as the code has it.  For a pair whose tables carry the required
    columns and whose internal table has at least one row, a run without
    matches is not an error in either mode: the pair completes, returns its
    summary with a matched count of zero, and the summary is kept among the
    results that the run reports.  In discontinuation mode no workbook is
    saved for such a pair (nor when no vendor row is marked as discontinued).
    In price-matching mode the workbook of the pair is saved all the same,
    with no data rows. *)
Theorem run_without_matches :
  (∀ vendor_name oitm_df vpl_df configs,
     has_column "Item No." oitm_df = true → rows oitm_df ≠ [] →
     Forall (λ c, has_column c vpl_df = true) PriceMatcher.REQUIRED_VPL_COLS →
     ∃ res out,
       PriceMatcher.process_vendor vendor_name oitm_df vpl_df configs = (Some res, [out]) ∧
       PriceMatcher.total_skus res = len oitm_df ∧
       PriceMatcher.matched_skus res + PriceMatcher.removed_skus res
         = PriceMatcher.total_skus res ∧
       file_name out = vendor_name +:+ "_OITM_Updated.xlsx" ∧
       PriceMatcher.output_file res = file_name out ∧
       (PriceMatcher.matched_skus res = 0 →
          data_rows out = [] ∧ PriceMatcher.removed_skus res = len oitm_df) ∧
       (configs = PriceMatcher.STYLES_USING_G_SIZES →
          (PriceMatcher.process_all [(vendor_name, oitm_df, vpl_df)]).1 = [res])) ∧
  (∀ vendor_name oitm_df dtw_df,
     valid_columns oitm_df dtw_df → rows oitm_df ≠ [] →
     ∃ res files,
       Discontinued.find_discontinued_items vendor_name oitm_df dtw_df = (Some res, files) ∧
       Discontinued.total_oitm res = len oitm_df ∧
       (Discontinued.discontinued_in_dtw res = 0 →
          Discontinued.matched_to_deactivate res = 0) ∧
       (Discontinued.matched_to_deactivate res = 0 →
          files = [] ∧ Discontinued.output_file res = None) ∧
       (Discontinued.process_all [(vendor_name, oitm_df, dtw_df)]).1 = [res]).
Proof.
  split.
  - intros vendor_name oitm_df vpl_df configs Hitem Hrows Hcols.
    destruct (match_prices_returns oitm_df vpl_df configs Hitem Hrows Hcols)
      as (oitm_df' & vpl_df' & H).
    pose proof (process_vendor_Ok vendor_name _ _ _ _ _ H) as Hpv.
    destruct (match_prices_Ok _ _ _ _ _ H) as (_ & _ & _ & _ & Hoitm).
    assert (len oitm_df' = len oitm_df) as Hlen.
    { unfold len. by rewrite <- (Forall2_length _ _ _ Hoitm). }
    eexists _, _. split; [exact Hpv|]. simpl.
    split_and!; [done|lia|done|done|..].
    + intros Hzero. split; [|lia].
      pose proof (len_select_zero _ _ Hzero) as Hnil. simpl in Hnil.
      by rewrite Hnil.
    + intros ->. unfold PriceMatcher.process_all. simpl. by rewrite Hpv.
  - intros vendor_name oitm_df dtw_df Hvalid Hrows.
    pose proof (find_discontinued_items_cases vendor_name _ _ Hvalid Hrows) as Hfind.
    cbv zeta in Hfind.
    unfold Discontinued.process_all. simpl. rewrite Hfind.
    repeat case_bool_decide; eexists _, _; simpl;
      (split; [reflexivity|]); split_and!; try done; lia.
Qed.

Lemma run_without_matches_witness :
  (∃ res out,
     PriceMatcher.process_vendor "V1" none_oitm (vpl_of []) PriceMatcher.STYLES_USING_G_SIZES
       = (Some res, [out]) ∧
     PriceMatcher.total_skus res = 1) ∧
  (∃ res files,
     Discontinued.find_discontinued_items "V1" tee_oitm (tee_dtw "Classic Tee")
       = (Some res, files) ∧
     Discontinued.total_oitm res = 4).
Proof.
  split.
  - destruct (proj1 run_without_matches "V1" none_oitm (vpl_of [])
                PriceMatcher.STYLES_USING_G_SIZES)
      as (res & out & Hpv & Htotal & _).
    + vm_compute. reflexivity.
    + discriminate.
    + by repeat constructor.
    + exists res, out. split; [exact Hpv|]. rewrite Htotal. vm_compute. reflexivity.
  - destruct (proj2 run_without_matches "V1" tee_oitm (tee_dtw "Classic Tee"))
      as (res & files & Hfind & Htotal & _).
    + split_and!; [vm_compute; reflexivity | vm_compute; reflexivity |].
      repeat constructor.
    + discriminate.
    + exists res, files. split; [exact Hfind|]. rewrite Htotal. vm_compute. reflexivity.
Defined.

(** The claim as first worded fails in price-matching mode: a pair without
    a single match still has its workbook saved. *)
Lemma zero_matches_still_saves_a_workbook :
  ¬ (∀ vendor_name oitm_df vpl_df configs res files,
       PriceMatcher.process_vendor vendor_name oitm_df vpl_df configs = (Some res, files) →
       PriceMatcher.matched_skus res = 0 → files = []).
Proof.
  intros H.
  specialize (H "V1" none_oitm (vpl_of []) PriceMatcher.STYLES_USING_G_SIZES
                (PriceMatcher.mkResult "V1" 1 0 1 "V1_OITM_Updated.xlsx" [Str "BADCODE"])
                [mkXlsx "V1_OITM_Updated.xlsx" []]
                ltac:(vm_compute; reflexivity) eq_refl).
  discriminate H.
Qed.

End EmptyResults.

(** ** Item numbers: what the parse keeps *)

Section ParseRoundTrip.

Lemma join_cons2 (sep p q : string) (ps : list string) :
  join sep (p :: q :: ps) = p +:+ sep +:+ join sep (q :: ps).
Proof. reflexivity. Qed.

Lemma join_app (sep : string) (l1 l2 : list string) :
  l1 ≠ [] → l2 ≠ [] →
  join sep (l1 ++ l2) = join sep l1 +:+ sep +:+ join sep l2.
Proof.
  intros H1 H2. induction l1 as [|p [|q l1] IH]; [done| |].
  - destruct l2; [done|]. reflexivity.
  - change ((p :: q :: l1) ++ l2) with (p :: q :: (l1 ++ l2)).
    rewrite !join_cons2.
    change (q :: l1 ++ l2) with ((q :: l1) ++ l2).
    rewrite IH by done. by rewrite !append_assoc.
Qed.

Lemma last_two (l : list string) :
  (2 ≤ length l)%nat → ∃ mid y z, l = mid ++ [y; z].
Proof.
  destruct l as [|z l _] using rev_ind; [simpl; lia|].
  destruct l as [|y l _] using rev_ind; [simpl; lia|].
  intros _. exists l, y, z. by rewrite <- app_assoc.
Qed.

(** A list of at least three segments is its head, a middle and its last two *)
Lemma segments_split (parts : list string) :
  (3 ≤ length parts)%nat →
  ∃ a mid y z, parts = a :: mid ++ [y; z] ∧ length parts = (length mid + 3)%nat.
Proof.
  intros Hlen. destruct parts as [|a rest]; [simpl in Hlen; lia|].
  simpl in Hlen.
  destruct (last_two rest) as (mid & y & z & ->); [lia|].
  exists a, mid, y, z. split; [done|]. simpl. rewrite length_app. simpl. lia.
Qed.

Lemma contains_cons_sep (sep c : ascii) (s : string) :
  contains (String c s) (String sep EmptyString)
  = bool_decide (sep = c) || contains s (String sep EmptyString).
Proof. simpl. by destruct (bool_decide (sep = c)), s. Qed.

Lemma contains_app_sep (sep : ascii) (s t : string) :
  contains (s +:+ t) (String sep EmptyString)
  = contains s (String sep EmptyString) || contains t (String sep EmptyString).
Proof.
  induction s as [|c s IH]; [done|].
  rewrite append_cons, !contains_cons_sep, IH. by rewrite orb_assoc.
Qed.

Lemma contains_sep_self (sep : ascii) :
  contains (String sep EmptyString) (String sep EmptyString) = true.
Proof. simpl. by rewrite bool_decide_eq_true_2. Qed.

(** The three shapes of a parse *)
Lemma parsed_fields (x : cell) :
  let parts := split "-" (str x) in
  ((length parts < 3)%nat ∧
     PriceMatcher.parse_item_no x = (PyNone, PyNone, PyNone, PyNone)) ∨
  (∃ a b c, parts = [a; b; c] ∧
     PriceMatcher.parse_item_no x = (Str a, Str b, Str c, PyNone)) ∨
  (∃ a mid y z, parts = a :: mid ++ [y; z] ∧ mid ≠ [] ∧
     PriceMatcher.parse_item_no x = (Str a, Str (join "-" mid), Str y, Str z)).
Proof.
  intros parts. unfold PriceMatcher.parse_item_no. fold parts.
  destruct (decide (length parts < 3)%nat) as [Hlt|Hge].
  { left. split; [done|]. by rewrite !bool_decide_eq_false_2 by lia. }
  right.
  destruct (segments_split parts) as (a & mid & y & z & E & Hlen); [lia|].
  rewrite E in *. clearbody parts.
  destruct mid as [|b mid].
  - left. exists a, y, z. done.
  - right. exists a, (b :: mid), y, z. split; [done|]. split; [done|].
    destruct mid as [|b' mid]; [done|].
    rewrite !bool_decide_eq_false_2 by (simpl in *; lia).
    rewrite bool_decide_eq_true_2 by (simpl in *; lia).
    rewrite slice_middle.
    change (a :: (b :: b' :: mid) ++ [y; z]) with ((a :: b :: b' :: mid) ++ [y; z]).
    by rewrite item_neg_1, item_neg_2.
Qed.

(** X1. The parse loses nothing of a code that it accepts: when
    [parse_item_no] returns fields (the style is not [None]), joining style,
    color and size with '-', and the variant after them when there is one,
    gives back the text of the item number. *)
Theorem parse_item_no_round_trip (x style color size variable : cell) :
  PriceMatcher.parse_item_no x = (style, color, size, variable) →
  style ≠ PyNone →
  str x = if bool_decide (variable = PyNone)
          then str style +:+ "-" +:+ str color +:+ "-" +:+ str size
          else str style +:+ "-" +:+ str color +:+ "-" +:+ str size
                 +:+ "-" +:+ str variable.
Proof.
  intros H Hstyle.
  pose proof (join_split "-" (str x)) as Hj.
  destruct (parsed_fields x)
    as [[_ E]|[(a & b & c & Ep & E)|(a & mid & y & z & Ep & Hmid & E)]];
    rewrite E in H; injection H as <- <- <- <-; [done| |].
  - rewrite Ep in Hj. by rewrite <- Hj.
  - rewrite Ep in Hj. rewrite <- Hj. simpl bool_decide. cbv iota.
    change (a :: mid ++ [y; z]) with ([a] ++ (mid ++ [y; z])).
    rewrite join_app by (by destruct mid).
    rewrite join_app by done. simpl. by rewrite ?append_assoc.
Qed.

Lemma parse_item_no_round_trip_witness :
  str (Str "2795-DARK-RED-XL-1") =
    "2795" +:+ "-" +:+ "DARK-RED" +:+ "-" +:+ "XL" +:+ "-" +:+ "1".
Proof.
  apply (parse_item_no_round_trip (Str "2795-DARK-RED-XL-1")
           (Str "2795") (Str "DARK-RED") (Str "XL") (Str "1"));
    [reflexivity|discriminate].
Defined.

(** X2. Whatever the item number, the style, the size and the variant that
    [parse_item_no] returns contain no hyphen; the color contains one exactly
    when the code has more than four segments. *)
Theorem parse_item_no_hyphens (x style color size variable : cell) :
  PriceMatcher.parse_item_no x = (style, color, size, variable) →
  contains (str style) "-" = false ∧
  contains (str size) "-" = false ∧
  contains (str variable) "-" = false ∧
  (contains (str color) "-" = true ↔ (4 < length (split "-" (str x)))%nat).
Proof.
  intros H.
  assert (∀ p, p ∈ split "-" (str x) → contains p "-" = false) as Hseg
    by (intros p; apply split_segments).
  destruct (parsed_fields x)
    as [[Hlen E]|[(a & b & c & Ep & E)|(a & mid & y & z & Ep & Hmid & E)]];
    rewrite E in H; injection H as <- <- <- <-.
  - split_and!; [done..|]. split; [done|lia].
  - rewrite Ep in *.
    split_and!; [apply Hseg; rewrite !elem_of_cons; auto..|done|].
    simpl. rewrite Hseg by (rewrite !elem_of_cons; auto). split; [done|lia].
  - rewrite Ep in *.
    assert (contains a "-" = false ∧ contains y "-" = false ∧ contains z "-" = false)
      as (Ha & Hy & Hz).
    { split_and!; apply Hseg; rewrite ?elem_of_cons, ?elem_of_app, ?elem_of_cons; auto. }
    split_and!; [done..|].
    simpl length. rewrite length_app. simpl length.
    destruct mid as [|b [|b' mid]]; [done| |].
    + simpl. rewrite Hseg by (rewrite ?elem_of_cons, ?elem_of_app, ?elem_of_cons; auto).
      split; [done|lia].
    + split; [simpl; lia|intros _].
      cbn [str]. rewrite join_cons2, !contains_app_sep, contains_sep_self.
      by rewrite orb_true_r.
Qed.

Lemma parse_item_no_hyphens_witness :
  contains (str (Str "2795")) "-" = false ∧
  contains (str (Str "XL")) "-" = false ∧
  contains (str (Str "1")) "-" = false ∧
  (contains (str (Str "DARK-RED")) "-" = true ↔
   (4 < length (split "-" (str (Str "2795-DARK-RED-XL-1"))))%nat).
Proof.
  apply (parse_item_no_hyphens (Str "2795-DARK-RED-XL-1")
           (Str "2795") (Str "DARK-RED") (Str "XL") (Str "1")).
  reflexivity.
Defined.

End ParseRoundTrip.

(** ** Canonical keys: when two keys coincide *)

Section KeyIdentity.
Import Discontinued Keys.

Lemma normal_norm (x : cell) : normal (norm x) = normal x.
Proof.
  unfold normal, norm. cbn [str].
  by rewrite (upper_strip (upper (str x))), upper_idemp, strip_idemp.
Qed.

Lemma variant_absent_normal (x : cell) :
  variant_absent x = isna x || bool_decide (normal x ∈ [""; "NONE"; "NAN"]).
Proof. unfold variant_absent, normal. by rewrite upper_strip. Qed.

Lemma variant_absent_norm (x : cell) : variant_absent (norm x) = variant_absent x.
Proof.
  rewrite !variant_absent_normal, normal_norm.
  destruct x as [s|z| |]; try done.
Qed.

Lemma create_lookup_key_norm style color size variable :
  create_lookup_key (norm style) (norm color) (norm size) (norm variable)
  = create_lookup_key style color size variable.
Proof.
  rewrite !create_lookup_key_cases, variant_absent_norm.
  unfold three_part, four_part. by rewrite !normal_norm.
Qed.

(** X3. [create_lookup_key] reads its fields only through their
    normalisation: two tuples of fields whose texts agree once uppercased and
    trimmed have the same key, whatever their letter case, their surrounding
    whitespace or their type. *)
Theorem create_lookup_key_ignores_case_and_space
    style color size variable style' color' size' variable' :
  norm style = norm style' → norm color = norm color' → norm size = norm size' →
  norm variable = norm variable' →
  create_lookup_key style color size variable
  = create_lookup_key style' color' size' variable'.
Proof.
  intros Hs Hc Hz Hv.
  rewrite <- (create_lookup_key_norm style), <- (create_lookup_key_norm style').
  by rewrite Hs, Hc, Hz, Hv.
Qed.

Lemma create_lookup_key_ignores_case_and_space_witness :
  create_lookup_key (Str " a12 ") (Str "Dark Red") (Str "xl") PyNone
  = create_lookup_key (Str "A12") (Str "DARK RED ") (Str " XL") (Str "none").
Proof.
  apply create_lookup_key_ignores_case_and_space; reflexivity.
Defined.

Lemma append_char (c : ascii) (s : string) : String c EmptyString +:+ s = String c s.
Proof. reflexivity. Qed.

Lemma sep_split (sep : ascii) (s1 s2 r1 r2 : string) :
  contains s1 (String sep EmptyString) = false →
  contains s2 (String sep EmptyString) = false →
  s1 +:+ String sep r1 = s2 +:+ String sep r2 → s1 = s2 ∧ r1 = r2.
Proof.
  revert s2. induction s1 as [|c s1 IH]; intros [|c' s2] H1 H2 E.
  - by injection E.
  - rewrite append_cons in E. injection E as <- _.
    rewrite contains_cons_sep, bool_decide_eq_true_2 in H2 by done. done.
  - rewrite append_cons in E. injection E as -> _.
    rewrite contains_cons_sep, bool_decide_eq_true_2 in H1 by done. done.
  - rewrite !append_cons in E. injection E as -> E.
    rewrite contains_cons_sep in H1, H2.
    apply orb_false_iff in H1 as [_ H1]. apply orb_false_iff in H2 as [_ H2].
    destruct (IH s2 H1 H2 E) as [-> ->]. done.
Qed.

Lemma sep_free_app (sep : ascii) (s t r : string) :
  contains s (String sep EmptyString) = false → s ≠ t +:+ String sep r.
Proof.
  intros H ->. rewrite contains_app_sep, contains_cons_sep in H.
  rewrite bool_decide_eq_true_2 in H by done. by rewrite orb_true_r in H.
Qed.

(** Fields without '|' can be read back from the key. *)
Lemma create_lookup_key_eq_inv style color size variable style' color' size' variable' :
  Forall (λ x, contains (normal x) "|" = false)
         [style; color; size; style'; color'; size'] →
  create_lookup_key style color size variable
  = create_lookup_key style' color' size' variable' →
  normal style = normal style' ∧ normal color = normal color' ∧
  normal size = normal size' ∧
  variant_absent variable = variant_absent variable' ∧
  (variant_absent variable = false → normal variable = normal variable').
Proof.
  intros Hfree. rewrite !Forall_cons in Hfree.
  destruct Hfree as (Hs & Hc & Hz & Hs' & Hc' & Hz' & _).
  rewrite !create_lookup_key_cases. unfold three_part, four_part.
  rewrite !append_char. intros E.
  destruct (variant_absent variable), (variant_absent variable');
    (apply sep_split in E as [Es E]; [|done..]);
    (apply sep_split in E as [Ec E]; [|done..]).
  - done.
  - exfalso. by eapply sep_free_app in E.
  - exfalso. symmetry in E. by eapply sep_free_app in E.
  - apply sep_split in E as [Ez E]; done.
Qed.



End KeyIdentity.

(** ** One vendor pair in price-matching mode: the counts and the lists *)

Section PriceStatistics.
Import PriceMatcher RowEquations Keys Samples.

Implicit Types (w : gmap string cell).

Lemma Forall2_fmap_eq {A B} (f : A → B) (l k : list A) :
  Forall2 (λ x y, f y = f x) l k → f <$> k = f <$> l.
Proof. induction 1 as [|x y l k E _ IH]; [done|]. by rewrite !fmap_cons, E, IH. Qed.

(** [match_prices] leaves the item codes as they were, row by row. *)
Lemma match_prices_item_no oitm vpl rules o' v' :
  match_prices oitm vpl rules = Ok (o', v') →
  column "Item No." o' = column "Item No." oitm.
Proof.
  intros H. apply match_prices_Ok in H as (_ & _ & _ & _ & Hoitm).
  unfold column. apply Forall2_fmap_eq.
  eapply Forall2_impl; [exact Hoitm|]. intros v w Hok. cbv beta.
  rewrite !lookup_total_alt. f_equal. apply Hok.
  unfold OITM_ASSIGNED. rewrite !not_elem_of_cons.
  split_and!; first [discriminate | apply not_elem_of_nil].
Qed.

Lemma length_filter_isna (l : list (gmap string cell)) :
  (length (filter (λ row, notna (row !!! "Price")) l)
   + length (filter (λ row, isna (row !!! "Price")) l) = length l)%nat.
Proof.
  induction l as [|r l IH]; [done|].
  rewrite !filter_cons. unfold notna in *.
  repeat case_decide; destruct (isna (r !!! "Price")); simpl in *; first [done | lia].
Qed.

Lemma process_vendor_Some vendor_name oitm_df vpl_df configs res files :
  process_vendor vendor_name oitm_df vpl_df configs = (Some res, files) →
  ∃ o' v', match_prices oitm_df vpl_df configs = Ok (o', v').
Proof.
  unfold process_vendor.
  destruct (negb (has_column "Item No." oitm_df)); [done|].
  destruct (negb (bool_decide _)); [done|].
  destruct (match_prices oitm_df vpl_df configs) as [[o' v']|e]; [eauto|done].
Qed.

Lemma process_vendor_None vendor_name oitm_df vpl_df configs res files :
  process_vendor vendor_name oitm_df vpl_df configs = (res, files) →
  res = None → files = [].
Proof.
  unfold process_vendor.
  destruct (negb (has_column "Item No." oitm_df)); [by intros [= <- <-]|].
  destruct (negb (bool_decide _)); [by intros [= <- <-]|].
  destruct (match_prices oitm_df vpl_df configs) as [[o' v']|e];
    [by intros [= <- <-]|by intros [= <- <-]].
Qed.

(** The counts of a summary are the lengths of the lists that the pair
    produced. *)
Lemma process_vendor_lengths vendor_name oitm_df vpl_df configs res files :
  process_vendor vendor_name oitm_df vpl_df configs = (Some res, files) →
  vendor res = vendor_name ∧
  matched_skus res + removed_skus res = total_skus res ∧
  removed_skus res = Z.of_nat (length (removed_items res)) ∧
  ∃ out, files = [out] ∧
         file_name out = vendor_name +:+ "_OITM_Updated.xlsx" ∧
         output_file res = file_name out ∧
         matched_skus res = Z.of_nat (length (data_rows out)).
Proof.
  intros H. destruct (process_vendor_Some _ _ _ _ _ _ H) as (o' & v' & E).
  rewrite (process_vendor_Ok _ _ _ _ _ _ E) in H. injection H as <- <-.
  pose proof (length_filter_isna (rows o')) as Hsum.
  cbn [vendor total_skus matched_skus removed_skus removed_items output_file].
  unfold len, column, select. cbn [rows]. rewrite length_fmap.
  split_and!; try lia; [done|].
  eexists. split; [reflexivity|]. unfold create_output_file. cbn.
  split_and!; [done..|]. by rewrite length_fmap.
Qed.

(** X5. A pair that completes in price-matching mode splits the item codes
    of the internal file between the workbook and the list of removed items:
    the item codes of the workbook's rows followed by the removed items are a
    rearrangement of the input column, each of the two lists keeps the input
    order, the matched and removed counts of the summary are the lengths of
    the two lists, and every row of the workbook is an item code with a
    non-missing price. *)
Theorem process_vendor_partition vendor_name oitm_df vpl_df configs res files :
  process_vendor vendor_name oitm_df vpl_df configs = (Some res, files) →
  ∃ out, files = [out] ∧
    let kept := (λ row : list cell, row !!! 0%nat) <$> data_rows out in
    kept ++ removed_items res ≡ₚ column "Item No." oitm_df ∧
    kept `sublist_of` column "Item No." oitm_df ∧
    removed_items res `sublist_of` column "Item No." oitm_df ∧
    matched_skus res = Z.of_nat (length kept) ∧
    removed_skus res = Z.of_nat (length (removed_items res)) ∧
    Forall (λ row, ∃ x p, row = [x; p] ∧ isna p = false) (data_rows out).
Proof.
  intros H. destruct (process_vendor_Some _ _ _ _ _ _ H) as (o' & v' & E).
  destruct (process_vendor_lengths _ _ _ _ _ _ H)
    as (_ & _ & Hremoved & out0 & Hfiles & _ & _ & Hmatched).
  rewrite (process_vendor_Ok _ _ _ _ _ _ E) in H. injection H as <- <-.
  injection Hfiles as <-.
  rewrite <- (match_prices_item_no _ _ _ _ _ E).
  eexists. split; [reflexivity|].
  cbv zeta. rewrite length_fmap.
  split_and!; [| | |exact Hmatched|exact Hremoved|];
    unfold create_output_file, column, select; cbn;
    rewrite <- ?list_fmap_compose; unfold compose; cbn.
  - rewrite <- fmap_app. apply fmap_Permutation.
    etrans; [|apply (filter_app_complement (λ row, notna (row !!! "Price")))].
    f_equiv. apply reflexive_eq, filter_ext_in. intros w _. unfold notna.
    destruct (isna (w !!! "Price")); simpl; tauto.
  - apply fmap_sublist, sublist_filter.
  - apply fmap_sublist, sublist_filter.
  - apply Forall_fmap, Forall_forall. intros w [Hw _]%list_elem_of_filter.
    exists (w !!! "Item No."), (w !!! "Price"). split; [done|].
    unfold notna in Hw. by destruct (isna (w !!! "Price")).
Qed.

Lemma process_vendor_partition_witness :
  ∃ out, [mkXlsx "V105_OITM_Updated.xlsx"
            [[Str "A-RED-M-1"; Int 10]; [Str "A-RED-M-2"; Int 8]]] = [out] ∧
    let kept := (λ row : list cell, row !!! 0%nat) <$> data_rows out in
    kept ++ [Str "B-RED-M"] ≡ₚ column "Item No." demo_oitm ∧
    kept `sublist_of` column "Item No." demo_oitm ∧
    [Str "B-RED-M"] `sublist_of` column "Item No." demo_oitm ∧
    2 = Z.of_nat (length kept) ∧
    1 = Z.of_nat (length [Str "B-RED-M"]) ∧
    Forall (λ row, ∃ x p, row = [x; p] ∧ isna p = false) (data_rows out).
Proof.
  apply (process_vendor_partition "V105" demo_oitm demo_vpl STYLES_USING_G_SIZES
           (mkResult "V105" 3 2 1 "V105_OITM_Updated.xlsx" [Str "B-RED-M"])).
  vm_compute. reflexivity.
Defined.

End PriceStatistics.

(** ** Where a price comes from *)

Section PricesOfMatchPrices.
Import PriceMatcher RowEquations Keys Samples.

Implicit Types (w : gmap string cell).

(** X6. In one call of [match_prices] the price of a row is decided by its
    item number alone: two rows of the internal frame with the same item
    number leave the call with the same price, so a code listed twice is
    never matched once and removed once. *)
Theorem match_prices_same_item_same_price
    oitm_df vpl_df configs oitm_df' vpl_df' w1 w2 :
  match_prices oitm_df vpl_df configs = Ok (oitm_df', vpl_df') →
  w1 ∈ rows oitm_df' → w2 ∈ rows oitm_df' →
  w1 !!! "Item No." = w2 !!! "Item No." →
  w1 !!! "Price" = w2 !!! "Price".
Proof.
  intros H Hw1 Hw2 Hitem.
  destruct (match_prices_oitm_keys _ _ _ _ _ _ H Hw1) as (Hp1 & Hm1 & Hk31 & Hk41).
  destruct (match_prices_oitm_keys _ _ _ _ _ _ H Hw2) as (Hp2 & Hm2 & Hk32 & Hk42).
  rewrite Hitem, <- Hp2 in Hp1. injection Hp1 as Hs Hc Hz Hv.
  assert (w1 !!! "Size_Mapped" = w2 !!! "Size_Mapped") as Hm.
  { rewrite Hm1, Hm2. by apply apply_conditional_size_mapping_with_ext. }
  rewrite (row_price _ _ _ _ _ _ H Hw1), (row_price _ _ _ _ _ _ H Hw2).
  by rewrite Hk31, Hk41, Hk32, Hk42, Hs, Hc, Hm, Hv.
Qed.

Lemma match_prices_same_item_same_price_witness :
  default ∅ (rows twin_after.1 !! 0%nat) !!! "Price"
  = default (∅ : gmap string cell) (rows twin_after.1 !! 1%nat) !!! "Price".
Proof.
  apply (match_prices_same_item_same_price twin_oitm demo_vpl STYLES_USING_G_SIZES
           twin_after.1 twin_after.2).
  - apply (sample_returns [Str "A-RED-M-1"; Str "A-RED-M-1"] (rows demo_vpl)
             STYLES_USING_G_SIZES). discriminate.
  - apply elem_of_lookup_default. vm_compute. reflexivity.
  - apply elem_of_lookup_default. vm_compute. reflexivity.
  - vm_compute. reflexivity.
Defined.

Lemma column_zip_elem (df : DataFrame) (c1 c2 : string) (k p : cell) :
  (k, p) ∈ zip (column c1 df) (column c2 df) →
  ∃ r, r ∈ rows df ∧ r !!! c1 = k ∧ r !!! c2 = p.
Proof.
  unfold column. rewrite zip_fmap. intros (r & [= -> ->] & Hr)%list_elem_of_fmap.
  by exists r.
Qed.

(** A row of the vendor frame after the call comes from a row of the
    frame before it, with the same source cells. *)
Lemma vpl_row_source vpl_df' (vpl_rows : list (gmap string cell)) w :
  Forall2 vpl_row_ok vpl_rows (rows vpl_df') → w ∈ rows vpl_df' →
  ∃ v, v ∈ vpl_rows ∧
       Forall (λ c, v !!! c = w !!! c)
              ["Vendor Style"; "Color"; "Size"; "Variable"; "Price"].
Proof.
  intros Hvpl Hw. apply list_elem_of_lookup in Hw as [i Hw].
  destruct (Forall2_lookup_r _ _ _ _ _ Hvpl Hw) as (v & Hv & Hok).
  exists v. split; [by eapply list_elem_of_lookup_2|].
  repeat apply Forall_cons_2; [..|apply Forall_nil_2];
    rewrite !lookup_total_alt; f_equal; symmetry; apply Hok;
    unfold VPL_ASSIGNED; rewrite !not_elem_of_cons;
    split_and!; first [discriminate | apply not_elem_of_nil].
Qed.

(** X7. [match_prices] invents no price: a non-missing price that it leaves
    in a row of the internal frame is the price cell of a row of the vendor
    frame it was given, and that vendor row's 4-part key is the item's
    4-part key or its 3-part key is the item's 3-part key. *)
Theorem match_prices_price_from_vendor oitm_df vpl_df configs oitm_df' vpl_df' w :
  match_prices oitm_df vpl_df configs = Ok (oitm_df', vpl_df') →
  w ∈ rows oitm_df' → isna (w !!! "Price") = false →
  ∃ v, v ∈ rows vpl_df ∧ v !!! "Price" = w !!! "Price" ∧
    (w !!! "Lookup_Key_4_Mapped" =
       Str (four_part (v !!! "Vendor Style") (v !!! "Color") (v !!! "Size")
                      (variable_field (v !!! "Variable"))) ∨
     w !!! "Lookup_Key_3_Mapped" =
       Str (three_part (v !!! "Vendor Style") (v !!! "Color") (v !!! "Size"))).
Proof.
  intros H Hw Hprice.
  pose proof (row_price _ _ _ _ _ _ H Hw) as Hp.
  pose proof (match_prices_Ok _ _ _ _ _ H) as (_ & _ & _ & Hvpl & _).
  assert (∀ c k p,
            dict_zip (column c vpl_df') (column "Price" vpl_df') !! k = Some p →
            ∃ v u : gmap string cell,
              v ∈ rows vpl_df ∧ u ∈ rows vpl_df' ∧ v !!! "Price" = p ∧ u !!! c = k ∧
              Forall (λ c, v !!! c = u !!! c)
                     ["Vendor Style"; "Color"; "Size"; "Variable"; "Price"])
    as Hsrc.
  { intros c k p Hd.
    apply dict_zip_Some, column_zip_elem in Hd as (u & Hu & Hk & Hpu).
    destruct (vpl_row_source _ _ _ Hvpl Hu) as (v & Hv & Hsame).
    exists v, u. split_and!; try done.
    rewrite !Forall_cons in Hsame. destruct Hsame as (_ & _ & _ & _ & -> & _). done. }
  unfold two_tier in Hp.
  assert (∀ k, default NaN (price_lookup_3 vpl_df' !! k) = w !!! "Price" →
            ∃ p, price_lookup_3 vpl_df' !! k = Some p ∧ p = w !!! "Price") as H3.
  { intros k E. destruct (price_lookup_3 vpl_df' !! k) as [p|]; [eauto|].
    simpl in E. rewrite <- E in Hprice. done. }
  assert (∀ v u : gmap string cell,
            Forall (λ c, v !!! c = u !!! c)
                   ["Vendor Style"; "Color"; "Size"; "Variable"; "Price"] →
            u ∈ rows vpl_df' →
            u !!! "Lookup_Key_4" =
              Str (four_part (v !!! "Vendor Style") (v !!! "Color") (v !!! "Size")
                             (variable_field (v !!! "Variable"))) ∧
            u !!! "Lookup_Key_3" =
              Str (three_part (v !!! "Vendor Style") (v !!! "Color") (v !!! "Size")))
    as Hkeys.
  { intros v u Hsame Hu. rewrite !Forall_cons in Hsame.
    destruct Hsame as (-> & -> & -> & -> & _).
    destruct (match_prices_vpl_keys _ _ _ _ _ _ H Hu) as [-> ->]. done. }
  destruct (price_lookup_4 vpl_df' !! (w !!! "Lookup_Key_4_Mapped")) as [p|] eqn:E4.
  - destruct (isna p) eqn:Ena.
    + symmetry in Hp. apply H3 in Hp as (p3 & E3 & <-).
      destruct (Hsrc "Lookup_Key_3" _ _ E3) as (v & u & Hv & Hu & Hvp & Hk & Hsame).
      exists v. split_and!; [done..|]. right. rewrite <- Hk.
      by apply Hkeys.
    + subst p.
      destruct (Hsrc "Lookup_Key_4" _ _ E4) as (v & u & Hv & Hu & Hvp & Hk & Hsame).
      exists v. split_and!; [done..|]. left. rewrite <- Hk.
      by apply Hkeys.
  - symmetry in Hp. apply H3 in Hp as (p3 & E3 & <-).
    destruct (Hsrc "Lookup_Key_3" _ _ E3) as (v & u & Hv & Hu & Hvp & Hk & Hsame).
    exists v. split_and!; [done..|]. right. rewrite <- Hk.
    by apply Hkeys.
Qed.

Lemma match_prices_price_from_vendor_witness :
  ∃ v, v ∈ rows demo_vpl ∧
    v !!! "Price" = default ∅ (rows demo_after.1 !! 1%nat) !!! "Price" ∧
    (default ∅ (rows demo_after.1 !! 1%nat) !!! "Lookup_Key_4_Mapped" =
       Str (four_part (v !!! "Vendor Style") (v !!! "Color") (v !!! "Size")
                      (variable_field (v !!! "Variable"))) ∨
     default ∅ (rows demo_after.1 !! 1%nat) !!! "Lookup_Key_3_Mapped" =
       Str (three_part (v !!! "Vendor Style") (v !!! "Color") (v !!! "Size"))).
Proof.
  apply (match_prices_price_from_vendor demo_oitm demo_vpl STYLES_USING_G_SIZES
           demo_after.1 demo_after.2).
  - apply (sample_returns [Str "A-RED-M-1"; Str "A-RED-M-2"; Str "B-RED-M"]
             (rows demo_vpl) STYLES_USING_G_SIZES). discriminate.
  - apply elem_of_lookup_default. vm_compute. reflexivity.
  - vm_compute. reflexivity.
Defined.

End PricesOfMatchPrices.

(** ** A run over several pairs in price-matching mode *)

Section PriceBatch.
Import PriceMatcher RowEquations Keys Samples Batch.

Lemma foldl_pair_app {A R F} (step : A → list R * list F) (l : list A)
    (acc : list R * list F) :
  foldl (λ acc x, (acc.1 ++ (step x).1, acc.2 ++ (step x).2)) acc l
  = (acc.1 ++ (foldl (λ acc x, (acc.1 ++ (step x).1, acc.2 ++ (step x).2)) ([], []) l).1,
     acc.2 ++ (foldl (λ acc x, (acc.1 ++ (step x).1, acc.2 ++ (step x).2)) ([], []) l).2).
Proof.
  revert acc. induction l as [|x l IH]; intros acc.
  - simpl. by rewrite !app_nil_r, <- surjective_pairing.
  - cbn [foldl]. rewrite IH. rewrite (IH ([] ++ _, [] ++ _)). cbn [fst snd app].
    by rewrite !app_assoc.
Qed.

Lemma process_all_outcomes (pairs : list (string * DataFrame * DataFrame)) :
  process_all pairs
  = foldl (λ acc x,
             (acc.1 ++ (outcome (process_vendor x.1.1 x.1.2 x.2 STYLES_USING_G_SIZES)).1,
              acc.2 ++ (outcome (process_vendor x.1.1 x.1.2 x.2 STYLES_USING_G_SIZES)).2))
          ([], []) pairs.
Proof.
  unfold process_all. generalize (@nil vendor_result, @nil xlsx).
  induction pairs as [|[[name o] v] pairs IH]; intros acc; [done|].
  cbn [foldl]. rewrite <- IH. f_equal. unfold outcome. cbn [fst snd].
  destruct (process_vendor name o v STYLES_USING_G_SIZES) as [[r|] files];
    cbn [fst snd]; by rewrite ?app_nil_r.
Qed.

(** The first pair of a run adds its outcome in front of the rest. *)
Lemma process_all_cons vendor_name oitm_df vpl_df pairs :
  process_all ((vendor_name, oitm_df, vpl_df) :: pairs)
  = ((outcome (process_vendor vendor_name oitm_df vpl_df STYLES_USING_G_SIZES)).1
       ++ (process_all pairs).1,
     (outcome (process_vendor vendor_name oitm_df vpl_df STYLES_USING_G_SIZES)).2
       ++ (process_all pairs).2).
Proof.
  rewrite !process_all_outcomes. cbn [foldl].
  rewrite (foldl_pair_app
             (λ x, outcome (process_vendor x.1.1 x.1.2 x.2 STYLES_USING_G_SIZES))).
  cbn [fst snd]. by rewrite !app_nil_l.
Qed.

Lemma process_all_app pairs1 pairs2 :
  process_all (pairs1 ++ pairs2)
  = ((process_all pairs1).1 ++ (process_all pairs2).1,
     (process_all pairs1).2 ++ (process_all pairs2).2).
Proof.
  induction pairs1 as [|[[name o] v] pairs1 IH].
  { change (process_all []) with (@nil vendor_result, @nil xlsx).
    cbn [fst snd app]. by destruct (process_all pairs2). }
  change (((name, o, v) :: pairs1) ++ pairs2) with ((name, o, v) :: (pairs1 ++ pairs2)).
  rewrite !process_all_cons, IH. cbn [fst snd]. by rewrite !app_assoc.
Qed.

(** X8. A pair for which [process_vendor] returns [None] leaves no trace in
    a run: the results and the saved workbooks of the run are those of the
    run without that pair, wherever the pair stands among the others. *)
Theorem process_all_skips_failure vendor_name oitm_df vpl_df before after :
  (process_vendor vendor_name oitm_df vpl_df STYLES_USING_G_SIZES).1 = None →
  process_all (before ++ (vendor_name, oitm_df, vpl_df) :: after)
  = process_all (before ++ after).
Proof.
  intros Hnone. rewrite !process_all_app, process_all_cons.
  unfold outcome. cbn [fst snd]. rewrite Hnone.
  destruct (process_vendor vendor_name oitm_df vpl_df STYLES_USING_G_SIZES)
    as [res files] eqn:E.
  by rewrite (process_vendor_None _ _ _ _ _ _ E Hnone).
Qed.

Lemma process_all_skips_failure_witness :
  process_all ([("V105", demo_oitm, demo_vpl)] ++ ("V106", none_oitm, blank) :: [])
  = process_all ([("V105", demo_oitm, demo_vpl)] ++ []).
Proof.
  apply (process_all_skips_failure "V106" none_oitm blank
           [("V105", demo_oitm, demo_vpl)] []).
  vm_compute. reflexivity.
Defined.

(** X9. The results of a run and the workbooks it saves correspond one to
    one, in the order of the pairs: the file names of the workbooks are the
    output files named by the results, each is the vendor name followed by
    _OITM_Updated.xlsx, and the vendors of the results are vendors of the
    pairs, in their order. *)
Theorem process_all_one_workbook_per_result pairs :
  file_name <$> (process_all pairs).2 = output_file <$> (process_all pairs).1 ∧
  Forall (λ r, output_file r = vendor r +:+ "_OITM_Updated.xlsx") (process_all pairs).1 ∧
  vendor <$> (process_all pairs).1 `sublist_of` (λ pair, pair.1.1) <$> pairs.
Proof.
  induction pairs as [|[[name o] v] pairs (IH1 & IH2 & IH3)]; [done|].
  rewrite process_all_cons. unfold outcome. cbn [fst snd].
  destruct (process_vendor name o v STYLES_USING_G_SIZES) as [[res|] files] eqn:E.
  - destruct (process_vendor_lengths _ _ _ _ _ _ E)
      as (Hvendor & _ & _ & out & -> & Hname & Hout & _).
    cbn. rewrite Hvendor, Hout, Hname. split_and!.
    + by rewrite IH1.
    + constructor; [by rewrite Hout, Hname, Hvendor|done].
    + by apply sublist_skip.
  - rewrite (process_vendor_None _ _ _ _ _ _ E eq_refl). cbn.
    split_and!; [done..|]. by apply sublist_cons.
Qed.





End PriceBatch.

(** ** Discontinuation mode: the workbooks and the summary sheet *)

Section DeactivationBatch.
Import Discontinued Flagging Samples Batch.

Lemma missing_cols_nil_inv (cols required : list string) :
  filter (λ col, col ∉ cols) required = [] →
  Forall (λ c, bool_decide (c ∈ cols) = true) required.
Proof.
  induction required as [|c required IH]; [constructor|].
  rewrite filter_cons. destruct (decide (c ∉ cols)) as [Hc|Hc]; [discriminate|].
  intros Hnil. constructor; [|by apply IH].
  apply bool_decide_eq_true. by apply dec_stable.
Qed.

Lemma find_discontinued_items_Some vendor_name oitm_df dtw_df res files :
  find_discontinued_items vendor_name oitm_df dtw_df = (Some res, files) →
  valid_columns oitm_df dtw_df ∧ rows oitm_df ≠ [].
Proof.
  unfold find_discontinued_items, valid_columns.
  destruct (has_column "ItemCode" oitm_df); [|done].
  destruct (has_column "Style Name" dtw_df); [|done].
  simpl negb. cbv iota.
  case_bool_decide as Hmissing; [|done]. simpl negb. cbv iota.
  case_bool_decide as Hrows; [done|]. intros _.
  split_and!; [done..| |done]. by apply missing_cols_nil_inv.
Qed.

Lemma find_discontinued_items_None vendor_name oitm_df dtw_df files :
  find_discontinued_items vendor_name oitm_df dtw_df = (None, files) → files = [].
Proof.
  unfold find_discontinued_items.
  destruct (negb (has_column "ItemCode" oitm_df)); [by intros [= <-]|].
  destruct (negb (has_column "Style Name" dtw_df)); [by intros [= <-]|].
  destruct (negb (bool_decide _)); [by intros [= <-]|].
  destruct (bool_decide (rows oitm_df = [])); [by intros [= <-]|].
  cbv zeta. destruct (bool_decide (len _ = 0)); [discriminate|].
  destruct (bool_decide (len _ = 0)); discriminate.
Qed.

(** X11. A pair that completes in discontinuation mode counts what it
    wrote: the number of items to deactivate is the number of rows written,
    it is at most the number of internal items, the count of discontinued
    vendor rows is the number of rows that carry the marker (rows, not
    distinct keys), every written row is an item code of the internal file
    followed by Y and N, and a workbook, named after the vendor, is saved
    exactly when there is an item to deactivate. *)
Theorem find_discontinued_items_workbook vendor_name oitm_df dtw_df res files :
  find_discontinued_items vendor_name oitm_df dtw_df = (Some res, files) →
  0 ≤ matched_to_deactivate res ≤ total_oitm res ∧
  discontinued_in_dtw res
    = Z.of_nat (length (filter (λ v, marked_discontinued v) (rows dtw_df))) ∧
  matched_to_deactivate res = Z.of_nat (length (written files)) ∧
  Forall (λ row, ∃ x, row = [x; Str "Y"; Str "N"] ∧ x ∈ column "ItemCode" oitm_df)
         (written files) ∧
  match output_file res with
  | Some name =>
      0 < matched_to_deactivate res ∧ name = vendor_name +:+ "_DEACTIVATE_DTW.xlsx" ∧
      file_name <$> files = [name] ∧
      items_list res = Some ((λ row : list cell, row !!! 0%nat) <$> written files)
  | None => matched_to_deactivate res = 0 ∧ files = [] ∧ items_list res = None
  end.
Proof.
  intros H. destruct (find_discontinued_items_Some _ _ _ _ _ H) as [Hvalid Hrows].
  rewrite (find_discontinued_items_cases _ _ _ Hvalid Hrows) in H. cbv zeta in H.
  set (hits := filter _ (column "ItemCode" oitm_df)) in H.
  assert (Z.of_nat (length hits) ≤ len oitm_df) as Hle.
  { unfold len. apply inj_le. etrans; [apply length_filter|].
    unfold column. by rewrite length_fmap. }
  assert (Z.of_nat (length (discontinued_keys dtw_df))
          = Z.of_nat (length (filter (λ v, marked_discontinued v) (rows dtw_df)))) as Hd.
  { unfold discontinued_keys. by rewrite length_fmap. }
  case_bool_decide as Hdisc.
  { injection H as <- <-. cbn. split_and!; first [done | lia | unfold len; lia]. }
  case_bool_decide as Hhits.
  { injection H as <- <-. cbn. split_and!; first [done | lia | unfold len; lia]. }
  injection H as <- <-. cbn. unfold written. cbn. rewrite app_nil_r.
  rewrite length_fmap, <- list_fmap_compose.
  split_and!; try done; try lia.
  - apply Forall_fmap, Forall_forall. intros x Hx. exists x. split; [done|].
    by apply list_elem_of_filter in Hx as [_ Hx].
  - f_equal. symmetry. etrans; [|apply list_fmap_id]. by apply list_fmap_ext.
Qed.

Lemma find_discontinued_items_workbook_witness :
  0 ≤ 1 ≤ 4 ∧
  1 = Z.of_nat (length (filter (λ v, marked_discontinued v)
                               (rows (tee_dtw "Classic Tee - Discontinued")))) ∧
  1 = Z.of_nat (length (written [mkXlsx "V1_DEACTIVATE_DTW.xlsx"
                                   [[Str "B-BLUE-S"; Str "Y"; Str "N"]]])) ∧
  Forall (λ row, ∃ x, row = [x; Str "Y"; Str "N"] ∧ x ∈ column "ItemCode" tee_oitm)
         (written [mkXlsx "V1_DEACTIVATE_DTW.xlsx" [[Str "B-BLUE-S"; Str "Y"; Str "N"]]]) ∧
  (0 < 1 ∧ "V1_DEACTIVATE_DTW.xlsx" = "V1" +:+ "_DEACTIVATE_DTW.xlsx" ∧
   file_name <$> [mkXlsx "V1_DEACTIVATE_DTW.xlsx" [[Str "B-BLUE-S"; Str "Y"; Str "N"]]]
     = ["V1_DEACTIVATE_DTW.xlsx"] ∧
   Some [Str "B-BLUE-S"]
     = Some ((λ row : list cell, row !!! 0%nat)
               <$> written [mkXlsx "V1_DEACTIVATE_DTW.xlsx"
                              [[Str "B-BLUE-S"; Str "Y"; Str "N"]]])).
Proof.
  apply (find_discontinued_items_workbook "V1" tee_oitm
           (tee_dtw "Classic Tee - Discontinued")
           (mkResult "V1" 4 1 1 (Some "V1_DEACTIVATE_DTW.xlsx") (Some [Str "B-BLUE-S"]))
           [mkXlsx "V1_DEACTIVATE_DTW.xlsx" [[Str "B-BLUE-S"; Str "Y"; Str "N"]]]).
  vm_compute. reflexivity.
Defined.

Lemma process_all_disc_outcomes (pairs : list (string * DataFrame * DataFrame)) :
  process_all pairs
  = foldl (λ acc x,
             (acc.1 ++ (outcome (find_discontinued_items x.1.1 x.1.2 x.2)).1,
              acc.2 ++ (outcome (find_discontinued_items x.1.1 x.1.2 x.2)).2))
          ([], []) pairs.
Proof.
  unfold process_all. generalize (@nil vendor_result, @nil xlsx).
  induction pairs as [|[[name o] v] pairs IH]; intros acc; [done|].
  cbn [foldl]. rewrite <- IH. f_equal. unfold outcome. cbn [fst snd].
  destruct (find_discontinued_items name o v) as [[r|] files];
    cbn [fst snd]; by rewrite ?app_nil_r.
Qed.

Lemma process_all_disc_cons vendor_name oitm_df dtw_df pairs :
  process_all ((vendor_name, oitm_df, dtw_df) :: pairs)
  = ((outcome (find_discontinued_items vendor_name oitm_df dtw_df)).1
       ++ (process_all pairs).1,
     (outcome (find_discontinued_items vendor_name oitm_df dtw_df)).2
       ++ (process_all pairs).2).
Proof.
  rewrite !process_all_disc_outcomes. cbn [foldl].
  rewrite (foldl_pair_app (λ x, outcome (find_discontinued_items x.1.1 x.1.2 x.2))).
  cbn [fst snd]. by rewrite !app_nil_l.
Qed.

Lemma foldl_Zadd (l : list Z) (a : Z) : foldl Z.add a l = a + foldr Z.add 0 l.
Proof.
  revert a. induction l as [|x l IH]; intros a; simpl; [lia|]. rewrite IH. lia.
Qed.

(** The sheet as a whole: the header row, a row for each result, an empty
    row and the TOTAL row *)
Lemma create_summary_report_rows (results : list vendor_result) :
  create_summary_report results
  = [[Str "Vendor"; Str "Total OITM Items"; Str "Discontinued in DTW";
      Str "Items to Deactivate"; Str "Output File"]]
    ++ (summary_row <$> results)
    ++ [[]; [Str "TOTAL";
             Int (foldr Z.add 0 (total_oitm <$> results));
             Int (foldr Z.add 0 (discontinued_in_dtw <$> results));
             Int (foldr Z.add 0 (matched_to_deactivate <$> results));
             Str ""]].
Proof.
  unfold create_summary_report.
  set (headers := [Str "Vendor"; _; _; _; _]).
  assert (∀ acc : list (list cell) * Z,
            foldl (λ acc result,
                     (acc.1 ++ [summary_row result], acc.2 + matched_to_deactivate result))
                  acc results
            = (acc.1 ++ (summary_row <$> results),
               acc.2 + foldr Z.add 0 (matched_to_deactivate <$> results))) as Hfold.
  { induction results as [|r results IH]; intros [sheet total].
    - cbn. rewrite app_nil_r. f_equal. lia.
    - cbn [foldl]. rewrite IH, !fmap_cons. cbn [fst snd foldr].
      rewrite <- app_assoc. f_equal. lia. }
  change (foldl _ ([headers], 0) results)
    with (foldl (λ acc result,
                   (acc.1 ++ [summary_row result], acc.2 + matched_to_deactivate result))
                ([headers], 0) results).
  rewrite Hfold. cbn [fst snd]. rewrite !foldl_Zadd, !Z.add_0_l.
  by rewrite <- app_assoc.
Qed.

(** What a pair of a run contributes to the sheet and to the workbooks *)
Lemma find_discontinued_items_saved vendor_name oitm_df dtw_df res files :
  find_discontinued_items vendor_name oitm_df dtw_df = (Some res, files) →
  matched_to_deactivate res = Z.of_nat (length (written files)) ∧
  file_name <$> files = option_list (output_file res) ∧
  summary_row res !! 4%nat =
    Some (if bool_decide (matched_to_deactivate res = 0)
          then Str "No items to deactivate"
          else Str (vendor res +:+ "_DEACTIVATE_DTW.xlsx")).
Proof.
  intros H. destruct (find_discontinued_items_Some _ _ _ _ _ H) as [Hvalid Hrows].
  rewrite (find_discontinued_items_cases _ _ _ Hvalid Hrows) in H. cbv zeta in H.
  case_bool_decide as Hdisc; [by injection H as <- <-|].
  case_bool_decide as Hhits; [by injection H as <- <-|].
  injection H as <- <-. unfold written, summary_row. cbn.
  rewrite app_nil_r, length_fmap.
  rewrite (bool_decide_eq_false_2 (Z.of_nat _ = 0)) by done.
  rewrite bool_decide_eq_false_2; [done|]. by destruct vendor_name.
Qed.

(** X12. The sheet "Deactivation Summary" of a run has a header row, one
    row for each result in order, an empty row and the TOTAL row.  The
    Items to Deactivate cell of the TOTAL row is the number of rows in all
    the saved workbooks; the last cell of a result's row is the name of its
    workbook when the pair has an item to deactivate and the text "No items
    to deactivate" otherwise; and the saved workbooks are those that the
    results name, in order. *)
Theorem deactivation_summary_of_run pairs :
  let results := (process_all pairs).1 in
  let files := (process_all pairs).2 in
  let sheet := create_summary_report results in
  length sheet = (length results + 3)%nat ∧
  (∀ i r, results !! i = Some r → sheet !! S i = Some (summary_row r)) ∧
  (∃ total_oitm_all discontinued_all,
     last sheet = Some [Str "TOTAL"; Int total_oitm_all; Int discontinued_all;
                        Int (Z.of_nat (length (written files))); Str ""]) ∧
  Forall (λ r, summary_row r !! 4%nat =
               Some (if bool_decide (matched_to_deactivate r = 0)
                     then Str "No items to deactivate"
                     else Str (vendor r +:+ "_DEACTIVATE_DTW.xlsx"))) results ∧
  file_name <$> files = omap output_file results.
Proof.
  intros results files sheet.
  assert (Forall (λ r, summary_row r !! 4%nat =
               Some (if bool_decide (matched_to_deactivate r = 0)
                     then Str "No items to deactivate"
                     else Str (vendor r +:+ "_DEACTIVATE_DTW.xlsx"))) results ∧
          file_name <$> files = omap output_file results ∧
          foldr Z.add 0 (matched_to_deactivate <$> results)
            = Z.of_nat (length (written files))) as (Hcells & Hfiles & Hsum).
  { subst results files sheet.
    induction pairs as [|[[name o] v] pairs (IH1 & IH2 & IH3)]; [done|].
    rewrite process_all_disc_cons. unfold outcome. cbn [fst snd].
    destruct (find_discontinued_items name o v) as [[res|] fs] eqn:E.
    - destruct (find_discontinued_items_saved _ _ _ _ _ E) as (Hrows & Hnames & Hcell).
      cbn [fst snd app]. unfold written in *.
      rewrite bind_app, length_app, Nat2Z.inj_add, fmap_cons, fmap_app.
      cbn [foldr omap list_omap]. rewrite <- IH3, <- Hrows, Hnames, IH2.
      split_and!; [by constructor| |done].
      by destruct (output_file res).
    - rewrite (find_discontinued_items_None _ _ _ _ E). done. }
  subst sheet. rewrite create_summary_report_rows.
  split_and!; [| | |done|done].
  - rewrite !length_app, length_fmap. simpl. lia.
  - intros i r Hr. cbn [app]. rewrite lookup_cons.
    rewrite lookup_app_l by (rewrite length_fmap; by eapply lookup_lt_Some).
    by rewrite list_lookup_fmap, Hr.
  - eexists _, _. rewrite app_assoc, last_app. cbn. by rewrite Hsum.
Qed.

Lemma deactivation_summary_of_run_witness :
  create_summary_report
    (process_all [("V1", tee_oitm, tee_dtw "Classic Tee - Discontinued");
                  ("V2", tee_oitm, tee_dtw "Classic Tee")]).1 !! 2%nat
  = Some [Str "V2"; Int 4; Int 0; Int 0; Str "No items to deactivate"].
Proof.
  apply (proj1 (proj2 (deactivation_summary_of_run
           [("V1", tee_oitm, tee_dtw "Classic Tee - Discontinued");
            ("V2", tee_oitm, tee_dtw "Classic Tee")])) 1%nat
           (mkResult "V2" 4 0 0 None None)).
  vm_compute. reflexivity.
Defined.

End DeactivationBatch.

(** ** File names and the pairing of files *)

Section FileNames.
Import Files Samples.

Lemma split_app_sep (sep : ascii) (s t : string) :
  split sep (s +:+ String sep t) = split sep s ++ split sep t.
Proof.
  induction s as [|c s IH]; [simpl; by rewrite bool_decide_eq_true_2|].
  rewrite append_cons. simpl. rewrite IH.
  pose proof (split_nonempty sep s) as Hne.
  case_bool_decide; [done|]. by destruct (split sep s).
Qed.

Lemma split_sep_free (sep : ascii) (s : string) :
  contains s (String sep EmptyString) = false → split sep s = [s].
Proof.
  induction s as [|c s IH]; [done|].
  rewrite contains_cons_sep. intros [Hc Hs]%orb_false_iff.
  apply bool_decide_eq_false in Hc. simpl.
  rewrite bool_decide_eq_false_2 by congruence. by rewrite IH.
Qed.

(** The stem of a name with a proper suffix is the name without it. *)
Lemma stem_suffix (base ext : string) :
  base ≠ "" → ext ≠ "" → contains ext "." = false →
  stem (base +:+ "." +:+ ext) = base.
Proof.
  intros Hbase Hext Hfree. unfold stem.
  rewrite append_char, split_app_sep, (split_sep_free _ ext Hfree).
  pose proof (split_nonempty "." base) as Hne.
  rewrite length_app. cbn [length].
  replace (length (split "." base) + 1 - 1)%nat with (length (split "." base)) by lia.
  rewrite take_app_length, join_split.
  replace (item_neg (split "." base ++ [ext]) 1) with ext.
  2:{ unfold item_neg. rewrite length_app. cbn [length].
      replace (length (split "." base) + 1 - 1)%nat
        with (length (split "." base) + 0)%nat by lia.
      by rewrite lookup_total_app_r, Nat.add_comm, Nat.add_sub by lia. }
  rewrite bool_decide_eq_true_2 by (destruct (split "." base); [done|simpl; lia]).
  by rewrite !bool_decide_eq_false_2.
Qed.

Lemma item_0_split (sep : ascii) (code rest : string) :
  contains code (String sep EmptyString) = false →
  item (split sep (code +:+ String sep rest)) 0 = code.
Proof.
  intros Hfree. by rewrite split_app_sep, (split_sep_free _ code Hfree).
Qed.

(** X13. The vendor code that both scripts take from the name of an
    internal-item file, [oitm_file.stem.split('_')[0]], contains no '_'.
    For a name of the form CODE_REST.EXT, with no '_' in CODE and a proper
    extension, it is CODE, whatever REST holds; for a name without any '_'
    it is the whole stem. *)
Theorem vendor_code_of_file_name (oitm_file : string) :
  contains (vendor_code oitm_file) "_" = false ∧
  (∀ code rest ext,
     oitm_file = code +:+ "_" +:+ rest +:+ "." +:+ ext →
     contains code "_" = false → ext ≠ "" → contains ext "." = false →
     vendor_code oitm_file = code) ∧
  (contains oitm_file "_" = false →
   vendor_code oitm_file = stem oitm_file).
Proof.
  unfold vendor_code. split_and!.
  - apply (split_segments "_" (stem oitm_file)).
    pose proof (split_nonempty "_" (stem oitm_file)).
    destruct (split "_" (stem oitm_file)); [done|]. by left.
  - intros code rest ext -> Hcode Hext Hfree.
    replace (code +:+ "_" +:+ rest +:+ "." +:+ ext)
      with ((code +:+ "_" +:+ rest) +:+ "." +:+ ext) by (by rewrite !append_assoc).
    rewrite stem_suffix; [|by destruct code|done..].
    rewrite append_char. by rewrite item_0_split.
  - intros Hfree.
    assert (contains (stem oitm_file) "_" = false) as Hstem.
    { unfold stem. destruct (_ && _ && _); [|done].
      set (parts := split "." oitm_file).
      rewrite <- (join_split "." oitm_file) in Hfree. fold parts in Hfree.
      rewrite <- (take_drop (length parts - 1) parts) in Hfree at 1.
      destruct (take (length parts - 1) parts) as [|p ps] eqn:E1; [done|].
      destruct (drop (length parts - 1) parts) as [|q qs] eqn:E2.
      - by rewrite app_nil_r in Hfree.
      - rewrite join_app in Hfree by done. rewrite contains_app_sep in Hfree.
        by apply orb_false_iff in Hfree as [? _]. }
    by rewrite (split_sep_free _ _ Hstem).
Qed.

Lemma vendor_code_of_file_name_witness :
  vendor_code "V105_OITM_2024.xlsx" = "V105".
Proof.
  apply (proj1 (proj2 (vendor_code_of_file_name "V105_OITM_2024.xlsx"))
           "V105" "OITM_2024" "xlsx"); [reflexivity|reflexivity|discriminate|reflexivity].
Defined.

End FileNames.

Section FilePairs.
Import Files Samples.

(** The loop of [find_file_pairs] over the internal-item files *)
Lemma find_file_pairs_price oitm_glob vpl_glob dtw_glob :
  PriceMatcher.find_file_pairs oitm_glob vpl_glob dtw_glob
  = oitm_glob ≫= λ o,
      match list_find (names_vendor o) (vpl_glob ++ dtw_glob) with
      | Some (_, m) => [(o, m)]
      | None => []
      end.
Proof. reflexivity. Qed.

Lemma find_file_pairs_disc oitm_glob vpl_glob dtw_glob :
  Discontinued.find_file_pairs oitm_glob vpl_glob dtw_glob
  = oitm_glob ≫= λ o,
      match list_find (names_vendor o) (dtw_glob ++ vpl_glob) with
      | Some (_, m) => [(o, m)]
      | None => []
      end.
Proof. reflexivity. Qed.

Lemma elem_of_pairs (files oitm : list string) (o v : string) :
  (o, v) ∈ (oitm ≫= λ o,
              match list_find (names_vendor o) files with
              | Some (_, m) => [(o, m)]
              | None => []
              end)
  ↔ o ∈ oitm ∧ ∃ i, list_find (names_vendor o) files = Some (i, v).
Proof.
  rewrite list_elem_of_bind. split.
  - intros (o' & Hin & Ho').
    destruct (list_find (names_vendor o') files) as [[i m]|] eqn:E;
      [|by apply elem_of_nil in Hin].
    apply list_elem_of_singleton in Hin. injection Hin as -> ->. eauto.
  - intros (Ho & i & E). exists o. rewrite E. split; [by left|done].
Qed.

Lemma pairs_fst (files oitm : list string) :
  (oitm ≫= λ o,
     match list_find (names_vendor o) files with
     | Some (_, m) => [(o, m)]
     | None => []
     end).*1
  = filter (λ o, Exists (names_vendor o) files) oitm.
Proof.
  induction oitm as [|o oitm IH]; [done|].
  rewrite bind_cons, fmap_app, IH, filter_cons.
  destruct (list_find (names_vendor o) files) as [[i m]|] eqn:E.
  - apply list_find_Some in E as (Hi & Hm & _).
    rewrite decide_True; [done|].
    apply Exists_exists. exists m. split; [by eapply list_elem_of_lookup_2|done].
  - apply list_find_None in E.
    rewrite decide_False; [done|]. by apply Forall_Exists_neg in E.
Qed.

Lemma list_find_first (P : string → Prop) `{!∀ x, Decision (P x)}
    (files : list string) (i : nat) (v : string) :
  list_find P files = Some (i, v) →
  P v ∧ ∃ before after, files = before ++ v :: after ∧ length before = i ∧
                        Forall (λ w, ¬ P w) before.
Proof.
  intros (Hi & Hv & Hfirst)%list_find_Some. split; [done|].
  exists (take i files), (drop (S i) files). split_and!.
  - by rewrite take_drop_middle.
  - apply length_take_le. apply lookup_lt_Some in Hi. lia.
  - apply Forall_forall. intros w Hw.
    apply list_elem_of_lookup in Hw as [j Hj].
    pose proof (lookup_lt_Some _ _ _ Hj) as Hlt. rewrite length_take in Hlt.
    rewrite lookup_take_lt in Hj by lia. eapply Hfirst; [done|lia].
Qed.

(** X14. [find_file_pairs] pairs an internal-item file with the first file,
    among the price lists followed by the discontinuation lists, whose
    lowercased name contains the file's lowercased vendor code, anywhere in
    the name.  Each internal-item file is paired at most once, the pairs
    keep the order of the internal-item files, and a file that no list names
    is left out. *)
Theorem find_file_pairs_first_list oitm_glob vpl_glob dtw_glob :
  let pairs := PriceMatcher.find_file_pairs oitm_glob vpl_glob dtw_glob in
  pairs.*1 = filter (λ o, Exists (names_vendor o) (vpl_glob ++ dtw_glob)) oitm_glob ∧
  (∀ o v, (o, v) ∈ pairs →
     o ∈ oitm_glob ∧ names_vendor o v ∧
     ∃ before after, vpl_glob ++ dtw_glob = before ++ v :: after ∧
                     Forall (λ w, ¬ names_vendor o w) before) ∧
  (∀ o v v', (o, v) ∈ pairs → (o, v') ∈ pairs → v = v').
Proof.
  intros pairs. subst pairs. rewrite find_file_pairs_price. split_and!.
  - apply pairs_fst.
  - intros o v (Ho & i & E)%elem_of_pairs. split; [done|].
    apply list_find_first in E as (Hv & before & after & Hfiles & _ & Hbefore).
    split; [done|]. by exists before, after.
  - intros o v v' (_ & i & E)%elem_of_pairs (_ & i' & E')%elem_of_pairs.
    rewrite E in E'. by injection E' as _ ->.
Qed.

Lemma find_file_pairs_first_list_witness :
  "V106_OITM.xlsx" ∈ oitm_names ∧ names_vendor "V106_OITM.xlsx" "V106_DTW.xlsx" ∧
  ∃ before after, vpl_names ++ dtw_names = before ++ "V106_DTW.xlsx" :: after ∧
                  Forall (λ w, ¬ names_vendor "V106_OITM.xlsx" w) before.
Proof.
  apply (proj1 (proj2 (find_file_pairs_first_list oitm_names vpl_names dtw_names))).
  vm_compute. right. left.
Defined.

Lemma list_find_app_l (P : string → Prop) `{!∀ x, Decision (P x)}
    (l1 l2 : list string) (i : nat) (v : string) :
  Exists P l1 → list_find P (l1 ++ l2) = Some (i, v) → list_find P l1 = Some (i, v).
Proof.
  intros Hex (Hi & Hv & Hfirst)%list_find_Some.
  apply list_find_Some.
  destruct (decide (i < length l1)%nat) as [Hlt|Hge].
  - rewrite lookup_app_l in Hi by done. split_and!; [done..|].
    intros j y Hj. apply Hfirst. rewrite lookup_app_l; [done|].
    by eapply lookup_lt_Some.
  - exfalso. apply Exists_exists in Hex as (w & Hw & HP).
    apply list_elem_of_lookup in Hw as [j Hj].
    apply (Hfirst j w); [|pose proof (lookup_lt_Some _ _ _ Hj); lia|done].
    rewrite lookup_app_l; [done|]. by eapply lookup_lt_Some.
Qed.

Lemma list_find_app_r (P : string → Prop) `{!∀ x, Decision (P x)}
    (l1 l2 : list string) (i : nat) (v : string) :
  Forall (λ w, ¬ P w) l1 →
  list_find P (l1 ++ l2) = Some (i, v) → ∃ j, list_find P l2 = Some (j, v).
Proof.
  intros Hnone (Hi & Hv & Hfirst)%list_find_Some.
  destruct (decide (i < length l1)%nat) as [Hlt|Hge].
  - exfalso. rewrite lookup_app_l in Hi by done.
    rewrite Forall_forall in Hnone. eapply Hnone; [|done].
    by eapply list_elem_of_lookup_2.
  - rewrite lookup_app_r in Hi by lia.
    exists (i - length l1)%nat. apply list_find_Some. split_and!; [done..|].
    intros j y Hj Hlt. apply (Hfirst (length l1 + j)%nat); [|lia].
    rewrite lookup_app_r by lia. by replace (length l1 + j - length l1)%nat with j by lia.
Qed.

(** When no file of [l1] names the vendor, the order of the two lists does
    not matter. *)
Lemma list_find_app_swap (l1 l2 : list string) (o v : string) :
  Forall (λ w, ¬ names_vendor o w) l1 →
  (∃ i, list_find (names_vendor o) (l1 ++ l2) = Some (i, v)) ↔
  (∃ i, list_find (names_vendor o) (l2 ++ l1) = Some (i, v)).
Proof.
  intros Hnone. split.
  - intros [i E]. apply list_find_app_r in E as [j E]; [|done].
    exists j. apply list_find_Some in E as (Hj & Hv & Hfirst).
    apply list_find_Some. split_and!; [|done|].
    + rewrite lookup_app_l; [done|]. by eapply lookup_lt_Some.
    + intros k y Hk Hlt. eapply Hfirst; [|done].
      rewrite lookup_app_l in Hk; [done|].
      pose proof (lookup_lt_Some _ _ _ Hj). lia.
  - intros [i E].
    assert (Exists (names_vendor o) l2) as Hex.
    { apply list_find_Some in E as (Hi & Hv & _).
      apply list_elem_of_lookup_2, elem_of_app in Hi as [Hi|Hi].
      - apply Exists_exists. eauto.
      - rewrite Forall_forall in Hnone. by apply Hnone in Hi. }
    apply list_find_app_l in E; [|done].
    apply list_find_Some in E as (Hi & Hv & Hfirst).
    exists (length l1 + i)%nat. apply list_find_Some. split_and!; [|done|].
    + rewrite lookup_app_r by lia.
      by replace (length l1 + i - length l1)%nat with i by lia.
    + intros k y Hk Hlt HP.
      destruct (decide (k < length l1)%nat) as [Hk1|Hk1].
      * rewrite lookup_app_l in Hk by done.
        rewrite Forall_forall in Hnone. eapply Hnone; [|done].
        by eapply list_elem_of_lookup_2.
      * rewrite lookup_app_r in Hk by lia.
        eapply (Hfirst (k - length l1)%nat); [done|lia|done].
Qed.

(** X15. The two scripts pair the same internal-item files, but not always
    with the same list: when a price list (a file of the glob VPL) names the
    vendor, price-matching mode takes a price list; when a discontinuation
    list (a file of the glob DTW) names it, discontinuation mode takes a
    discontinuation list; and when the lists of one of the two kinds do not
    name the vendor, both modes take the same file. *)
Theorem find_file_pairs_modes oitm_glob vpl_glob dtw_glob :
  let price := PriceMatcher.find_file_pairs oitm_glob vpl_glob dtw_glob in
  let disc := Discontinued.find_file_pairs oitm_glob vpl_glob dtw_glob in
  disc.*1 = price.*1 ∧
  (∀ o v, (o, v) ∈ price → Exists (names_vendor o) vpl_glob → v ∈ vpl_glob) ∧
  (∀ o v, (o, v) ∈ disc → Exists (names_vendor o) dtw_glob → v ∈ dtw_glob) ∧
  (∀ o v, Forall (λ w, ¬ names_vendor o w) vpl_glob ∨
          Forall (λ w, ¬ names_vendor o w) dtw_glob →
          (o, v) ∈ price ↔ (o, v) ∈ disc).
Proof.
  intros price disc. subst price disc.
  rewrite find_file_pairs_price, find_file_pairs_disc. split_and!.
  - rewrite !pairs_fst. apply filter_ext_in. intros o _.
    rewrite !Exists_app. tauto.
  - intros o v (_ & i & E)%elem_of_pairs Hex.
    apply list_find_app_l in E; [|done].
    apply list_find_Some in E as (Hi & _). by eapply list_elem_of_lookup_2.
  - intros o v (_ & i & E)%elem_of_pairs Hex.
    apply list_find_app_l in E; [|done].
    apply list_find_Some in E as (Hi & _). by eapply list_elem_of_lookup_2.
  - intros o v Hnone. rewrite !elem_of_pairs.
    destruct Hnone as [Hnone|Hnone].
    + by rewrite (list_find_app_swap vpl_glob dtw_glob).
    + by rewrite (list_find_app_swap dtw_glob vpl_glob).
Qed.

Lemma find_file_pairs_modes_witness :
  "v105_vpl.xlsx" ∈ vpl_names ∧ "V105_DTW.xlsx" ∈ dtw_names.
Proof.
  split.
  - apply (proj1 (proj2 (find_file_pairs_modes oitm_names vpl_names dtw_names))
             "V105_OITM.xlsx").
    + vm_compute. left.
    + apply Exists_cons_hd. vm_compute. reflexivity.
  - apply (proj1 (proj2 (proj2 (find_file_pairs_modes oitm_names vpl_names dtw_names)))
             "V105_OITM.xlsx").
    + vm_compute. left.
    + apply Exists_cons_hd. vm_compute. reflexivity.
Defined.

Lemma contains_empty (s : string) : contains s "" = true.
Proof. by destruct s. Qed.

(** X16. An internal-item file whose vendor code is empty, as for a name
    that starts with '_', is paired with the first list of the directory,
    whatever that list is: the empty code is contained in every name. *)
Theorem find_file_pairs_empty_code oitm_glob vpl_glob dtw_glob o v rest :
  o ∈ oitm_glob → vendor_code o = "" → vpl_glob ++ dtw_glob = v :: rest →
  (o, v) ∈ PriceMatcher.find_file_pairs oitm_glob vpl_glob dtw_glob.
Proof.
  intros Ho Hcode Hfiles. rewrite find_file_pairs_price, Hfiles.
  apply elem_of_pairs. split; [done|]. exists 0%nat.
  apply list_find_Some. split_and!; [done| |intros; lia].
  unfold names_vendor. rewrite Hcode. apply contains_empty.
Qed.

Lemma find_file_pairs_empty_code_witness :
  ("_OITM.xlsx", "v105_vpl.xlsx")
    ∈ PriceMatcher.find_file_pairs ["_OITM.xlsx"] vpl_names dtw_names.
Proof.
  apply (find_file_pairs_empty_code ["_OITM.xlsx"] vpl_names dtw_names
           "_OITM.xlsx" "v105_vpl.xlsx"
           ["V107_VPL.xlsx"; "V105_DTW.xlsx"; "V106_DTW.xlsx"]);
    [by left|reflexivity|reflexivity].
Defined.

End FilePairs.

(** ** The headers of a discontinuation list *)

Section Headers.
Import Discontinued Files Samples.

(** [col_mapping]: under a key, the last column that carries it *)
Lemma col_mapping_lookup (columns : list string) (d : gmap string string) (k : string) :
  foldl (λ (d : gmap string string) col, <[strip (lower col) := col]> d) d columns !! k =
    match list_find (λ col, label_key col = k) (reverse columns) with
    | Some (_, col) => Some col
    | None => d !! k
    end.
Proof.
  revert d. induction columns as [|c columns IH] using rev_ind; intros d; [done|].
  rewrite foldl_app, reverse_app. simpl.
  case_decide as Hk; simpl in Hk.
  - unfold label_key in Hk. subst k. simpl. by rewrite lookup_insert_eq.
  - unfold label_key in Hk. rewrite lookup_insert_ne by done. rewrite IH.
    by destruct (list_find _ (reverse columns)) as [[]|].
Qed.

Lemma col_mapping_Some (columns : list string) (k col : string) :
  col_mapping columns !! k = Some col →
  ∃ before after, columns = before ++ col :: after ∧ label_key col = k ∧
                  k ∉ label_key <$> after.
Proof.
  unfold col_mapping. rewrite col_mapping_lookup.
  destruct (list_find _ (reverse columns)) as [[i c]|] eqn:E; [|done].
  intros [= ->].
  apply list_find_first in E as (Hk & pre & post & Hrev & _ & Hpre).
  exists (reverse post), (reverse pre). split_and!; [|done|].
  - rewrite <- (reverse_involutive columns), Hrev, reverse_app, reverse_cons.
    by rewrite <- app_assoc.
  - intros (c & Hc & Hin%elem_of_reverse_2)%list_elem_of_fmap.
    rewrite reverse_involutive in Hin.
    rewrite Forall_forall in Hpre. by apply (Hpre c).
Qed.

Lemma col_mapping_last (before after : list string) (col : string) :
  label_key col ∉ label_key <$> after →
  col_mapping (before ++ col :: after) !! label_key col = Some col.
Proof.
  intros Hafter. unfold col_mapping. rewrite foldl_app. simpl.
  rewrite col_mapping_lookup.
  destruct (list_find _ (reverse after)) as [[i c]|] eqn:E.
  - apply list_find_Some in E as (Hi & Hk & _). exfalso. apply Hafter.
    apply list_elem_of_fmap. exists c. split; [done|].
    apply elem_of_reverse. by eapply list_elem_of_lookup_2.
  - apply lookup_insert_eq.
Qed.

Lemma col_mapping_is_Some (columns : list string) (col : string) :
  col ∈ columns → is_Some (col_mapping columns !! label_key col).
Proof.
  intros Hin. unfold col_mapping. rewrite col_mapping_lookup.
  destruct (list_find _ (reverse columns)) as [[i c]|] eqn:E; [done|].
  apply list_find_None in E. rewrite Forall_forall in E.
  exfalso. apply (E col); [by apply elem_of_reverse|done].
Qed.

(** [rename_dict]: the columns that are renamed, and to what *)
Lemma rename_dict_lookup (cm : gmap string string)
    (mappings : list (string * string)) (col standard : string) :
  NoDup mappings.*1 →
  (∀ k c, cm !! k = Some c → label_key c = k) →
  rename_dict cm mappings !! col = Some standard
  ↔ ∃ search, (search, standard) ∈ mappings ∧ cm !! search = Some col ∧ col ≠ standard.
Proof.
  intros Hnodup Hkeys. unfold rename_dict. revert col standard.
  induction mappings as [|[s0 S0] mappings IH] using rev_ind; intros col standard.
  { simpl. rewrite lookup_empty. split; [done|]. by intros (? & ?%elem_of_nil & _). }
  rewrite fmap_app in Hnodup. apply NoDup_app in Hnodup as (Hnodup & Hfresh & _).
  specialize (IH Hnodup).
  assert (∀ S, (s0, S) ∉ mappings) as Hs0.
  { intros S Hin. apply (Hfresh s0); [|simpl; by left].
    apply list_elem_of_fmap. by exists (s0, S). }
  rewrite foldl_app. cbn [foldl].
  set (d := foldl _ ∅ mappings) in *.
  assert ((∃ search, (search, standard) ∈ mappings ++ [(s0, S0)] ∧
                     cm !! search = Some col ∧ col ≠ standard)
          ↔ (∃ search, (search, standard) ∈ mappings ∧
                     cm !! search = Some col ∧ col ≠ standard)
            ∨ (standard = S0 ∧ cm !! s0 = Some col ∧ col ≠ S0)) as ->.
  { split.
    - intros (s & [Hin|Hin]%elem_of_app & Hc & Hne); [left; eauto|].
      apply list_elem_of_singleton in Hin. injection Hin as -> ->. by right.
    - intros [(s & Hin & Hc & Hne)|(-> & Hc & Hne)].
      + exists s. split; [apply elem_of_app; by left|done].
      + exists s0. split; [apply elem_of_app; right; by left|done]. }
  rewrite <- IH.
  destruct (cm !! s0) as [a|] eqn:Ea.
  2:{ split; [by left|]. by intros [?|(_ & ? & _)]. }
  case_bool_decide as Ha; cbn [negb].
  { split; [by left|]. intros [?|(_ & [= ->] & ?)]; done. }
  destruct (decide (a = col)) as [->|Hne].
  - rewrite lookup_insert_eq. split.
    + intros [= ->]. by right.
    + intros [Hd|(-> & _)]; [|done].
      apply IH in Hd as (s & Hin & Hc & _).
      pose proof (Hkeys _ _ Hc) as <-. pose proof (Hkeys _ _ Ea) as E.
      rewrite E in Hin. by apply Hs0 in Hin.
  - rewrite lookup_insert_ne by done. split; [by left|].
    intros [?|(_ & [= ?] & _)]; done.
Qed.

Lemma COLUMN_MAPPINGS_NoDup : NoDup COLUMN_MAPPINGS.*1.
Proof.
  unfold COLUMN_MAPPINGS. rewrite !fmap_cons, fmap_nil. cbn [fst].
  repeat (apply NoDup_cons_2;
          [rewrite ?not_elem_of_cons; split_and?;
           first [discriminate | apply not_elem_of_nil]|]).
  apply NoDup_nil_2.
Qed.

Lemma COLUMN_MAPPINGS_fun (search standard standard' : string) :
  (search, standard) ∈ COLUMN_MAPPINGS → (search, standard') ∈ COLUMN_MAPPINGS →
  standard = standard'.
Proof.
  intros H1 H2. pose proof COLUMN_MAPPINGS_NoDup as Hnd.
  apply list_elem_of_lookup in H1 as [i Hi], H2 as [j Hj].
  assert (i = j) as ->.
  { eapply NoDup_lookup; [exact Hnd|..]; rewrite list_lookup_fmap.
    - by rewrite Hi.
    - by rewrite Hj. }
  rewrite Hi in Hj. by injection Hj.
Qed.

(** A standard label is found under its own search name, but for
    "Style Name", which is also the standard label of "stylename". *)
Lemma standard_key (search standard : string) :
  (search, standard) ∈ COLUMN_MAPPINGS →
  label_key standard = search ∨ (search = "stylename" ∧ standard = "Style Name").
Proof.
  unfold COLUMN_MAPPINGS. rewrite !elem_of_cons, elem_of_nil.
  intros [[= -> ->]|[[= -> ->]|[[= -> ->]|[[= -> ->]|[[= -> ->]|[[= -> ->]|[]]]]]]];
    first [by left | by right].
Qed.

(** The label that [normalize_dtw_columns] gives to a column *)
Lemma normalize_dtw_columns_label (columns : list string) :
  ∃ rd : gmap string string,
    normalize_dtw_columns columns = (λ col, default col (rd !! col)) <$> columns ∧
    ∀ col standard,
      rd !! col = Some standard ↔
      ∃ search, (search, standard) ∈ COLUMN_MAPPINGS ∧ col ≠ standard ∧
                col_mapping columns !! search = Some col.
Proof.
  eexists. split; [reflexivity|]. intros col standard.
  rewrite rename_dict_lookup.
  - split; intros (s & ? & ? & ?); exists s; done.
  - apply COLUMN_MAPPINGS_NoDup.
  - intros k c Hc. by apply col_mapping_Some in Hc as (_ & _ & _ & ? & _).
Qed.

(** X17. [normalize_dtw_columns] keeps the number and the order of the
    columns.  A column whose label, lowercased and trimmed, is none of the
    searched headers keeps its label.  For each searched header, the last
    column that carries it gets the standard label, so the standard label
    is among the columns afterwards whenever some column carries the header
    in any letter case and with any surrounding whitespace. *)
Theorem normalize_dtw_columns_labels (columns : list string) :
  length (normalize_dtw_columns columns) = length columns ∧
  (∀ i col, columns !! i = Some col → label_key col ∉ COLUMN_MAPPINGS.*1 →
     normalize_dtw_columns columns !! i = Some col) ∧
  (∀ before col after search standard,
     columns = before ++ col :: after →
     (search, standard) ∈ COLUMN_MAPPINGS → label_key col = search →
     search ∉ label_key <$> after →
     normalize_dtw_columns columns !! length before = Some standard) ∧
  (∀ search standard,
     (search, standard) ∈ COLUMN_MAPPINGS → search ∈ label_key <$> columns →
     standard ∈ normalize_dtw_columns columns).
Proof.
  destruct (normalize_dtw_columns_label columns) as (rd & -> & Hrd).
  assert (∀ before col after search standard,
     columns = before ++ col :: after →
     (search, standard) ∈ COLUMN_MAPPINGS → label_key col = search →
     search ∉ label_key <$> after →
     ((λ col, default col (rd !! col)) <$> columns) !! length before = Some standard)
    as Hlast.
  { intros before col after search standard Hcols Hin Hkey Hafter.
    subst search.
    pose proof (col_mapping_last before after col Hafter) as Hcm.
    rewrite <- Hcols in Hcm.
    rewrite list_lookup_fmap, Hcols, list_lookup_middle by done. simpl. f_equal.
    destruct (decide (col = standard)) as [->|Hne].
    - destruct (rd !! standard) as [S'|] eqn:E; [|done]. exfalso.
      apply Hrd in E as (s' & Hin' & Hne & Hcm').
      apply col_mapping_Some in Hcm' as (_ & _ & _ & Hk & _). rewrite Hk in Hin.
      by rewrite (COLUMN_MAPPINGS_fun _ _ _ Hin Hin') in Hne.
    - assert (rd !! col = Some standard) as ->; [|done].
      apply Hrd. by exists (label_key col). }
  split_and!.
  - by rewrite length_fmap.
  - intros i col Hi Hkey. rewrite list_lookup_fmap, Hi. simpl. f_equal.
    destruct (rd !! col) as [S|] eqn:E; [|done]. exfalso.
    apply Hrd in E as (s & Hin & _ & Hcm).
    apply col_mapping_Some in Hcm as (_ & _ & _ & Hk & _). apply Hkey.
    apply list_elem_of_fmap. exists (s, S). by rewrite Hk.
  - exact Hlast.
  - intros search standard Hin Hsearch.
    assert (∃ before col after, columns = before ++ col :: after ∧
              label_key col = search ∧ search ∉ label_key <$> after)
      as (before & col & after & Hcols & Hkey & Hafter).
    { clear -Hsearch.
      induction columns as [|c columns IH]; [by apply elem_of_nil in Hsearch|].
      destruct (decide (search ∈ label_key <$> columns)) as [Hin|Hnin].
      - destruct (IH Hin) as (before & col & after & -> & Hkey & Hafter).
        by exists (c :: before), col, after.
      - rewrite fmap_cons in Hsearch. apply elem_of_cons in Hsearch as [->|?]; [|done].
        by exists [], c, columns. }
    eapply list_elem_of_lookup_2. by eapply Hlast.
Qed.

Lemma normalize_dtw_columns_labels_witness :
  "Vendor Style" ∈ normalize_dtw_columns raw_headers ∧
  "Style Name" ∈ normalize_dtw_columns raw_headers ∧
  normalize_dtw_columns raw_headers !! 4%nat = Some "Price".
Proof.
  split_and!.
  - apply (proj2 (proj2 (proj2 (normalize_dtw_columns_labels raw_headers)))
             "vendor style").
    + by left.
    + vm_compute. left.
  - apply (proj2 (proj2 (proj2 (normalize_dtw_columns_labels raw_headers)))
             "stylename").
    + unfold COLUMN_MAPPINGS. rewrite !elem_of_cons. auto 10.
    + vm_compute. do 3 right. left.
  - apply (proj1 (proj2 (normalize_dtw_columns_labels raw_headers))); [reflexivity|].
    change (label_key "Price") with "price".
    unfold COLUMN_MAPPINGS. rewrite !fmap_cons, fmap_nil. cbn [fst].
    rewrite !not_elem_of_cons.
    split_and!; first [discriminate | apply not_elem_of_nil].
Defined.

(** A frame whose searched headers are standard already is left as it is. *)
Lemma normalize_dtw_columns_standard (columns : list string) :
  (∀ search standard col,
     (search, standard) ∈ COLUMN_MAPPINGS → col_mapping columns !! search = Some col →
     col = standard) →
  normalize_dtw_columns columns = columns.
Proof.
  intros Hstd. destruct (normalize_dtw_columns_label columns) as (rd & -> & Hrd).
  etrans; [|apply list_fmap_id]. apply list_fmap_ext. intros _ col _. simpl.
  destruct (rd !! col) as [S|] eqn:E; [|done].
  apply Hrd in E as (s & Hin & Hne & Hcm). by rewrite (Hstd _ _ _ Hin Hcm) in Hne.
Qed.

(** X18. Normalising the headers twice is the same as normalising them
    once, provided that the columns whose label reads "stylename" once
    lowercased and trimmed all have the same label.  (Of two such columns
    with different labels only the last is renamed by the first pass, to
    "Style Name", a label that a second pass no longer finds under
    "stylename"; the second pass then renames the other.) *)
Theorem normalize_dtw_columns_idemp (columns : list string) :
  (∀ col col', col ∈ columns → col' ∈ columns →
     label_key col = "stylename" → label_key col' = "stylename" → col = col') →
  normalize_dtw_columns (normalize_dtw_columns columns) = normalize_dtw_columns columns.
Proof.
  intros Hone. apply normalize_dtw_columns_standard.
  intros s S c' Hin Hcm'.
  destruct (normalize_dtw_columns_label columns) as (rd & Hnorm & Hrd).
  rewrite Hnorm in Hcm'.
  apply col_mapping_Some in Hcm' as (before' & after' & Hcols' & Hkey' & Hafter').
  apply fmap_app_inv in Hcols' as (before & rest & -> & Hrest & Hcols).
  symmetry in Hrest. apply fmap_cons_inv in Hrest as (c & after & -> & -> & ->).
  destruct (rd !! c) as [S0|] eqn:E; simpl in *.
  - apply Hrd in E as (s0 & Hin0 & _ & _).
    destruct (standard_key _ _ Hin0) as [Hk|[-> ->]].
    + rewrite Hk in Hkey'. subst s0. by eapply COLUMN_MAPPINGS_fun.
    + change (label_key "Style Name") with "style name" in Hkey'. subst s.
      eapply COLUMN_MAPPINGS_fun; [|exact Hin].
      unfold COLUMN_MAPPINGS. rewrite !elem_of_cons. auto 10.
  - assert (c ∈ columns) as Hc by (rewrite Hcols, elem_of_app, elem_of_cons; auto).
    destruct (col_mapping_is_Some columns c Hc) as [L HL]. rewrite Hkey' in HL.
    destruct (decide (c = L)) as [<-|Hne].
    { destruct (decide (c = S)) as [|HneS]; [done|].
      assert (rd !! c = Some S) as E' by (apply Hrd; by exists s).
      by rewrite E in E'. }
    exfalso.
    pose proof HL as HL'.
    apply col_mapping_Some in HL as (b2 & a2 & Hcols2 & HkL & Ha2).
    assert (default L (rd !! L) = S) as HfL.
    { destruct (decide (L = S)) as [->|HneS].
      - destruct (rd !! S) as [S'|] eqn:E'; [|done]. exfalso.
        apply Hrd in E' as (s' & Hin' & Hne' & Hcm').
        apply col_mapping_Some in Hcm' as (_ & _ & _ & Hk & _).
        rewrite HkL in Hk. subst s'.
        by rewrite (COLUMN_MAPPINGS_fun _ _ _ Hin Hin') in Hne'.
      - assert (rd !! L = Some S) as ->; [|done]. apply Hrd. by exists s. }
    assert (columns !! length before = Some c) as Hpc
      by (rewrite Hcols; by apply list_lookup_middle).
    assert (columns !! length b2 = Some L) as HpL
      by (rewrite Hcols2; by apply list_lookup_middle).
    destruct (Nat.lt_trichotomy (length before) (length b2)) as [Hlt|[Heq|Hgt]].
    + (* the kept column comes later and now reads as the standard label *)
      assert (L ∈ after) as HLafter.
      { rewrite Hcols in HpL. rewrite lookup_app_r in HpL by lia.
        destruct (length b2 - length before)%nat as [|n] eqn:En; [lia|].
        simpl in HpL. by eapply list_elem_of_lookup_2. }
      assert (label_key S ≠ s) as HkS.
      { intros Hk. apply Hafter'. rewrite <- Hk, <- HfL.
        apply list_elem_of_fmap. eexists. split; [done|].
        apply list_elem_of_fmap. by exists L. }
      destruct (standard_key _ _ Hin) as [?|[-> ->]]; [done|].
      apply Hne. apply Hone; try done.
      rewrite Hcols2, elem_of_app, elem_of_cons. auto.
    + rewrite Heq, HpL in Hpc. by injection Hpc as ->.
    + apply Ha2. rewrite <- Hkey'.
      apply list_elem_of_fmap. exists c. split; [done|].
      rewrite Hcols2 in Hpc. rewrite lookup_app_r in Hpc by lia.
      destruct (length before - length b2)%nat as [|n] eqn:En; [lia|].
      simpl in Hpc. by eapply list_elem_of_lookup_2.
Qed.

Lemma normalize_dtw_columns_idemp_witness :
  normalize_dtw_columns (normalize_dtw_columns raw_headers)
  = normalize_dtw_columns raw_headers.
Proof.
  apply (normalize_dtw_columns_idemp raw_headers).
  intros col col' Hcol Hcol' Hkey Hkey'. unfold raw_headers in Hcol, Hcol'.
  rewrite !elem_of_cons, elem_of_nil in Hcol, Hcol'.
  destruct Hcol as [->|[->|[->|[->|[->|[]]]]]]; try discriminate Hkey;
    destruct Hcol' as [->|[->|[->|[->|[->|[]]]]]]; try discriminate Hkey';
    reflexivity.
Defined.

(** Without the proviso a second pass can still rename a column. *)
Lemma normalize_dtw_columns_twice_differs :
  normalize_dtw_columns (normalize_dtw_columns ["StyleName"; "STYLENAME"])
  ≠ normalize_dtw_columns ["StyleName"; "STYLENAME"].
Proof. vm_compute. discriminate. Qed.

End Headers.

(** ** Pairs that fail *)

Section Validation.
Import Flagging Samples.


Lemma has_column_true (c : string) (df : DataFrame) :
  has_column c df = true ↔ c ∈ columns df.
Proof. unfold has_column. apply bool_decide_eq_true. Qed.






End Validation.

(** ** Sizes that are mapped already *)

Section SizeMappingStable.
Import PriceMatcher SizeRules.

Lemma size_mapping_some_match mapping (row : gmap string cell) configs :
  Exists (λ c, config_matches (row !!! "Style") (row !!! "Color") c = true) configs →
  apply_conditional_size_mapping_with mapping row configs
  = mapping_get mapping (row !!! "Size").
Proof.
  induction configs as [|c configs IH]; [by intros ?%Exists_nil|].
  rewrite size_mapping_cons. intros [Hc|Hex]%Exists_cons; [by rewrite Hc|].
  destruct (config_matches _ _ c); [done|]. by apply IH.
Qed.

(** No size that the table gives is itself an entry of the table. *)
Lemma SIZE_MAPPING_values (s t : string) :
  SIZE_MAPPING !! s = Some t → SIZE_MAPPING !! t = None.
Proof.
  unfold SIZE_MAPPING. intros H%elem_of_list_to_map_2.
  rewrite !elem_of_cons, elem_of_nil in H.
  destruct H as [H|[H|[H|[H|[H|[H|[H|[H|[H|[]]]]]]]]]]; injection H as -> ->;
    vm_compute; reflexivity.
Qed.

Lemma mapping_get_idemp (x : cell) :
  mapping_get SIZE_MAPPING (mapping_get SIZE_MAPPING x) = mapping_get SIZE_MAPPING x.
Proof.
  destruct x as [s| | |]; try done. simpl.
  destruct (SIZE_MAPPING !! s) as [t|] eqn:E; simpl.
  - by rewrite (SIZE_MAPPING_values _ _ E).
  - by rewrite E.
Qed.

(** X21. The size mapper leaves a size that it has mapped as it is: for any
    row and any rule list, mapping the row again with its size replaced by
    the mapped size gives the mapped size.  An item code that already
    carries the vendor's size (LG, XLG, ...) is therefore treated like its
    unmapped form (L, XL, ...). *)
Theorem size_mapping_stable (row : gmap string cell) (styles_using_g_sizes : list config) :
  apply_conditional_size_mapping
    (<["Size" := apply_conditional_size_mapping row styles_using_g_sizes]> row)
    styles_using_g_sizes
  = apply_conditional_size_mapping row styles_using_g_sizes.
Proof.
  unfold apply_conditional_size_mapping.
  set (r := apply_conditional_size_mapping_with SIZE_MAPPING row styles_using_g_sizes).
  set (row' := <["Size" := r]> row).
  assert (row' !!! "Style" = row !!! "Style") as Hs
    by (unfold row'; by rewrite lookup_total_insert_ne).
  assert (row' !!! "Color" = row !!! "Color") as Hc
    by (unfold row'; by rewrite lookup_total_insert_ne).
  assert (row' !!! "Size" = r) as Hz by (unfold row'; by rewrite lookup_total_insert_eq).
  destruct (decide (Exists (λ c, config_matches (row !!! "Style") (row !!! "Color") c = true)
                           styles_using_g_sizes)) as [Hex|Hnone].
  - rewrite size_mapping_some_match by (by rewrite Hs, Hc).
    rewrite Hz. unfold r. rewrite size_mapping_some_match by done.
    apply mapping_get_idemp.
  - apply not_Exists_Forall in Hnone; [|intros ?; apply _].
    assert (Forall (λ c, config_matches (row !!! "Style") (row !!! "Color") c = false)
                   styles_using_g_sizes) as Hall.
    { eapply Forall_impl; [exact Hnone|]. intros c Hc'. simpl in Hc'.
      by destruct (config_matches _ _ c). }
    rewrite size_mapping_no_match by (by rewrite Hs, Hc). done.
Qed.

End SizeMappingStable.

(** ** A discontinuation list without the column Variable *)

Section NoVariableColumn.
Import Discontinued Flagging Keys Samples.

Lemma flagged_filter vendor_name oitm_df dtw_df :
  valid_columns oitm_df dtw_df →
  flagged (find_discontinued_items vendor_name oitm_df dtw_df) =
    filter (λ x, item_key x ∈ discontinued_keys dtw_df) (column "ItemCode" oitm_df).
Proof.
  intros Hvalid. destruct (decide (rows oitm_df = [])) as [Hrows|Hrows].
  - rewrite find_discontinued_items_empty by done.
    unfold column. by rewrite Hrows.
  - rewrite (find_discontinued_items_cases _ _ _ Hvalid Hrows). cbv zeta.
    case_bool_decide as Hdisc.
    + assert (discontinued_keys dtw_df = []) as -> by (apply nil_length_inv; lia).
      by rewrite (filter_elem_of_nil item_key).
    + case_bool_decide as Hhits.
      * symmetry. apply nil_length_inv. lia.
      * apply flagged_hits.
Qed.

(** X22. When the discontinuation list has no column Variable, every vendor
    row counts as one without variant, so (the normalised styles, colors and
    sizes holding no '|') only items without variant are flagged: an item
    code with a fourth segment is never flagged, unless that segment reads
    as empty, NONE or NAN. *)
Theorem missing_variable_column vendor_name oitm_df dtw_df x style color size variable :
  valid_columns oitm_df dtw_df → has_column "Variable" dtw_df = false →
  x ∈ flagged (find_discontinued_items vendor_name oitm_df dtw_df) →
  parse_item_no x = (style, color, size, variable) →
  Forall (λ f, contains (normal f) "|" = false) [style; color; size] →
  Forall (λ v : gmap string cell,
            Forall (λ c, contains (normal (v !!! c)) "|" = false)
                   ["Vendor Style"; "Color"; "Size"]) (rows dtw_df) →
  variant_absent variable = true.
Proof.
  intros Hvalid Hvar Hx Hparse Hitem Hvendor.
  rewrite flagged_filter in Hx by done.
  apply list_elem_of_filter in Hx as [Hkey _].
  unfold discontinued_keys in Hkey. rewrite Hvar in Hkey.
  apply list_elem_of_fmap in Hkey as (v & Hkey & [_ Hv]%list_elem_of_filter).
  unfold item_key, vendor_key in Hkey. rewrite Hparse in Hkey. injection Hkey as Hkey.
  rewrite Forall_forall in Hvendor. specialize (Hvendor v Hv).
  rewrite !Forall_cons in Hvendor. rewrite !Forall_cons in Hitem.
  destruct Hvendor as (? & ? & ? & _), Hitem as (? & ? & ? & _).
  apply create_lookup_key_eq_inv in Hkey as (_ & _ & _ & Habs & _).
  - by rewrite Habs.
  - by repeat constructor.
Qed.

Lemma missing_variable_column_witness : variant_absent PyNone = true.
Proof.
  apply (missing_variable_column "V1" tee_oitm bare_dtw (Str "B-BLUE-S")
           (Str "B") (Str "BLUE") (Str "S") PyNone).
  - split_and!; [reflexivity..|]. by repeat constructor.
  - reflexivity.
  - vm_compute. left.
  - reflexivity.
  - by repeat constructor.
  - repeat constructor; vm_compute; reflexivity.
Defined.

End NoVariableColumn.

(** ** Calling [match_prices] twice *)

Section Rerun.
Import PriceMatcher RowEquations Samples.

Implicit Types (r w : gmap string cell) (df : DataFrame).

Lemma set_cell_is_Some (c c' : string) (f : gmap string cell → cell) r :
  c = c' ∨ is_Some (r !! c') → is_Some (set_cell c f r !! c').
Proof.
  unfold set_cell. intros [->|H].
  - rewrite lookup_insert_eq. eauto.
  - apply lookup_insert_is_Some'. by right.
Qed.

Lemma set_cells_parsed_is_Some (p : cell → cell * cell * cell * cell)
    (item_col c : string) r :
  c ∈ ["Style"; "Color"; "Size"; "Variable"] →
  is_Some (set_cells ["Style"; "Color"; "Size"; "Variable"]
             (λ row, let '(style, color, size, variable) := p (row !!! item_col) in
                     [style; color; size; variable]) r !! c).
Proof.
  unfold set_cells. destruct (p (r !!! item_col)) as [[[a b] c0] d]. simpl.
  rewrite !elem_of_cons, elem_of_nil. rewrite !lookup_insert_is_Some'.
  intros [->|[->|[->|[->|[]]]]]; auto 10.
Qed.

(** The two chains of assignments of a call of [match_prices] that returned *)
Ltac match_prices_chains H Ho Hv :=
  unfold match_prices in H;
  cbv zeta in H;
  rewrite ?has_column_assign in H;
  simpl bool_decide in H; rewrite ?orb_false_r in H;
  repeat match type of H with
  | context [negb (has_column ?c ?df)] =>
      destruct (has_column c df) eqn:?; [|done];
      simpl negb in H; cbv iota in H
  | context [bool_decide (rows ?df = [])] =>
      destruct (bool_decide_reflect (rows df = [])); [done|]
  end;
  injection H as Ho Hv.

(** Every column that [match_prices] assigns holds a cell in every row. *)
Lemma match_prices_domains oitm vpl rules o' v' :
  match_prices oitm vpl rules = Ok (o', v') →
  Forall (λ w, Forall (λ c, is_Some (w !! c)) OITM_ASSIGNED) (rows o') ∧
  Forall (λ w, Forall (λ c, is_Some (w !! c)) VPL_ASSIGNED) (rows v').
Proof.
  intros H. match_prices_chains H Ho Hv. split.
  - rewrite <- Ho. rewrite !rows_assign. unfold assign_columns. simpl rows.
    rewrite <- !list_fmap_compose.
    apply Forall_fmap, Forall_forall. intros v _. unfold compose.
    unfold OITM_ASSIGNED.
    repeat apply Forall_cons_2; [..|apply Forall_nil_2];
      repeat (apply set_cell_is_Some; first [left; reflexivity | right]);
      apply set_cells_parsed_is_Some; rewrite !elem_of_cons; auto 10.
  - rewrite <- Hv. rewrite !rows_assign, <- !list_fmap_compose.
    apply Forall_fmap, Forall_forall. intros v _. unfold compose.
    unfold VPL_ASSIGNED.
    repeat apply Forall_cons_2; [..|apply Forall_nil_2];
      repeat (apply set_cell_is_Some; first [left; reflexivity | right]).
Qed.

Lemma add_name_id (c : string) (cols : list string) : c ∈ cols → add_name c cols = cols.
Proof. intros H. unfold add_name. by rewrite bool_decide_eq_true_2. Qed.

Lemma fmap_id_on {A} (f : A → A) (l : list A) :
  Forall (λ x, f x = x) l → f <$> l = l.
Proof. induction 1 as [|x l E _ IH]; [done|]. by rewrite fmap_cons, E, IH. Qed.

(** An assignment that writes what the column holds already changes nothing. *)
Lemma assign_id (c : string) (f : gmap string cell → cell) df :
  c ∈ columns df → Forall (λ r, r !! c = Some (f r)) (rows df) →
  assign c f df = df.
Proof.
  intros Hc Hrows. unfold assign. rewrite add_name_id by done.
  rewrite fmap_id_on; [by destruct df|].
  eapply Forall_impl; [exact Hrows|]. intros r Hr. by apply insert_id.
Qed.

Lemma assign_columns_parsed_id (p : cell → cell * cell * cell * cell)
    (item_col : string) df :
  Forall (λ c, c ∈ columns df) ["Style"; "Color"; "Size"; "Variable"] →
  Forall (λ r, Forall (λ c, is_Some (r !! c)) ["Style"; "Color"; "Size"; "Variable"] ∧
               (r !!! "Style", r !!! "Color", r !!! "Size", r !!! "Variable")
                 = p (r !!! item_col)) (rows df) →
  assign_columns ["Style"; "Color"; "Size"; "Variable"]
    (λ row, let '(style, color, size, variable) := p (row !!! item_col) in
            [style; color; size; variable]) df = df.
Proof.
  intros Hcols Hrows. rewrite !Forall_cons in Hcols.
  destruct Hcols as (H1 & H2 & H3 & H4 & _).
  unfold assign_columns. cbn [foldl].
  rewrite (add_name_id "Style"), (add_name_id "Color"), (add_name_id "Size"),
    (add_name_id "Variable") by done.
  rewrite fmap_id_on; [by destruct df|].
  eapply Forall_impl; [exact Hrows|]. intros r [Hdom Hr]. cbv beta.
  rewrite !Forall_cons in Hdom. destruct Hdom as (D1 & D2 & D3 & D4 & _).
  unfold set_cells. rewrite <- Hr. cbn [zip zip_with foldl fst snd].
  rewrite (insert_id r "Style") by (by apply lookup_lookup_total).
  rewrite (insert_id r "Color") by (by apply lookup_lookup_total).
  rewrite (insert_id r "Size") by (by apply lookup_lookup_total).
  by rewrite (insert_id r "Variable") by (by apply lookup_lookup_total).
Qed.

(** The two assignments of Price, on rows that hold the two-tier price *)
Lemma assign_price_id (d4 d3 : gmap cell cell) df :
  "Price" ∈ columns df →
  Forall (λ r, r !! "Price" =
               Some (two_tier d4 d3 (r !!! "Lookup_Key_4_Mapped")
                                    (r !!! "Lookup_Key_3_Mapped"))) (rows df) →
  assign "Price"
    (λ row, if isna (row !!! "Price")
            then series_map d3 (row !!! "Lookup_Key_3_Mapped")
            else row !!! "Price")
    (assign "Price" (λ row, series_map d4 (row !!! "Lookup_Key_4_Mapped")) df)
  = df.
Proof.
  intros Hc Hrows. unfold assign. cbn [columns rows].
  rewrite !(add_name_id "Price" (columns df)) by done.
  rewrite <- list_fmap_compose.
  rewrite fmap_id_on; [by destruct df|].
  eapply Forall_impl; [exact Hrows|]. intros r Hr. unfold compose.
  cbv beta in Hr. unfold set_cell. rewrite insert_insert_eq.
  apply insert_id. rewrite Hr. f_equal.
  rewrite !lookup_total_insert_eq, lookup_total_insert_ne by done.
  unfold two_tier, series_map.
  destruct (d4 !! _) as [p|]; simpl; [|done]. by destruct (isna p).
Qed.

(** Membership of a name in a list of names that are all written out *)
Ltac elem_of_constants :=
  repeat first [apply list_elem_of_here | apply list_elem_of_further].

(** X23. [match_prices] can be called again on the frames it has updated:
    the second call returns, and leaves both frames exactly as the first
    call left them, columns, rows and prices. *)
Theorem match_prices_again oitm_df vpl_df configs oitm_df' vpl_df' :
  match_prices oitm_df vpl_df configs = Ok (oitm_df', vpl_df') →
  match_prices oitm_df' vpl_df' configs = Ok (oitm_df', vpl_df').
Proof.
  intros H.
  pose proof (match_prices_Ok _ _ _ _ _ H) as (Hitem & Hne & Hreq & Hvpl & Hoitm).
  pose proof (match_prices_columns _ _ _ _ _ H) as [Hcv Hco].
  pose proof (match_prices_domains _ _ _ _ _ H) as [Hdo Hdv].
  assert (∀ c, c ∈ OITM_ASSIGNED → c ∈ columns oitm_df') as Hco'
    by (intros c Hc; apply Hco; by right).
  assert (∀ c, c ∈ VPL_ASSIGNED → c ∈ columns vpl_df') as Hcv'
    by (intros c Hc; apply Hcv; by right).
  assert (∀ c, c ∈ REQUIRED_VPL_COLS → has_column c vpl_df' = true) as Hreq'.
  { intros c Hc. apply has_column_true, Hcv. left.
    rewrite Forall_forall in Hreq. by apply has_column_true, Hreq. }
  assert (has_column "Item No." oitm_df' = true) as Hitem'.
  { apply has_column_true, Hco. left. by apply has_column_true. }
  assert (rows oitm_df' ≠ []) as Hne'.
  { apply Forall2_length in Hoitm. intros E. rewrite E in Hoitm.
    by destruct (rows oitm_df). }
  (* the rows hold what the assignments write *)
  assert (Forall (λ w, (∀ c, c ∈ VPL_ASSIGNED → w !! c = Some (w !!! c)) ∧
                       ∃ v, vpl_row_ok v w) (rows vpl_df')) as Hv.
  { apply Forall_forall. intros w Hw. split.
    - intros c Hc. apply lookup_lookup_total.
      rewrite Forall_forall in Hdv. specialize (Hdv w Hw).
      rewrite Forall_forall in Hdv. by apply Hdv.
    - apply list_elem_of_lookup in Hw as [i Hw].
      destruct (Forall2_lookup_r _ _ _ _ _ Hvpl Hw) as (v & _ & Hok). eauto. }
  assert (Forall (λ w, (∀ c, c ∈ OITM_ASSIGNED → w !! c = Some (w !!! c)) ∧
                       ∃ v, oitm_row_ok configs (price_lookup_4 vpl_df')
                              (price_lookup_3 vpl_df') v w) (rows oitm_df')) as Ho.
  { apply Forall_forall. intros w Hw. split.
    - intros c Hc. apply lookup_lookup_total.
      rewrite Forall_forall in Hdo. specialize (Hdo w Hw).
      rewrite Forall_forall in Hdo. by apply Hdo.
    - apply list_elem_of_lookup in Hw as [i Hw].
      destruct (Forall2_lookup_r _ _ _ _ _ Hoitm Hw) as (v & _ & Hok). eauto. }
  clear Hvpl Hoitm Hdo Hdv H Hcv Hco Hreq Hne Hitem.
  unfold match_prices. rewrite Hitem'. cbn [negb].
  rewrite (bool_decide_eq_false_2 (rows oitm_df' = [])) by done.
  cbv zeta.
  (* the vendor frame *)
  assert (∀ c f, c ∈ VPL_ASSIGNED →
            (∀ v w, vpl_row_ok v w → w !!! c = f w) → assign c f vpl_df' = vpl_df')
    as Hvid.
  { intros c f Hc Hf. apply assign_id; [by apply Hcv'|].
    eapply Forall_impl; [exact Hv|]. intros w [Hdom [v Hok]]. cbv beta.
    rewrite (Hdom c Hc). f_equal. by eapply Hf. }
  rewrite (Hvid "Style_norm");
    [|unfold VPL_ASSIGNED; elem_of_constants|intros v w Hok; apply Hok].
  rewrite (Hvid "Color_norm");
    [|unfold VPL_ASSIGNED; elem_of_constants|intros v w Hok; apply Hok].
  rewrite (Hvid "Size_norm");
    [|unfold VPL_ASSIGNED; elem_of_constants|intros v w Hok; apply Hok].
  rewrite (Hvid "Variable_norm");
    [|unfold VPL_ASSIGNED; elem_of_constants|intros v w Hok; apply Hok].
  rewrite (Hvid "Lookup_Key_4");
    [|unfold VPL_ASSIGNED; elem_of_constants
     |intros v w Hok; rewrite cat_key4; apply Hok].
  rewrite (Hvid "Lookup_Key_3");
    [|unfold VPL_ASSIGNED; elem_of_constants
     |intros v w Hok; rewrite cat_key3; apply Hok].
  rewrite !Hreq' by (unfold REQUIRED_VPL_COLS; elem_of_constants).
  cbn [negb].
  (* the internal frame *)
  rewrite (assign_columns_parsed_id parse_item_no "Item No." oitm_df').
  2:{ repeat apply Forall_cons_2; [..|apply Forall_nil_2];
        apply Hco'; unfold OITM_ASSIGNED; elem_of_constants. }
  2:{ eapply Forall_impl; [exact Ho|]. intros w [Hdom [v Hok]]. cbv beta. split.
      - repeat apply Forall_cons_2; [..|apply Forall_nil_2];
          (eexists; apply Hdom; unfold OITM_ASSIGNED; elem_of_constants).
      - apply Hok. }
  assert (∀ c f, c ∈ OITM_ASSIGNED →
            (∀ v w, oitm_row_ok configs (price_lookup_4 vpl_df')
                      (price_lookup_3 vpl_df') v w → w !!! c = f w) →
            assign c f oitm_df' = oitm_df') as Hoid.
  { intros c f Hc Hf. apply assign_id; [by apply Hco'|].
    eapply Forall_impl; [exact Ho|]. intros w [Hdom [v Hok]]. cbv beta.
    rewrite (Hdom c Hc). f_equal. by eapply Hf. }
  rewrite (Hoid "Size_Mapped");
    [|unfold OITM_ASSIGNED; elem_of_constants|intros v w Hok; apply Hok].
  rewrite (Hoid "Style_norm");
    [|unfold OITM_ASSIGNED; elem_of_constants|intros v w Hok; apply Hok].
  rewrite (Hoid "Color_norm");
    [|unfold OITM_ASSIGNED; elem_of_constants|intros v w Hok; apply Hok].
  rewrite (Hoid "Size_norm");
    [|unfold OITM_ASSIGNED; elem_of_constants|intros v w Hok; apply Hok].
  rewrite (Hoid "Size_Mapped_norm");
    [|unfold OITM_ASSIGNED; elem_of_constants|intros v w Hok; apply Hok].
  rewrite (Hoid "Variable_norm");
    [|unfold OITM_ASSIGNED; elem_of_constants|intros v w Hok; apply Hok].
  rewrite (Hoid "Lookup_Key_4_Mapped");
    [|unfold OITM_ASSIGNED; elem_of_constants
     |intros v w Hok; rewrite cat_key4; apply Hok].
  rewrite (Hoid "Lookup_Key_3_Mapped");
    [|unfold OITM_ASSIGNED; elem_of_constants
     |intros v w Hok; rewrite cat_key3; apply Hok].
  rewrite assign_price_id; [done|apply Hco'; unfold OITM_ASSIGNED; elem_of_constants|].
  eapply Forall_impl; [exact Ho|]. intros w [Hdom [v Hok]]. cbv beta.
  rewrite (Hdom "Price") by (unfold OITM_ASSIGNED; elem_of_constants).
  f_equal. apply Hok.
Qed.

Lemma match_prices_again_witness :
  match_prices demo_after.1 demo_after.2 STYLES_USING_G_SIZES
  = Ok (demo_after.1, demo_after.2).
Proof.
  apply (match_prices_again demo_oitm demo_vpl).
  apply (sample_returns [Str "A-RED-M-1"; Str "A-RED-M-2"; Str "B-RED-M"]
           (rows demo_vpl) STYLES_USING_G_SIZES). discriminate.
Defined.
End Rerun.
